(** * Flickmouse: the throw and catch engine and the flight integrator

    A shallow embedding of the simulation core of the application module
    and the properties of its written specification that were checked
    against it.  The module is embedded from [src/unnamed/part_001], whose
    first 891 lines are the revision with curveball support; line numbers
    refer to that file unless [part_000], the revision before curveball
    support, is named.

    Conventions of the embedding.
    - A JavaScript [number] that carries a reading of [Date.now()] or a
      millisecond setting parsed with [parseInt] is a [Z]; every other
      [number] is a real ([R]).  The rounding of binary64 arithmetic,
      [NaN] and signed zeros are outside of the model.
    - The koota entity is a record with one field per trait.  The entity
      is spawned with every trait, so the [?.value ?? default] fall-backs
      of the source are never taken and are not modelled.
    - [Date.now()] is an input of the handler that reads it, one argument
      per read.
    - The closures given to [setTimeout] are kept in a queue of the
      run-time state and are run by an explicit event.
    - [console.log] is not modelled. *)

From Stdlib Require Import ZArith List Bool Reals Lra Lia Psatz.
From Equations Require Import Equations.
Import ListNotations.

Local Open Scope R_scope.

(** ** Constants (lines 16-32) *)

Definition ARM_DIRECTION_HISTORY_MAX_AGE_MS : Z := 200.
Definition MIN_THROW_SPEED_THRESHOLD : R := 5.
Definition TAP_ACTION_DEBOUNCE_MS : Z := 100.

Definition ANGULAR_FRICTION_CONSTANT : R := 0.8.
Definition MIN_CONTINUING_ANGULAR_VELOCITY : R := 0.02.
Definition MIN_SEGMENTS_FOR_ENDING_CURVE : nat := 2.

Definition FRICTION_FACTOR_HIGH_SPEED : R := 1.4.
Definition FRICTION_FACTOR_LOW_SPEED : R := 6.
Definition FRICTION_TRANSITION_MAX_SPEED : R := 300.

Definition FLICK_SENSITIVITY_EXPONENT : nat := 3.
Definition FLICK_SENSITIVITY_UI_QUADRATIC_A : R := -1.8.
Definition FLICK_SENSITIVITY_UI_QUADRATIC_B : R := 2.8.
Definition BOUNDARY_PADDING : R := 50.

(** ** Data model *)

Module Vector2.
Record t : Type := mk { x : R; y : R }.
End Vector2.

(** An element of [ArmDirectionHistory.samples]. *)
Module Sample.
Record t : Type := mk { dx : R; dy : R; timestamp : Z }.
End Sample.

(** An element of [ThrowPathPlan.segments]. *)
Module Segment.
Record t : Type := mk { dx : R; dy : R; duration : R }.
End Segment.

(** The value of the [ThrowPathPlan] trait. *)
Module Plan.
Record t : Type := mk {
  segments : list Segment.t;
  currentIndex : nat;
  activeTimeInSegment : R;
  endingAngularVelocity : R
}.
Definition empty : t := mk [] 0 0 0.
End Plan.

(** The traits of the watch entity that the simulation reads or writes.
    [GestureProb] keeps the [tap] entry of the last probability event. *)
Record Entity : Type := mkEntity {
  IsThrown : bool;
  IsThrowPending : bool;
  MousePosition : Vector2.t;
  MouseVelocity : Vector2.t;
  ArmDirection : option Vector2.t;
  ArmDirectionHistory : list Sample.t;
  ConfigurableThrowWindowMs : Z;
  ConfigurableThrowStrength : R;
  ConfigurableLookaheadDelayMs : Z;
  FlickSensitivity : R;
  EnableCurveball : bool;
  ThrowPathPlan : Plan.t;
  MouseAngularVelocityCurve : R;
  MouseContinuingAngularVelocity : R;
  LastTapTime : option Z;
  GestureProb : option R
}.

Definition set_IsThrown (v : bool) (e : Entity) : Entity :=
  {| IsThrown := v; IsThrowPending := IsThrowPending e;
     MousePosition := MousePosition e; MouseVelocity := MouseVelocity e;
     ArmDirection := ArmDirection e;
     ArmDirectionHistory := ArmDirectionHistory e;
     ConfigurableThrowWindowMs := ConfigurableThrowWindowMs e;
     ConfigurableThrowStrength := ConfigurableThrowStrength e;
     ConfigurableLookaheadDelayMs := ConfigurableLookaheadDelayMs e;
     FlickSensitivity := FlickSensitivity e;
     EnableCurveball := EnableCurveball e; ThrowPathPlan := ThrowPathPlan e;
     MouseAngularVelocityCurve := MouseAngularVelocityCurve e;
     MouseContinuingAngularVelocity := MouseContinuingAngularVelocity e;
     LastTapTime := LastTapTime e; GestureProb := GestureProb e |}.

Definition set_IsThrowPending (v : bool) (e : Entity) : Entity :=
  {| IsThrown := IsThrown e; IsThrowPending := v;
     MousePosition := MousePosition e; MouseVelocity := MouseVelocity e;
     ArmDirection := ArmDirection e;
     ArmDirectionHistory := ArmDirectionHistory e;
     ConfigurableThrowWindowMs := ConfigurableThrowWindowMs e;
     ConfigurableThrowStrength := ConfigurableThrowStrength e;
     ConfigurableLookaheadDelayMs := ConfigurableLookaheadDelayMs e;
     FlickSensitivity := FlickSensitivity e;
     EnableCurveball := EnableCurveball e; ThrowPathPlan := ThrowPathPlan e;
     MouseAngularVelocityCurve := MouseAngularVelocityCurve e;
     MouseContinuingAngularVelocity := MouseContinuingAngularVelocity e;
     LastTapTime := LastTapTime e; GestureProb := GestureProb e |}.

Definition set_MousePosition (v : Vector2.t) (e : Entity) : Entity :=
  {| IsThrown := IsThrown e; IsThrowPending := IsThrowPending e;
     MousePosition := v; MouseVelocity := MouseVelocity e;
     ArmDirection := ArmDirection e;
     ArmDirectionHistory := ArmDirectionHistory e;
     ConfigurableThrowWindowMs := ConfigurableThrowWindowMs e;
     ConfigurableThrowStrength := ConfigurableThrowStrength e;
     ConfigurableLookaheadDelayMs := ConfigurableLookaheadDelayMs e;
     FlickSensitivity := FlickSensitivity e;
     EnableCurveball := EnableCurveball e; ThrowPathPlan := ThrowPathPlan e;
     MouseAngularVelocityCurve := MouseAngularVelocityCurve e;
     MouseContinuingAngularVelocity := MouseContinuingAngularVelocity e;
     LastTapTime := LastTapTime e; GestureProb := GestureProb e |}.

Definition set_MouseVelocity (v : Vector2.t) (e : Entity) : Entity :=
  {| IsThrown := IsThrown e; IsThrowPending := IsThrowPending e;
     MousePosition := MousePosition e; MouseVelocity := v;
     ArmDirection := ArmDirection e;
     ArmDirectionHistory := ArmDirectionHistory e;
     ConfigurableThrowWindowMs := ConfigurableThrowWindowMs e;
     ConfigurableThrowStrength := ConfigurableThrowStrength e;
     ConfigurableLookaheadDelayMs := ConfigurableLookaheadDelayMs e;
     FlickSensitivity := FlickSensitivity e;
     EnableCurveball := EnableCurveball e; ThrowPathPlan := ThrowPathPlan e;
     MouseAngularVelocityCurve := MouseAngularVelocityCurve e;
     MouseContinuingAngularVelocity := MouseContinuingAngularVelocity e;
     LastTapTime := LastTapTime e; GestureProb := GestureProb e |}.

Definition set_ArmDirection (v : option Vector2.t) (e : Entity) : Entity :=
  {| IsThrown := IsThrown e; IsThrowPending := IsThrowPending e;
     MousePosition := MousePosition e; MouseVelocity := MouseVelocity e;
     ArmDirection := v; ArmDirectionHistory := ArmDirectionHistory e;
     ConfigurableThrowWindowMs := ConfigurableThrowWindowMs e;
     ConfigurableThrowStrength := ConfigurableThrowStrength e;
     ConfigurableLookaheadDelayMs := ConfigurableLookaheadDelayMs e;
     FlickSensitivity := FlickSensitivity e;
     EnableCurveball := EnableCurveball e; ThrowPathPlan := ThrowPathPlan e;
     MouseAngularVelocityCurve := MouseAngularVelocityCurve e;
     MouseContinuingAngularVelocity := MouseContinuingAngularVelocity e;
     LastTapTime := LastTapTime e; GestureProb := GestureProb e |}.

Definition set_ArmDirectionHistory (v : list Sample.t) (e : Entity) : Entity :=
  {| IsThrown := IsThrown e; IsThrowPending := IsThrowPending e;
     MousePosition := MousePosition e; MouseVelocity := MouseVelocity e;
     ArmDirection := ArmDirection e; ArmDirectionHistory := v;
     ConfigurableThrowWindowMs := ConfigurableThrowWindowMs e;
     ConfigurableThrowStrength := ConfigurableThrowStrength e;
     ConfigurableLookaheadDelayMs := ConfigurableLookaheadDelayMs e;
     FlickSensitivity := FlickSensitivity e;
     EnableCurveball := EnableCurveball e; ThrowPathPlan := ThrowPathPlan e;
     MouseAngularVelocityCurve := MouseAngularVelocityCurve e;
     MouseContinuingAngularVelocity := MouseContinuingAngularVelocity e;
     LastTapTime := LastTapTime e; GestureProb := GestureProb e |}.

Definition set_ConfigurableThrowWindowMs (v : Z) (e : Entity) : Entity :=
  {| IsThrown := IsThrown e; IsThrowPending := IsThrowPending e;
     MousePosition := MousePosition e; MouseVelocity := MouseVelocity e;
     ArmDirection := ArmDirection e;
     ArmDirectionHistory := ArmDirectionHistory e;
     ConfigurableThrowWindowMs := v;
     ConfigurableThrowStrength := ConfigurableThrowStrength e;
     ConfigurableLookaheadDelayMs := ConfigurableLookaheadDelayMs e;
     FlickSensitivity := FlickSensitivity e;
     EnableCurveball := EnableCurveball e; ThrowPathPlan := ThrowPathPlan e;
     MouseAngularVelocityCurve := MouseAngularVelocityCurve e;
     MouseContinuingAngularVelocity := MouseContinuingAngularVelocity e;
     LastTapTime := LastTapTime e; GestureProb := GestureProb e |}.

Definition set_ConfigurableThrowStrength (v : R) (e : Entity) : Entity :=
  {| IsThrown := IsThrown e; IsThrowPending := IsThrowPending e;
     MousePosition := MousePosition e; MouseVelocity := MouseVelocity e;
     ArmDirection := ArmDirection e;
     ArmDirectionHistory := ArmDirectionHistory e;
     ConfigurableThrowWindowMs := ConfigurableThrowWindowMs e;
     ConfigurableThrowStrength := v;
     ConfigurableLookaheadDelayMs := ConfigurableLookaheadDelayMs e;
     FlickSensitivity := FlickSensitivity e;
     EnableCurveball := EnableCurveball e; ThrowPathPlan := ThrowPathPlan e;
     MouseAngularVelocityCurve := MouseAngularVelocityCurve e;
     MouseContinuingAngularVelocity := MouseContinuingAngularVelocity e;
     LastTapTime := LastTapTime e; GestureProb := GestureProb e |}.

Definition set_ConfigurableLookaheadDelayMs (v : Z) (e : Entity) : Entity :=
  {| IsThrown := IsThrown e; IsThrowPending := IsThrowPending e;
     MousePosition := MousePosition e; MouseVelocity := MouseVelocity e;
     ArmDirection := ArmDirection e;
     ArmDirectionHistory := ArmDirectionHistory e;
     ConfigurableThrowWindowMs := ConfigurableThrowWindowMs e;
     ConfigurableThrowStrength := ConfigurableThrowStrength e;
     ConfigurableLookaheadDelayMs := v;
     FlickSensitivity := FlickSensitivity e;
     EnableCurveball := EnableCurveball e; ThrowPathPlan := ThrowPathPlan e;
     MouseAngularVelocityCurve := MouseAngularVelocityCurve e;
     MouseContinuingAngularVelocity := MouseContinuingAngularVelocity e;
     LastTapTime := LastTapTime e; GestureProb := GestureProb e |}.

Definition set_FlickSensitivity (v : R) (e : Entity) : Entity :=
  {| IsThrown := IsThrown e; IsThrowPending := IsThrowPending e;
     MousePosition := MousePosition e; MouseVelocity := MouseVelocity e;
     ArmDirection := ArmDirection e;
     ArmDirectionHistory := ArmDirectionHistory e;
     ConfigurableThrowWindowMs := ConfigurableThrowWindowMs e;
     ConfigurableThrowStrength := ConfigurableThrowStrength e;
     ConfigurableLookaheadDelayMs := ConfigurableLookaheadDelayMs e;
     FlickSensitivity := v; EnableCurveball := EnableCurveball e;
     ThrowPathPlan := ThrowPathPlan e;
     MouseAngularVelocityCurve := MouseAngularVelocityCurve e;
     MouseContinuingAngularVelocity := MouseContinuingAngularVelocity e;
     LastTapTime := LastTapTime e; GestureProb := GestureProb e |}.

Definition set_EnableCurveball (v : bool) (e : Entity) : Entity :=
  {| IsThrown := IsThrown e; IsThrowPending := IsThrowPending e;
     MousePosition := MousePosition e; MouseVelocity := MouseVelocity e;
     ArmDirection := ArmDirection e;
     ArmDirectionHistory := ArmDirectionHistory e;
     ConfigurableThrowWindowMs := ConfigurableThrowWindowMs e;
     ConfigurableThrowStrength := ConfigurableThrowStrength e;
     ConfigurableLookaheadDelayMs := ConfigurableLookaheadDelayMs e;
     FlickSensitivity := FlickSensitivity e; EnableCurveball := v;
     ThrowPathPlan := ThrowPathPlan e;
     MouseAngularVelocityCurve := MouseAngularVelocityCurve e;
     MouseContinuingAngularVelocity := MouseContinuingAngularVelocity e;
     LastTapTime := LastTapTime e; GestureProb := GestureProb e |}.

Definition set_ThrowPathPlan (v : Plan.t) (e : Entity) : Entity :=
  {| IsThrown := IsThrown e; IsThrowPending := IsThrowPending e;
     MousePosition := MousePosition e; MouseVelocity := MouseVelocity e;
     ArmDirection := ArmDirection e;
     ArmDirectionHistory := ArmDirectionHistory e;
     ConfigurableThrowWindowMs := ConfigurableThrowWindowMs e;
     ConfigurableThrowStrength := ConfigurableThrowStrength e;
     ConfigurableLookaheadDelayMs := ConfigurableLookaheadDelayMs e;
     FlickSensitivity := FlickSensitivity e;
     EnableCurveball := EnableCurveball e; ThrowPathPlan := v;
     MouseAngularVelocityCurve := MouseAngularVelocityCurve e;
     MouseContinuingAngularVelocity := MouseContinuingAngularVelocity e;
     LastTapTime := LastTapTime e; GestureProb := GestureProb e |}.

Definition set_MouseAngularVelocityCurve (v : R) (e : Entity) : Entity :=
  {| IsThrown := IsThrown e; IsThrowPending := IsThrowPending e;
     MousePosition := MousePosition e; MouseVelocity := MouseVelocity e;
     ArmDirection := ArmDirection e;
     ArmDirectionHistory := ArmDirectionHistory e;
     ConfigurableThrowWindowMs := ConfigurableThrowWindowMs e;
     ConfigurableThrowStrength := ConfigurableThrowStrength e;
     ConfigurableLookaheadDelayMs := ConfigurableLookaheadDelayMs e;
     FlickSensitivity := FlickSensitivity e;
     EnableCurveball := EnableCurveball e; ThrowPathPlan := ThrowPathPlan e;
     MouseAngularVelocityCurve := v;
     MouseContinuingAngularVelocity := MouseContinuingAngularVelocity e;
     LastTapTime := LastTapTime e; GestureProb := GestureProb e |}.

Definition set_MouseContinuingAngularVelocity (v : R) (e : Entity) : Entity :=
  {| IsThrown := IsThrown e; IsThrowPending := IsThrowPending e;
     MousePosition := MousePosition e; MouseVelocity := MouseVelocity e;
     ArmDirection := ArmDirection e;
     ArmDirectionHistory := ArmDirectionHistory e;
     ConfigurableThrowWindowMs := ConfigurableThrowWindowMs e;
     ConfigurableThrowStrength := ConfigurableThrowStrength e;
     ConfigurableLookaheadDelayMs := ConfigurableLookaheadDelayMs e;
     FlickSensitivity := FlickSensitivity e;
     EnableCurveball := EnableCurveball e; ThrowPathPlan := ThrowPathPlan e;
     MouseAngularVelocityCurve := MouseAngularVelocityCurve e;
     MouseContinuingAngularVelocity := v; LastTapTime := LastTapTime e;
     GestureProb := GestureProb e |}.

Definition set_LastTapTime (v : option Z) (e : Entity) : Entity :=
  {| IsThrown := IsThrown e; IsThrowPending := IsThrowPending e;
     MousePosition := MousePosition e; MouseVelocity := MouseVelocity e;
     ArmDirection := ArmDirection e;
     ArmDirectionHistory := ArmDirectionHistory e;
     ConfigurableThrowWindowMs := ConfigurableThrowWindowMs e;
     ConfigurableThrowStrength := ConfigurableThrowStrength e;
     ConfigurableLookaheadDelayMs := ConfigurableLookaheadDelayMs e;
     FlickSensitivity := FlickSensitivity e;
     EnableCurveball := EnableCurveball e; ThrowPathPlan := ThrowPathPlan e;
     MouseAngularVelocityCurve := MouseAngularVelocityCurve e;
     MouseContinuingAngularVelocity := MouseContinuingAngularVelocity e;
     LastTapTime := v; GestureProb := GestureProb e |}.

Definition set_GestureProb (v : option R) (e : Entity) : Entity :=
  {| IsThrown := IsThrown e; IsThrowPending := IsThrowPending e;
     MousePosition := MousePosition e; MouseVelocity := MouseVelocity e;
     ArmDirection := ArmDirection e;
     ArmDirectionHistory := ArmDirectionHistory e;
     ConfigurableThrowWindowMs := ConfigurableThrowWindowMs e;
     ConfigurableThrowStrength := ConfigurableThrowStrength e;
     ConfigurableLookaheadDelayMs := ConfigurableLookaheadDelayMs e;
     FlickSensitivity := FlickSensitivity e;
     EnableCurveball := EnableCurveball e; ThrowPathPlan := ThrowPathPlan e;
     MouseAngularVelocityCurve := MouseAngularVelocityCurve e;
     MouseContinuingAngularVelocity := MouseContinuingAngularVelocity e;
     LastTapTime := LastTapTime e; GestureProb := v |}.

(** Comparisons of reals as booleans. *)
Definition Rltb (a b : R) : bool := if Rlt_dec a b then true else false.
Definition Rleb (a b : R) : bool := if Rle_dec a b then true else false.
Definition Reqb (a b : R) : bool := if Req_dec_T a b then true else false.

(** [Math.sqrt(x ** 2 + y ** 2)] (lines 137, 429 and 494). *)
Definition norm (vx vy : R) : R := sqrt (vx ^ 2 + vy ^ 2).

(** ** Platform functions *)

(** [Math.atan2(y, x)] by its mathematical definition: the angle of the
    point [(x, y)] in the interval (-PI, PI]. *)
Definition atan2 (y x : R) : R :=
  if Rlt_dec 0 x then atan (y / x)
  else if Rlt_dec x 0 then
         (if Rle_dec 0 y then atan (y / x) + PI else atan (y / x) - PI)
  else if Rlt_dec 0 y then PI / 2
  else if Rlt_dec y 0 then - (PI / 2)
  else 0.

(** ** Angle normalisation (lines 167-168)

    The two [while] loops of the source.  Each is defined by well-founded
    recursion on the number of turns that remain to be removed, so the
    definitions also show that the loops terminate on every input. *)

Definition turnsAbove (d : R) : nat := Z.to_nat (up ((d - PI) / (2 * PI))).
Definition turnsBelow (d : R) : nat := Z.to_nat (up ((- PI - d) / (2 * PI))).

(** [while (angleDiff > Math.PI) angleDiff -= 2 * Math.PI;] *)
Equations? whileAbovePi (angleDiff : R) : R by wf (turnsAbove angleDiff) lt :=
  whileAbovePi angleDiff with Rgt_dec angleDiff PI := {
    | left _ => whileAbovePi (angleDiff - 2 * PI)
    | right _ => angleDiff }.
Proof.
  unfold turnsAbove. assert (Hpi := PI_RGT_0).
  replace ((angleDiff - 2 * PI - PI) / (2 * PI))
    with ((angleDiff - PI) / (2 * PI) - 1) by (field; lra).
  set (q := (angleDiff - PI) / (2 * PI)).
  assert (Hq : 0 < q) by (apply Rdiv_lt_0_compat; lra).
  destruct (archimed q) as [Hgt Hle].
  assert (Hup : up (q - 1) = (up q - 1)%Z).
  { symmetry; apply tech_up; rewrite minus_IZR; lra. }
  assert (Hpos : (0 < up q)%Z) by (apply lt_IZR; lra).
  rewrite Hup. lia.
Qed.

(** [while (angleDiff < -Math.PI) angleDiff += 2 * Math.PI;] *)
Equations? whileBelowMinusPi (angleDiff : R) : R
  by wf (turnsBelow angleDiff) lt :=
  whileBelowMinusPi angleDiff with Rlt_dec angleDiff (- PI) := {
    | left _ => whileBelowMinusPi (angleDiff + 2 * PI)
    | right _ => angleDiff }.
Proof.
  unfold turnsBelow. assert (Hpi := PI_RGT_0).
  replace ((- PI - (angleDiff + 2 * PI)) / (2 * PI))
    with ((- PI - angleDiff) / (2 * PI) - 1) by (field; lra).
  set (q := (- PI - angleDiff) / (2 * PI)).
  assert (Hq : 0 < q) by (apply Rdiv_lt_0_compat; lra).
  destruct (archimed q) as [Hgt Hle].
  assert (Hup : up (q - 1) = (up q - 1)%Z).
  { symmetry; apply tech_up; rewrite minus_IZR; lra. }
  assert (Hpos : (0 < up q)%Z) by (apply lt_IZR; lra).
  rewrite Hup. lia.
Qed.

(** ** The commit routine: [executeActualThrowLogic] (lines 76-223) *)

(** The predicate of the [filter] of lines 96-98. *)
Definition inWindow (historyStartTime historyEndTime : Z) (sample : Sample.t)
  : bool :=
  (historyStartTime <=? Sample.timestamp sample)%Z
  && (Sample.timestamp sample <=? historyEndTime)%Z.

(** Lines 90-98: the query of the history, the value of [recentSamples]. *)
Definition samplesInWindow (tapTimestamp : Z) (e : Entity) : list Sample.t :=
  let historyStartTime := (tapTimestamp - ConfigurableThrowWindowMs e)%Z in
  let historyEndTime := (tapTimestamp + ConfigurableLookaheadDelayMs e)%Z in
  filter (inWindow historyStartTime historyEndTime) (ArmDirectionHistory e).

(** The accumulation loop of lines 110-115, for one component. *)
Definition sumOf (f : Sample.t -> R) (samples : list Sample.t) : R :=
  fold_left (fun acc sample => acc + f sample) samples 0.

(** [[...recentSamples].sort((a, b) => a.timestamp - b.timestamp)]:
    the sort of an array is stable, samples with equal time stamps keep
    their order. *)
Fixpoint insertByTimestamp (s : Sample.t) (sorted : list Sample.t)
  : list Sample.t :=
  match sorted with
  | [] => [s]
  | s' :: rest =>
      if (Sample.timestamp s <=? Sample.timestamp s')%Z
      then s :: s' :: rest
      else s' :: insertByTimestamp s rest
  end.

Definition sortByTimestamp (samples : list Sample.t) : list Sample.t :=
  fold_right insertByTimestamp [] samples.

(** The loop of lines 135-152 over [sortedSamples]: the head of the list
    is [sortedSamples[i]], the head of its tail is [sortedSamples[i+1]]. *)
Fixpoint buildPathSegments (sortedSamples : list Sample.t)
  : list Segment.t :=
  match sortedSamples with
  | [] => []
  | currentSample :: rest =>
      let mag := norm (Sample.dx currentSample) (Sample.dy currentSample) in
      let duration :=
        match rest with
        | nextSample :: _ =>
            let timeDiffMs :=
              (Sample.timestamp nextSample - Sample.timestamp currentSample)%Z
            in Rmax 0.02 (IZR timeDiffMs / 1000)
        | [] => 0.2
        end in
      if Rgt_dec mag 0.001
      then Segment.mk (Sample.dx currentSample / mag)
                      (Sample.dy currentSample / mag) duration
           :: buildPathSegments rest
      else buildPathSegments rest
  end.

(** The running sums of lines 156-158. *)
Record AngularSums : Type := mkSums {
  weightedSumAngularVelocity : R;
  sumOfWeights : R;
  numAngleDiffsCalculated : nat
}.

(** One adjacent pair, lines 161-171. *)
Definition currentAngularVelocity (seg1 seg2 : Segment.t) : R :=
  let angle1 := atan2 (Segment.dy seg1) (Segment.dx seg1) in
  let angle2 := atan2 (Segment.dy seg2) (Segment.dx seg2) in
  let angleDiff := whileBelowMinusPi (whileAbovePi (angle2 - angle1)) in
  let relevantDuration :=
    if Rgt_dec (Segment.duration seg2) 0.001
    then Segment.duration seg2 else 0.02 in
  angleDiff / relevantDuration.

(** The loop of lines 160-178, entered at index [i] with the segments
    from [pathSegments[i]] on. *)
Fixpoint angularLoop (i : nat) (segs : list Segment.t) (acc : AngularSums)
  : AngularSums :=
  match segs with
  | seg1 :: ((seg2 :: _) as rest) =>
      let weight := INR (i + 1) in
      angularLoop (S i) rest
        (mkSums
           (weightedSumAngularVelocity acc
            + currentAngularVelocity seg1 seg2 * weight)
           (sumOfWeights acc + weight)
           (S (numAngleDiffsCalculated acc)))
  | _ => acc
  end.

(** Lines 155-190: the value of [calculatedEndingAngularVelocity] for a
    non-empty [pathSegments]. *)
Definition calculatedEndingAngularVelocity (pathSegments : list Segment.t)
  : R :=
  if (MIN_SEGMENTS_FOR_ENDING_CURVE <=? length pathSegments)%nat then
    let sums := angularLoop 0 pathSegments (mkSums 0 0 0) in
    if (0 <? numAngleDiffsCalculated sums)%nat
       && Rltb 0 (sumOfWeights sums)
    then weightedSumAngularVelocity sums / sumOfWeights sums
    else 0
  else 0.

(** Lines 106-128: the base direction, or [None] where the source
    returns without a throw. *)
Definition baseDirection (recentSamples : list Sample.t)
  (armDir : option Vector2.t) : option (R * R) :=
  match recentSamples with
  | _ :: _ =>
      let sumDx := sumOf Sample.dx recentSamples in
      let sumDy := sumOf Sample.dy recentSamples in
      Some (sumDx / INR (length recentSamples),
            sumDy / INR (length recentSamples))
  | [] =>
      match armDir with
      | Some v => Some (Vector2.x v, Vector2.y v)
      | None => None
      end
  end.

Definition clearCurve (e : Entity) : Entity :=
  set_MouseContinuingAngularVelocity 0
    (set_MouseAngularVelocityCurve 0
       (set_ThrowPathPlan Plan.empty e)).

(** Lines 130-215: the path plan and the direction that it leaves in
    [throwDx], [throwDy]. *)
Definition planThrow (recentSamples : list Sample.t) (throwD : R * R)
  (e : Entity) : Entity * (R * R) :=
  if EnableCurveball e && negb (Nat.eqb (length recentSamples) 0) then
    let sortedSamples := sortByTimestamp recentSamples in
    let pathSegments := buildPathSegments sortedSamples in
    match pathSegments with
    | seg0 :: _ =>
        let w := calculatedEndingAngularVelocity pathSegments in
        (set_MouseAngularVelocityCurve 0
           (set_MouseContinuingAngularVelocity w
              (set_ThrowPathPlan (Plan.mk pathSegments 0 0 w) e)),
         (Segment.dx seg0, Segment.dy seg0))
    | [] =>
        (set_MouseAngularVelocityCurve 0
           (set_MouseContinuingAngularVelocity 0
              (set_ThrowPathPlan Plan.empty e)),
         throwD)
    end
  else (clearCurve e, throwD).

Definition executeActualThrowLogic (tapTimestamp : Z) (e : Entity) : Entity :=
  if IsThrown e then e
  else
    let currentThrowStrength := ConfigurableThrowStrength e in
    let recentSamples := samplesInWindow tapTimestamp e in
    match baseDirection recentSamples (ArmDirection e) with
    | None => set_IsThrown false e
    | Some throwD =>
        let '(e', (throwDx, throwDy)) := planThrow recentSamples throwD e in
        let finalVelX := throwDx * currentThrowStrength in
        let finalVelY := throwDy * currentThrowStrength in
        set_IsThrown true
          (set_MouseVelocity (Vector2.mk finalVelX finalVelY) e')
    end.

(** The commit routine of the previous revision (part_000, lines 65-141):
    no curveball, and a guard on the zero vector (lines 128-133). *)
Module PreviousRevision.

Definition executeActualThrowLogic (tapTimestamp : Z) (e : Entity) : Entity :=
  if IsThrown e then e
  else
    let currentThrowStrength := ConfigurableThrowStrength e in
    let recentSamples := samplesInWindow tapTimestamp e in
    match baseDirection recentSamples (ArmDirection e) with
    | None => set_IsThrown false e
    | Some (throwDx, throwDy) =>
        if Reqb throwDx 0 && Reqb throwDy 0 then
          set_MouseVelocity (Vector2.mk 0 0) (set_IsThrown false e)
        else
          let finalVelX := throwDx * currentThrowStrength in
          let finalVelY := throwDy * currentThrowStrength in
          set_IsThrown true
            (set_MouseVelocity (Vector2.mk finalVelX finalVelY) e)
    end.

End PreviousRevision.

(** ** The gesture handlers *)

(** The module-level variable [lastTapActionTimestamp], the entity, and
    the [setTimeout] closures that were scheduled and have not run yet,
    oldest first; a closure is determined by the [tapTimestamp] that it
    captured. *)
Record Runtime : Type := mkRuntime {
  watchEntity : Entity;
  lastTapActionTimestamp : Z;
  timeouts : list Z
}.

(** The closure given to [setTimeout] (lines 259-266). *)
Definition delayedThrow (tapTimestamp : Z) (e : Entity) : Entity :=
  set_IsThrowPending false
    (if IsThrowPending e then executeActualThrowLogic tapTimestamp e else e).

(** The debounce test of line 227. *)
Definition debounced (now : Z) (rt : Runtime) : bool :=
  (now - lastTapActionTimestamp rt <? TAP_ACTION_DEBOUNCE_MS)%Z.

(** [performThrowOrCatchAction] (lines 225-272); [now] is the
    clock read of line 226 and [tapTimestamp] the one of line 251. *)
Definition performThrowOrCatchAction (now tapTimestamp : Z) (rt : Runtime)
  : Runtime :=
  if debounced now rt then rt
  else
    let e := set_LastTapTime (Some now) (watchEntity rt) in
    if IsThrowPending e then mkRuntime e now (timeouts rt)
    else
      let isCurrentlyThrown := IsThrown e in
      if isCurrentlyThrown then
        let e1 := set_MouseVelocity (Vector2.mk 0 0) (set_IsThrown false e) in
        let e2 := if IsThrowPending e1 then set_IsThrowPending false e1
                  else e1 in
        mkRuntime e2 now (timeouts rt)
      else
        let lookaheadDelayMs := ConfigurableLookaheadDelayMs e in
        if (0 <? lookaheadDelayMs)%Z then
          mkRuntime (set_IsThrowPending true e) now
                    (timeouts rt ++ [tapTimestamp])
        else
          mkRuntime (executeActualThrowLogic tapTimestamp e) now (timeouts rt).

(** The flick classifier, lines 311-320 of [probabilityListener]. *)
Definition flickSensitivityInternal (currentFlickSensitivityUI : R) : R :=
  FLICK_SENSITIVITY_UI_QUADRATIC_A * currentFlickSensitivityUI ^ 2
  + FLICK_SENSITIVITY_UI_QUADRATIC_B * currentFlickSensitivityUI.

Definition clampedFlickSensitivityInternal (currentFlickSensitivityUI : R)
  : R :=
  Rmax 0 (Rmin 1 (flickSensitivityInternal currentFlickSensitivityUI)).

Definition probabilityThreshold (currentFlickSensitivityUI : R) : R :=
  (1 - clampedFlickSensitivityInternal currentFlickSensitivityUI)
  ^ FLICK_SENSITIVITY_EXPONENT.

Definition flickTapDetected (currentFlickSensitivityUI tapProbability : R)
  : bool :=
  if Rlt_dec 0 currentFlickSensitivityUI then
    Rleb (probabilityThreshold currentFlickSensitivityUI) tapProbability
  else false.

(** [tapListener] (lines 302-305). *)
Definition tapListener (now tapTimestamp : Z) (rt : Runtime) : Runtime :=
  performThrowOrCatchAction now tapTimestamp rt.

(** [probabilityListener] (lines 307-325); [tap] is the [tap] entry of the
    event detail, [None] when the entry is missing. *)
Definition probabilityListener (tap : option R) (now tapTimestamp : Z)
  (rt : Runtime) : Runtime :=
  let rt1 := mkRuntime (set_GestureProb tap (watchEntity rt))
                       (lastTapActionTimestamp rt) (timeouts rt) in
  let currentFlickSensitivityUI := FlickSensitivity (watchEntity rt1) in
  let tapProbability := match tap with Some p => p | None => 0 end in
  if flickTapDetected currentFlickSensitivityUI tapProbability
  then performThrowOrCatchAction now tapTimestamp rt1
  else rt1.

(** The pruning [filter] of line 338. *)
Definition fresh (now : Z) (sample : Sample.t) : bool :=
  (now - Sample.timestamp sample <=? ARM_DIRECTION_HISTORY_MAX_AGE_MS)%Z.

(** [armDirectionListener] (lines 327-343); [eventData] is [None] for a
    detail without numeric [dx] and [dy]; [stamp] is the clock read of
    line 335 and [now] the one of line 337. *)
Definition armDirectionListener (eventData : option (R * R)) (stamp now : Z)
  (e : Entity) : Entity :=
  match eventData with
  | Some (dx, dy) =>
      let e1 := set_ArmDirection (Some (Vector2.mk dx dy)) e in
      let currentSamples :=
        ArmDirectionHistory e1 ++ [Sample.mk dx dy stamp] in
      set_ArmDirectionHistory (filter (fresh now) currentSamples) e1
  | None => e
  end.

(** ** The frame callback of [R3FMouseCursor] (lines 404-523) *)

(** Lines 431-457.  The plan object that is advanced is the one that
    line 459 reads again, so the function returns it. *)
Definition followPlan (delta currentSpeed : R) (enableCurveball : bool)
  (pathPlanTrait : Plan.t) (vel : R * R) : (R * R) * Plan.t * bool :=
  let segs := Plan.segments pathPlanTrait in
  if enableCurveball && (0 <? length segs)%nat
     && (Plan.currentIndex pathPlanTrait <? length segs)%nat then
    match nth_error segs (Plan.currentIndex pathPlanTrait) with
    | Some segment =>
        let vel' :=
          if Rgt_dec currentSpeed 0.01
          then (Segment.dx segment * currentSpeed,
                Segment.dy segment * currentSpeed)
          else vel in
        let active := Plan.activeTimeInSegment pathPlanTrait + delta in
        let plan' :=
          if Rge_dec active (Segment.duration segment)
          then Plan.mk segs (S (Plan.currentIndex pathPlanTrait)) 0
                       (Plan.endingAngularVelocity pathPlanTrait)
          else Plan.mk segs (Plan.currentIndex pathPlanTrait) active
                       (Plan.endingAngularVelocity pathPlanTrait) in
        (vel', plan', true)
    | None => (vel, pathPlanTrait, false)
    end
  else (vel, pathPlanTrait, false).

(** Line 459. *)
Definition isPathPlanActive (enableCurveball : bool) (plan : Plan.t) : bool :=
  enableCurveball && (0 <? length (Plan.segments plan))%nat
  && (Plan.currentIndex plan <? length (Plan.segments plan))%nat.

(** Lines 481-489. *)
Definition dynamicFrictionFactor (currentSpeed : R) : R :=
  if Rle_dec currentSpeed MIN_THROW_SPEED_THRESHOLD
  then FRICTION_FACTOR_LOW_SPEED
  else if Rge_dec currentSpeed FRICTION_TRANSITION_MAX_SPEED
  then FRICTION_FACTOR_HIGH_SPEED
  else
    let speedRatio :=
      (currentSpeed - MIN_THROW_SPEED_THRESHOLD)
      / (FRICTION_TRANSITION_MAX_SPEED - MIN_THROW_SPEED_THRESHOLD) in
    FRICTION_FACTOR_LOW_SPEED
    + (FRICTION_FACTOR_HIGH_SPEED - FRICTION_FACTOR_LOW_SPEED) * speedRatio.

(** Lines 501-508 and 509-516: two tests in sequence on one axis, the
    second one on the result of the first. *)
Definition clampAxis (bound : R) (pv : R * R) : R * R :=
  let '(p1, v1) :=
    if Rlt_dec (fst pv) BOUNDARY_PADDING then (BOUNDARY_PADDING, 0)
    else pv in
  if Rgt_dec p1 (bound - BOUNDARY_PADDING) then (bound - BOUNDARY_PADDING, 0)
  else (p1, v1).

(** Lines 461-462: the test for the residual spin. *)
Definition spins (enableCurveball : bool) (plan : Plan.t)
  (currentSpeed currentContinuingAngularVelocity : R) : bool :=
  enableCurveball && negb (isPathPlanActive enableCurveball plan)
  && Rltb MIN_THROW_SPEED_THRESHOLD currentSpeed
  && negb (Reqb currentContinuingAngularVelocity 0).

(** Lines 463-469: the velocity turned by [angleDelta]. *)
Definition rotate (angleDelta : R) (vel : R * R) : R * R :=
  let cosA := cos angleDelta in
  let sinA := sin angleDelta in
  (fst vel * cosA - snd vel * sinA, fst vel * sinA + snd vel * cosA).

(** Lines 471-474: the decay of the residual spin. *)
Definition decaySpin (currentContinuingAngularVelocity delta : R) : R :=
  let nextContinuingAngularVelocity :=
    currentContinuingAngularVelocity
    * (1 - ANGULAR_FRICTION_CONSTANT * delta) in
  if Rlt_dec (Rabs nextContinuingAngularVelocity)
             MIN_CONTINUING_ANGULAR_VELOCITY
  then 0 else nextContinuingAngularVelocity.

(** Lines 491-499: friction and the stop test; the boolean tells whether
    [IsThrown] is set to false. *)
Definition applyFriction (currentSpeed delta : R) (vel : R * R)
  : (R * R) * bool :=
  let factor := 1 - dynamicFrictionFactor currentSpeed * delta in
  let vel' := (fst vel * factor, snd vel * factor) in
  let speedAfterFriction := norm (fst vel') (snd vel') in
  if Rlt_dec speedAfterFriction MIN_THROW_SPEED_THRESHOLD
  then ((0, 0), true) else (vel', false).

Definition useFrame (delta innerWidth innerHeight : R) (e : Entity) : Entity :=
  let kootaPosition := MousePosition e in
  let kootaVelocity := MouseVelocity e in
  let pathPlanTrait := ThrowPathPlan e in
  let currentContinuingAngularVelocity := MouseContinuingAngularVelocity e in
  let enableCurveball := EnableCurveball e in
  if IsThrown e then
    let newKootaX :=
      Vector2.x kootaPosition + Vector2.x kootaVelocity * delta in
    let newKootaY :=
      Vector2.y kootaPosition + Vector2.y kootaVelocity * delta in
    let currentSpeed :=
      norm (Vector2.x kootaVelocity) (Vector2.y kootaVelocity) in
    let '(vel1, plan1, planWritten) :=
      followPlan delta currentSpeed enableCurveball pathPlanTrait
                 (Vector2.x kootaVelocity, Vector2.y kootaVelocity) in
    let e1 := if planWritten then set_ThrowPathPlan plan1 e else e in
    let spinning :=
      spins enableCurveball plan1 currentSpeed
            currentContinuingAngularVelocity in
    let vel2 :=
      if spinning
      then rotate (currentContinuingAngularVelocity * delta) vel1
      else vel1 in
    let e2 :=
      if spinning
      then set_MouseContinuingAngularVelocity
             (decaySpin currentContinuingAngularVelocity delta) e1
      else e1 in
    let '(vel3, stops) := applyFriction currentSpeed delta vel2 in
    let e3 := if stops then set_IsThrown false e2 else e2 in
    let '(x5, vx5) := clampAxis innerWidth (newKootaX, fst vel3) in
    let '(y5, vy5) := clampAxis innerHeight (newKootaY, snd vel3) in
    set_MouseVelocity (Vector2.mk vx5 vy5)
      (set_MousePosition (Vector2.mk x5 y5) e3)
  else e.

(** ** The settings panel ([WatchInfoDisplay], lines 740-832)

    The [onChange] handlers; [val] is the parsed input. *)

Definition onEntity (f : Entity -> Entity) (rt : Runtime) : Runtime :=
  mkRuntime (f (watchEntity rt)) (lastTapActionTimestamp rt) (timeouts rt).

Definition changeThrowWindow (val : Z) : Entity -> Entity :=
  set_ConfigurableThrowWindowMs val.
Definition changeThrowStrength (val : Z) : Entity -> Entity :=
  set_ConfigurableThrowStrength (IZR val).
Definition changeFlickSensitivity (val : R) : Entity -> Entity :=
  set_FlickSensitivity val.
Definition changeLookaheadDelay (val : Z) : Entity -> Entity :=
  set_ConfigurableLookaheadDelayMs (Z.max 0 val).
Definition changeCurveball (checked : bool) : Entity -> Entity :=
  set_EnableCurveball checked.

(** ** Executions

    The event loop is single threaded: an execution is a sequence of
    events, each handled to completion. *)

Inductive Event : Type :=
| Tap (now tapTimestamp : Z)
| Probability (tap : option R) (now tapTimestamp : Z)
| ArmDirectionChanged (eventData : option (R * R)) (stamp now : Z)
| TimeoutFires (k : nat)
| Frame (delta innerWidth innerHeight : R)
| ThrowWindowInput (val : Z)
| ThrowStrengthInput (val : Z)
| FlickSensitivityInput (val : R)
| LookaheadDelayInput (val : Z)
| CurveballInput (checked : bool).

(** [TimeoutFires k] runs the scheduled closure number [k] and removes it
    from the queue; it does nothing when there is no such closure. *)
Definition fireTimeout (k : nat) (rt : Runtime) : Runtime :=
  match nth_error (timeouts rt) k with
  | Some tapTimestamp =>
      mkRuntime (delayedThrow tapTimestamp (watchEntity rt))
                (lastTapActionTimestamp rt)
                (firstn k (timeouts rt) ++ skipn (S k) (timeouts rt))
  | None => rt
  end.

Definition handle (ev : Event) (rt : Runtime) : Runtime :=
  match ev with
  | Tap now tapTimestamp => tapListener now tapTimestamp rt
  | Probability tap now tapTimestamp =>
      probabilityListener tap now tapTimestamp rt
  | ArmDirectionChanged eventData stamp now =>
      onEntity (armDirectionListener eventData stamp now) rt
  | TimeoutFires k => fireTimeout k rt
  | Frame delta innerWidth innerHeight =>
      onEntity (useFrame delta innerWidth innerHeight) rt
  | ThrowWindowInput val => onEntity (changeThrowWindow val) rt
  | ThrowStrengthInput val => onEntity (changeThrowStrength val) rt
  | FlickSensitivityInput val => onEntity (changeFlickSensitivity val) rt
  | LookaheadDelayInput val => onEntity (changeLookaheadDelay val) rt
  | CurveballInput checked => onEntity (changeCurveball checked) rt
  end.

Definition run (evs : list Event) (rt : Runtime) : Runtime :=
  fold_left (fun st ev => handle ev st) evs rt.

(** The entity as it is spawned in [AppContent] (lines 845-865), with the
    default values of the traits (lines 34-70). *)
Definition spawned (innerWidth innerHeight : R) : Entity :=
  {| IsThrown := false; IsThrowPending := false;
     MousePosition := Vector2.mk (innerWidth / 2) (innerHeight / 2);
     MouseVelocity := Vector2.mk 0 0;
     ArmDirection := None; ArmDirectionHistory := [];
     ConfigurableThrowWindowMs := 50; ConfigurableThrowStrength := 900;
     ConfigurableLookaheadDelayMs := 30; FlickSensitivity := 0;
     EnableCurveball := false; ThrowPathPlan := Plan.empty;
     MouseAngularVelocityCurve := 0;
     MouseContinuingAngularVelocity := 0;
     LastTapTime := None; GestureProb := None |}.

Definition initial (innerWidth innerHeight : R) : Runtime :=
  mkRuntime (spawned innerWidth innerHeight) 0 [].

(** The clock reading of the action attempt that an event makes in a
    state, if it makes one: every tap does, a probability event does
    when the classifier fires. *)
Definition attempt (ev : Event) (rt : Runtime) : option Z :=
  match ev with
  | Tap now _ => Some now
  | Probability tap now _ =>
      if flickTapDetected (FlickSensitivity (watchEntity rt))
                          (match tap with Some p => p | None => 0 end)
      then Some now else None
  | _ => None
  end.

(** An attempt is allowed to proceed when it gets past line 230. *)
Definition allowed (ev : Event) (rt : Runtime) : bool :=
  match attempt ev rt with
  | Some now => negb (debounced now rt)
  | None => false
  end.

(** The three states of the specification, read off the two flags. *)
Inductive ThrowState : Type := Idle | Pending | Flying.

Definition throwState (e : Entity) : ThrowState :=
  if IsThrown e then Flying
  else if IsThrowPending e then Pending
  else Idle.

(** ** Vocabulary of the properties *)

Ltac same_fields := repeat split; reflexivity.

(** The fields of an entity that only the sensor listener and the
    settings panel write. *)
Definition sameInputs (e e' : Entity) : Prop :=
  ArmDirection e' = ArmDirection e
  /\ ArmDirectionHistory e' = ArmDirectionHistory e
  /\ ConfigurableThrowWindowMs e' = ConfigurableThrowWindowMs e
  /\ ConfigurableThrowStrength e' = ConfigurableThrowStrength e
  /\ ConfigurableLookaheadDelayMs e' = ConfigurableLookaheadDelayMs e
  /\ FlickSensitivity e' = FlickSensitivity e
  /\ EnableCurveball e' = EnableCurveball e.

(** The clock reading (line 337) of the last sample recorded by a
    sequence of events. *)
Definition lastRecord (evs : list Event) : option Z :=
  fold_left
    (fun acc ev =>
       match ev with
       | ArmDirectionChanged (Some _) _ now => Some now
       | _ => acc
       end)
    evs None.

Definition retainedAt (now : Z) (sample : Sample.t) : Prop :=
  (now - Sample.timestamp sample <= ARM_DIRECTION_HISTORY_MAX_AGE_MS)%Z.

(** The component-wise average of the specification. *)
Definition average (values : list R) : R :=
  fold_right Rplus 0 values / INR (length values).

(** The entity of the end-to-end scenario: one sample [(dx, 0)] recorded
    at time 0, a throw window of 50 ms, no lookahead, strength 500. *)
Definition scenarioEntity (dx : R) (curveball : bool) : Entity :=
  set_EnableCurveball curveball
    (set_ArmDirectionHistory [Sample.mk dx 0 0]
       (set_ConfigurableThrowStrength 500
          (set_ConfigurableLookaheadDelayMs 0 (spawned 800 600)))).

(** The two loops of lines 167-168 in sequence. *)
Definition wrapAngle (angleDiff : R) : R :=
  whileBelowMinusPi (whileAbovePi angleDiff).

(** [w] is [d] wrapped to the interval [-PI, PI]. *)
Definition isWrapped (d w : R) : Prop :=
  - PI <= w <= PI /\ exists k : Z, w = d + IZR k * (2 * PI).

(** The adjacent pairs of a list of segments, in order. *)
Fixpoint adjacentPairs (segs : list Segment.t)
  : list (Segment.t * Segment.t) :=
  match segs with
  | seg1 :: ((seg2 :: _) as rest) => (seg1, seg2) :: adjacentPairs rest
  | _ => []
  end.

Definition direction (seg : Segment.t) : R :=
  atan2 (Segment.dy seg) (Segment.dx seg).

(** The instantaneous angular velocity of a pair, in the words of the
    specification. *)
Definition pairAngularVelocity (pair : Segment.t * Segment.t) : R :=
  wrapAngle (direction (snd pair) - direction (fst pair))
  / Segment.duration (snd pair).

(** Weighted sums in which the value number [i] has weight [i + 1]. *)
Fixpoint weightedSumFrom (i : nat) (values : list R) : R :=
  match values with
  | [] => 0
  | v :: rest => INR (i + 1) * v + weightedSumFrom (S i) rest
  end.

Fixpoint weightsFrom (i : nat) (values : list R) : R :=
  match values with
  | [] => 0
  | _ :: rest => INR (i + 1) + weightsFrom (S i) rest
  end.

Definition weightedAverage (values : list R) : R :=
  weightedSumFrom 0 values / weightsFrom 0 values.

(** Two samples a quarter turn apart, 10 ms apart, in curveball mode. *)
Definition quarterTurnEntity : Entity :=
  set_EnableCurveball true
    (set_ArmDirectionHistory [Sample.mk 1 0 0; Sample.mk 0 1 10]
       (set_ConfigurableThrowStrength 500
          (set_ConfigurableLookaheadDelayMs 0 (spawned 800 600)))).

Definition inPlayArea (innerWidth innerHeight : R) (p : Vector2.t) : Prop :=
  BOUNDARY_PADDING <= Vector2.x p <= innerWidth - BOUNDARY_PADDING
  /\ BOUNDARY_PADDING <= Vector2.y p <= innerHeight - BOUNDARY_PADDING.

(** The position of an axis is clamped when the integrated position is
    outside of the padded interval. *)
Definition clamped (bound p : R) : Prop :=
  p < BOUNDARY_PADDING \/ p > bound - BOUNDARY_PADDING.

Definition speed (v : Vector2.t) : R := norm (Vector2.x v) (Vector2.y v).

(** An object in flight in the middle of a 4000 by 2000 play area, with
    velocity [(500, 0)] and no path plan. *)
Definition flyingEntity : Entity :=
  set_IsThrown true
    (set_MouseVelocity (Vector2.mk 500 0) (spawned 4000 2000)).

(** All the frames of an execution see the same viewport. *)
Definition fixedViewport (innerWidth innerHeight : R) (evs : list Event)
  : Prop :=
  Forall (fun ev =>
            match ev with
            | Frame _ w h => w = innerWidth /\ h = innerHeight
            | _ => True
            end) evs.

(** What holds of the flags and of the queue of closures in every
    reachable state: while a throw is pending the object is not flying
    and exactly one closure waits; otherwise none does. *)
Definition pendingInvariant (rt : Runtime) : Prop :=
  if IsThrowPending (watchEntity rt)
  then IsThrown (watchEntity rt) = false /\ length (timeouts rt) = 1%nat
  else timeouts rt = [].

(** A sample to the right, then a tap with no lookahead. *)
Definition throwScript : list Event :=
  [LookaheadDelayInput 0; ArmDirectionChanged (Some (1, 0)) 1000 1000;
   Tap 1000 1000].

(** A sample, then a tap with the default lookahead of 30 ms. *)
Definition pendingScript : list Event :=
  [ArmDirectionChanged (Some (1, 0)) 1000 1000; Tap 1000 1000].

(** ** Further vocabulary *)

(** A sample is usable for the path plan when its magnitude passes the
    test of line 138. *)
Definition usable (sample : Sample.t) : bool :=
  Rltb 0.001 (norm (Sample.dx sample) (Sample.dy sample)).

(** Three samples along one direction, 10 ms apart, in curveball mode. *)
Definition straightMoveEntity : Entity :=
  set_EnableCurveball true
    (set_ArmDirectionHistory
       [Sample.mk 3 4 0; Sample.mk 6 8 10; Sample.mk 1.5 2 20]
       (set_ConfigurableThrowStrength 500
          (set_ConfigurableLookaheadDelayMs 0 (spawned 800 600)))).

(** What holds of the path plan in every reachable state: its segments
    are unit vectors and the index is at most the number of segments. *)
Definition planInvariant (e : Entity) : Prop :=
  Forall (fun seg => norm (Segment.dx seg) (Segment.dy seg) = 1)
         (Plan.segments (ThrowPathPlan e))
  /\ (Plan.currentIndex (ThrowPathPlan e)
      <= length (Plan.segments (ThrowPathPlan e)))%nat.

(** A curved throw: two samples a quarter turn apart, curveball mode, a
    tap without lookahead. *)
Definition curveScript : list Event :=
  [LookaheadDelayInput 0; CurveballInput true;
   ArmDirectionChanged (Some (1, 0)) 1000 1000;
   ArmDirectionChanged (Some (0, 1)) 1010 1010;
   Tap 1010 1010].

(** A history is chronological when no sample is older than one that
    precedes it. *)
Fixpoint chronological (samples : list Sample.t) : Prop :=
  match samples with
  | [] => True
  | s :: rest =>
      Forall (fun s' => (Sample.timestamp s <= Sample.timestamp s')%Z) rest
      /\ chronological rest
  end.

(** The clock read of line 335 never runs backwards along a sequence of
    events; [last] is the previous reading. *)
Fixpoint steadyClock (last : Z) (evs : list Event) : Prop :=
  match evs with
  | [] => True
  | ArmDirectionChanged (Some _) stamp _ :: rest =>
      (last <= stamp)%Z /\ steadyClock stamp rest
  | _ :: rest => steadyClock last rest
  end.

(** The history is chronological and no sample of it is younger than
    the last reading of the recording clock. *)
Definition historyInOrder (last : Z) (e : Entity) : Prop :=
  chronological (ArmDirectionHistory e)
  /\ Forall (fun s => (Sample.timestamp s <= last)%Z) (ArmDirectionHistory e).

(** Two records, ten milliseconds apart. *)
Definition steadyScript : list Event :=
  [ArmDirectionChanged (Some (1, 0)) 1000 1000;
   ArmDirectionChanged (Some (0, 1)) 1010 1010].

(** ** The resize handler of [VirtualMouse] (lines 641-653) *)

Definition handleResize (newWidth newHeight : R) (e : Entity) : Entity :=
  if negb (IsThrown e)
  then set_MousePosition (Vector2.mk (newWidth / 2) (newHeight / 2)) e
  else e.

(** ** The frame callback of [DebugThrowVectorLine] (lines 537-636)

    The values that the component reads with hooks when it renders
    ([showDebugLineSetting], [isCurrentlyThrown], [configurableThrowWindow],
    [currentThrowStrength]) and the React state [linePoints] are the
    arguments of the callback; [tapTime] is the clock read of line 570.
    The result is the next value of [linePoints], or [None] when the
    callback reads [.x] of a point that the array does not have. *)

Definition DEBUG_LINE_VISUAL_SCALE : R := 0.1.

Module Vector3.
Record t : Type := mk { x : R; y : R; z : R }.
End Vector3.

(** The two points of lines 544-547 and 554. *)
Definition restingLine : list Vector3.t :=
  [Vector3.mk 0 0 0.1; Vector3.mk 0 0 0.1].

(** The loop of lines 590-599; the result is what it pushes. *)
Fixpoint pushSegments (currentThrowStrength perSampleScale : R)
  (currentX currentY : R) (samplesToUse : list Sample.t)
  : list Vector3.t :=
  match samplesToUse with
  | [] => []
  | sample :: rest =>
      let vecX_r3f_segment :=
        Sample.dx sample * currentThrowStrength * perSampleScale in
      let vecY_r3f_segment :=
        - (Sample.dy sample * currentThrowStrength * perSampleScale) in
      let currentX' := currentX + vecX_r3f_segment in
      let currentY' := currentY + vecY_r3f_segment in
      Vector3.mk currentX' currentY' 0.1
      :: pushSegments currentThrowStrength perSampleScale
                      currentX' currentY' rest
  end.

(** Lines 552-557: the line is hidden. *)
Definition hideLine (linePoints : list Vector3.t)
  : option (list Vector3.t) :=
  if (2 <? length linePoints)%nat then Some restingLine
  else
    match nth_error linePoints 0 with
    | None => None
    | Some p0 =>
        if negb (Reqb (Vector3.x p0) 0) then Some restingLine
        else
          match nth_error linePoints 1 with
          | None => None
          | Some p1 =>
              if negb (Reqb (Vector3.x p1) 0) then Some restingLine
              else Some linePoints
          end
    end.

(** Lines 559-626: the points of the visible line. *)
Definition drawLine (configurableThrowWindow : Z) (currentThrowStrength : R)
  (tapTime : Z) (innerWidth innerHeight : R) (e : Entity)
  : list Vector3.t :=
  let kootaMousePos := MousePosition e in
  let startX_r3f := Vector2.x kootaMousePos - innerWidth / 2 in
  let startY_r3f := - (Vector2.y kootaMousePos - innerHeight / 2) in
  let startPoint := Vector3.mk startX_r3f startY_r3f 0.1 in
  let lookaheadDelayMs := ConfigurableLookaheadDelayMs e in
  let historyStartTime := (tapTime - configurableThrowWindow)%Z in
  let historyEndTime := (tapTime + lookaheadDelayMs)%Z in
  let samplesToUse :=
    sortByTimestamp
      (filter (inWindow historyStartTime historyEndTime)
              (ArmDirectionHistory e)) in
  if (0 <? length samplesToUse)%nat then
    let numSamples := length samplesToUse in
    let perSampleScale :=
      DEBUG_LINE_VISUAL_SCALE
      / (if (1 <? numSamples)%nat then sqrt (INR numSamples) else 1) in
    let points :=
      startPoint
      :: pushSegments currentThrowStrength perSampleScale
                      startX_r3f startY_r3f samplesToUse in
    if (length points =? 1)%nat then
      match ArmDirection e with
      | Some currentArmDir =>
          let vecX_r3f :=
            Vector2.x currentArmDir * currentThrowStrength
            * DEBUG_LINE_VISUAL_SCALE in
          let vecY_r3f :=
            - (Vector2.y currentArmDir * currentThrowStrength
               * DEBUG_LINE_VISUAL_SCALE) in
          points
          ++ [Vector3.mk (startX_r3f + vecX_r3f) (startY_r3f + vecY_r3f) 0.1]
      | None => points ++ [Vector3.mk startX_r3f startY_r3f 0.1]
      end
    else points
  else
    let '(potentialDx, potentialDy) :=
      match ArmDirection e with
      | Some currentArmDir =>
          (Vector2.x currentArmDir, Vector2.y currentArmDir)
      | None => (0, 0)
      end in
    let vecX_r3f :=
      potentialDx * currentThrowStrength * DEBUG_LINE_VISUAL_SCALE in
    let vecY_r3f :=
      - (potentialDy * currentThrowStrength * DEBUG_LINE_VISUAL_SCALE) in
    [startPoint;
     Vector3.mk (startX_r3f + vecX_r3f) (startY_r3f + vecY_r3f) 0.1].

Definition debugLineFrame (showDebugLineSetting isCurrentlyThrown : bool)
  (configurableThrowWindow : Z) (currentThrowStrength : R) (tapTime : Z)
  (innerWidth innerHeight : R) (e : Entity) (linePoints : list Vector3.t)
  : option (list Vector3.t) :=
  if negb showDebugLineSetting || isCurrentlyThrown then hideLine linePoints
  else Some (drawLine configurableThrowWindow currentThrowStrength tapTime
                      innerWidth innerHeight e).

(** The vector from the first point of a line to its last point. *)
Definition lineSpan (points : list Vector3.t) : R * R :=
  let first := hd (Vector3.mk 0 0 0) points in
  let final := last points (Vector3.mk 0 0 0) in
  (Vector3.x final - Vector3.x first, Vector3.y final - Vector3.y first).

(** ** The frame callback of the previous revision (part_000, lines
    349-447): friction, the stop test and the walls, no curveball. *)
Module BeforeCurveball.

Definition useFrame (delta innerWidth innerHeight : R) (e : Entity) : Entity :=
  let kootaPosition := MousePosition e in
  let kootaVelocity := MouseVelocity e in
  if IsThrown e then
    let newKootaX :=
      Vector2.x kootaPosition + Vector2.x kootaVelocity * delta in
    let newKootaY :=
      Vector2.y kootaPosition + Vector2.y kootaVelocity * delta in
    let currentSpeed :=
      norm (Vector2.x kootaVelocity) (Vector2.y kootaVelocity) in
    let '(vel, stops) :=
      applyFriction currentSpeed delta
                    (Vector2.x kootaVelocity, Vector2.y kootaVelocity) in
    let e1 := if stops then set_IsThrown false e else e in
    let '(x5, vx5) := clampAxis innerWidth (newKootaX, fst vel) in
    let '(y5, vy5) := clampAxis innerHeight (newKootaY, snd vel) in
    set_MouseVelocity (Vector2.mk vx5 vy5)
      (set_MousePosition (Vector2.mk x5 y5) e1)
  else e.

End BeforeCurveball.

(** ** Earlier revisions of the gesture handlers *)

(** The flick classifier before the quadratic remapping of the slider
    (vite.config.ts, lines 246-257): the threshold is computed from the
    raw sensitivity. *)
Module RawSensitivity.

Definition probabilityThreshold (currentFlickSensitivity : R) : R :=
  (1 - currentFlickSensitivity) ^ FLICK_SENSITIVITY_EXPONENT.

Definition flickTapDetected (currentFlickSensitivity tapProbability : R)
  : bool :=
  if Rlt_dec 0 currentFlickSensitivity then
    Rleb (probabilityThreshold currentFlickSensitivity) tapProbability
  else false.

End RawSensitivity.

(** The first revision with a history (part_001, lines 1354-1409): the
    tap listener throws and catches by itself, with a fixed window and a
    fixed speed scale; [now] is the clock read of [new Date()] and
    [tapTime] the one of line 1363. *)
Module FirstHistoryRevision.

Definition THROW_SPEED_SCALE : R := 500.
Definition THROW_GESTURE_WINDOW_MS : Z := 30.

Definition inGestureWindow (tapTime : Z) (sample : Sample.t) : bool :=
  (tapTime - Sample.timestamp sample <=? THROW_GESTURE_WINDOW_MS)%Z
  && (0 <=? tapTime - Sample.timestamp sample)%Z.

(** Lines 1361-1391: the direction of the throw. *)
Definition throwDirection (tapTime : Z) (e : Entity) : R * R :=
  let recentSamples :=
    filter (inGestureWindow tapTime) (ArmDirectionHistory e) in
  let '(throwDx, throwDy) :=
    if (0 <? length recentSamples)%nat then
      (sumOf Sample.dx recentSamples / INR (length recentSamples),
       sumOf Sample.dy recentSamples / INR (length recentSamples))
    else (0, 0) in
  if Reqb throwDx 0 && Reqb throwDy 0 then
    match ArmDirection e with
    | Some armDirectionValue =>
        (Vector2.x armDirectionValue, Vector2.y armDirectionValue)
    | None => (throwDx, throwDy)
    end
  else (throwDx, throwDy).

Definition tapListener (now tapTime : Z) (e : Entity) : Entity :=
  let e0 := set_LastTapTime (Some now) e in
  let currentIsThrown := IsThrown e0 in
  if negb currentIsThrown then
    let '(throwDx, throwDy) := throwDirection tapTime e0 in
    if negb (Reqb throwDx 0) || negb (Reqb throwDy 0) then
      set_IsThrown true
        (set_MouseVelocity
           (Vector2.mk (throwDx * THROW_SPEED_SCALE)
                       (throwDy * THROW_SPEED_SCALE)) e0)
    else e0
  else
    set_IsThrown false (set_MouseVelocity (Vector2.mk 0 0) e0).

End FirstHistoryRevision.

(** ** Vocabulary of the catch *)





(** The same sample three times, 10 ms apart, in curveball mode. *)
Definition steadyAimEntity : Entity :=
  set_EnableCurveball true
    (set_ArmDirectionHistory
       [Sample.mk 3 4 0; Sample.mk 3 4 10; Sample.mk 3 4 20]
       (set_ConfigurableThrowStrength 500
          (set_ConfigurableLookaheadDelayMs 0 (spawned 800 600)))).

(** An object in flight in curveball mode, with velocity [(500, 0)], no
    path plan and a residual spin of 1 radian per second. *)
Definition spinningEntity : Entity :=
  set_MouseContinuingAngularVelocity 1
    (set_EnableCurveball true flyingEntity).

(** * Properties *)

(** ** The debounce clock *)

Lemma performThrowOrCatchAction_clock (now tapTimestamp : Z) (rt : Runtime) :
  lastTapActionTimestamp (performThrowOrCatchAction now tapTimestamp rt)
  = if debounced now rt then lastTapActionTimestamp rt else now.
Proof.
  unfold performThrowOrCatchAction.
  destruct (debounced now rt); [reflexivity|].
  cbn [IsThrowPending IsThrown set_LastTapTime ConfigurableLookaheadDelayMs].
  destruct (IsThrowPending (watchEntity rt)); [reflexivity|].
  destruct (IsThrown (watchEntity rt)); [reflexivity|].
  destruct (0 <? _)%Z; reflexivity.
Qed.

Lemma handle_clock_attempt (ev : Event) (rt : Runtime) (now : Z) :
  attempt ev rt = Some now ->
  lastTapActionTimestamp (handle ev rt)
  = if debounced now rt then lastTapActionTimestamp rt else now.
Proof.
  destruct ev; cbn [attempt handle]; try discriminate.
  - intros [= <-]. apply performThrowOrCatchAction_clock.
  - unfold probabilityListener. cbn [watchEntity].
    cbn [FlickSensitivity set_GestureProb].
    destruct (flickTapDetected _ _); [|discriminate].
    intros [= <-]. rewrite performThrowOrCatchAction_clock. reflexivity.
Qed.

Lemma handle_clock_other (ev : Event) (rt : Runtime) :
  attempt ev rt = None ->
  lastTapActionTimestamp (handle ev rt) = lastTapActionTimestamp rt.
Proof.
  destruct ev; cbn [attempt handle]; try discriminate; try reflexivity.
  - unfold probabilityListener. cbn [watchEntity].
    cbn [FlickSensitivity set_GestureProb].
    destruct (flickTapDetected _ _); [discriminate|reflexivity].
  - intros _. unfold fireTimeout.
    destruct (nth_error _ _); reflexivity.
Qed.

(** The clock never moves backwards, whatever the event. *)
Lemma handle_clock_mono (ev : Event) (rt : Runtime) :
  (lastTapActionTimestamp rt <= lastTapActionTimestamp (handle ev rt))%Z.
Proof.
  destruct (attempt ev rt) as [now|] eqn:Ha.
  - rewrite (handle_clock_attempt _ _ _ Ha).
    unfold debounced, TAP_ACTION_DEBOUNCE_MS.
    destruct (Z.ltb_spec (now - lastTapActionTimestamp rt) 100); lia.
  - rewrite (handle_clock_other _ _ Ha). lia.
Qed.

Lemma run_clock_mono (evs : list Event) (rt : Runtime) :
  (lastTapActionTimestamp rt <= lastTapActionTimestamp (run evs rt))%Z.
Proof.
  revert rt. induction evs as [|ev evs IH]; intros rt; cbn.
  - lia.
  - etransitivity; [apply (handle_clock_mono ev)|apply IH].
Qed.

Lemma run_app (evs1 evs2 : list Event) (rt : Runtime) :
  run (evs1 ++ evs2) rt = run evs2 (run evs1 rt).
Proof. unfold run. apply fold_left_app. Qed.

(** C7.  Two action attempts, of either source, whose clock readings
    differ by less than the debounce time are never both allowed: once
    the first one is allowed, whatever happens in between, the second one
    is stopped by the debounce test. *)
Theorem debounce_at_most_one (rt : Runtime) (a b : Event)
  (between : list Event) (t1 t2 : Z) :
  attempt a rt = Some t1 ->
  attempt b (run (a :: between) rt) = Some t2 ->
  (Z.abs (t2 - t1) < TAP_ACTION_DEBOUNCE_MS)%Z ->
  allowed a rt = true ->
  allowed b (run (a :: between) rt) = false.
Proof.
  intros Ha Hb Hclose Hallow.
  unfold allowed in *. rewrite Ha in Hallow. rewrite Hb.
  apply negb_true_iff in Hallow.
  assert (Hclock : lastTapActionTimestamp (handle a rt) = t1).
  { rewrite (handle_clock_attempt _ _ _ Ha), Hallow. reflexivity. }
  assert (Hmono := run_clock_mono between (handle a rt)).
  change (run (a :: between) rt) with (run between (handle a rt)).
  apply negb_false_iff. unfold debounced in *.
  apply Z.ltb_lt. lia.
Qed.

Lemma Rltb_true (a b : R) : a < b -> Rltb a b = true.
Proof. intros H. unfold Rltb. destruct (Rlt_dec a b); [reflexivity|lra]. Qed.

Lemma Rltb_false (a b : R) : b <= a -> Rltb a b = false.
Proof. intros H. unfold Rltb. destruct (Rlt_dec a b); [lra|reflexivity]. Qed.

Lemma Rleb_true (a b : R) : a <= b -> Rleb a b = true.
Proof. intros H. unfold Rleb. destruct (Rle_dec a b); [reflexivity|lra]. Qed.

Lemma Rleb_false (a b : R) : b < a -> Rleb a b = false.
Proof. intros H. unfold Rleb. destruct (Rle_dec a b); [lra|reflexivity]. Qed.

Lemma Reqb_true (a b : R) : a = b -> Reqb a b = true.
Proof. intros H. unfold Reqb. destruct (Req_dec_T a b); [reflexivity|lra]. Qed.

Lemma Reqb_false (a b : R) : a <> b -> Reqb a b = false.
Proof.
  intros H. unfold Reqb. destruct (Req_dec_T a b); [contradiction|reflexivity].
Qed.

(** At full sensitivity the threshold is 0. *)
Lemma probabilityThreshold_full : probabilityThreshold 1 = 0.
Proof.
  unfold probabilityThreshold, clampedFlickSensitivityInternal,
    flickSensitivityInternal, FLICK_SENSITIVITY_UI_QUADRATIC_A,
    FLICK_SENSITIVITY_UI_QUADRATIC_B, FLICK_SENSITIVITY_EXPONENT.
  replace (-1.8 * 1 ^ 2 + 2.8 * 1) with 1 by lra.
  rewrite Rmin_left by lra. rewrite Rmax_right by lra. lra.
Qed.

Lemma flickTapDetected_full : flickTapDetected 1 1 = true.
Proof.
  unfold flickTapDetected. destruct (Rlt_dec 0 1) as [_|H]; [|lra].
  rewrite probabilityThreshold_full. apply Rleb_true. lra.
Qed.

Lemma debounce_at_most_one_witness :
  allowed (Probability (Some 1) 1050 1050)
          (run [Tap 1000 1000; FlickSensitivityInput 1] (initial 800 600))
  = false.
Proof.
  apply (debounce_at_most_one (initial 800 600) (Tap 1000 1000)
           (Probability (Some 1) 1050 1050) [FlickSensitivityInput 1]
           1000 1050).
  - reflexivity.
  - cbn. rewrite flickTapDetected_full. reflexivity.
  - reflexivity.
  - reflexivity.
Defined.

(** C10.  An action attempt that gets past the debounce test sets the
    debounce clock to its own clock reading in every branch that follows.
    When a throw is pending the attempt changes nothing else, and when
    the commit finds no direction the object stays where it was; in both
    cases an attempt made less than the debounce time later is dropped. *)
Theorem attempt_resets_clock (now tapTimestamp : Z) (rt : Runtime) :
  debounced now rt = false ->
  let rt' := performThrowOrCatchAction now tapTimestamp rt in
  let e := set_LastTapTime (Some now) (watchEntity rt) in
  lastTapActionTimestamp rt' = now
  /\ (IsThrowPending (watchEntity rt) = true ->
      rt' = mkRuntime e now (timeouts rt))
  /\ (IsThrowPending (watchEntity rt) = false ->
      IsThrown (watchEntity rt) = false ->
      (ConfigurableLookaheadDelayMs (watchEntity rt) <= 0)%Z ->
      ArmDirection (watchEntity rt) = None ->
      samplesInWindow tapTimestamp (watchEntity rt) = [] ->
      rt' = mkRuntime (set_IsThrown false e) now (timeouts rt))
  /\ (forall now' tapTimestamp' : Z,
        (now' - now < TAP_ACTION_DEBOUNCE_MS)%Z ->
        performThrowOrCatchAction now' tapTimestamp' rt' = rt').
Proof.
  intros Hpass rt' e.
  assert (Hclock : lastTapActionTimestamp rt' = now).
  { unfold rt'. rewrite performThrowOrCatchAction_clock, Hpass. reflexivity. }
  split; [exact Hclock|]. split; [|split].
  - intros Hpending. unfold rt', performThrowOrCatchAction.
    rewrite Hpass. cbn [IsThrowPending set_LastTapTime].
    rewrite Hpending. reflexivity.
  - intros Hpending Hthrown Hdelay Hdir Hhist.
    unfold rt', performThrowOrCatchAction. rewrite Hpass.
    cbn [IsThrowPending IsThrown set_LastTapTime
         ConfigurableLookaheadDelayMs].
    rewrite Hpending, Hthrown.
    destruct (Z.ltb_spec 0 (ConfigurableLookaheadDelayMs (watchEntity rt)));
      [lia|].
    unfold executeActualThrowLogic.
    change (samplesInWindow tapTimestamp
              (set_LastTapTime (Some now) (watchEntity rt)))
      with (samplesInWindow tapTimestamp (watchEntity rt)).
    cbn [IsThrown set_LastTapTime ArmDirection].
    rewrite Hthrown, Hhist, Hdir. reflexivity.
  - intros now' tapTimestamp' Hsoon.
    unfold performThrowOrCatchAction at 1. unfold debounced.
    rewrite Hclock.
    destruct (Z.ltb_spec (now' - now) TAP_ACTION_DEBOUNCE_MS);
      [reflexivity|lia].
Qed.

Lemma attempt_resets_clock_witness :
  lastTapActionTimestamp
    (performThrowOrCatchAction 1100 1100
       (run [Tap 1000 1000] (initial 800 600))) = 1100%Z
  /\ performThrowOrCatchAction 1199 1199
       (performThrowOrCatchAction 1100 1100
          (run [Tap 1000 1000] (initial 800 600)))
     = performThrowOrCatchAction 1100 1100
         (run [Tap 1000 1000] (initial 800 600)).
Proof.
  destruct (attempt_resets_clock 1100 1100
              (run [Tap 1000 1000] (initial 800 600)) eq_refl)
    as (Hclock & _ & _ & Hnext).
  split; [exact Hclock|].
  apply Hnext. reflexivity.
Defined.

(** ** What the handlers leave untouched *)

Lemma planThrow_sameInputs (recent : list Sample.t) (d : R * R) (e : Entity) :
  sameInputs e (fst (planThrow recent d e))
  /\ IsThrown (fst (planThrow recent d e)) = IsThrown e
  /\ IsThrowPending (fst (planThrow recent d e)) = IsThrowPending e
  /\ MousePosition (fst (planThrow recent d e)) = MousePosition e
  /\ MouseVelocity (fst (planThrow recent d e)) = MouseVelocity e.
Proof.
  unfold planThrow, sameInputs.
  destruct (EnableCurveball e && _);
    [destruct (buildPathSegments _)|]; cbn; same_fields.
Qed.

Lemma executeActualThrowLogic_sameInputs (tapTimestamp : Z) (e : Entity) :
  sameInputs e (executeActualThrowLogic tapTimestamp e)
  /\ IsThrowPending (executeActualThrowLogic tapTimestamp e)
     = IsThrowPending e
  /\ MousePosition (executeActualThrowLogic tapTimestamp e)
     = MousePosition e.
Proof.
  unfold executeActualThrowLogic.
  destruct (IsThrown e); [unfold sameInputs; same_fields|].
  destruct (baseDirection _ _) as [d|]; [|unfold sameInputs; same_fields].
  destruct (planThrow_sameInputs (samplesInWindow tapTimestamp e) d e)
    as (Hin & _ & Hp & Hpos & _).
  destruct (planThrow _ d e) as [e' [throwDx throwDy]].
  cbn [fst] in *. unfold sameInputs in *. cbn. tauto.
Qed.

Lemma delayedThrow_sameInputs (tapTimestamp : Z) (e : Entity) :
  sameInputs e (delayedThrow tapTimestamp e).
Proof.
  unfold delayedThrow.
  destruct (IsThrowPending e).
  - destruct (executeActualThrowLogic_sameInputs tapTimestamp e) as [H _].
    unfold sameInputs in *. cbn. tauto.
  - unfold sameInputs. same_fields.
Qed.

Lemma performThrowOrCatchAction_sameInputs (now tapTimestamp : Z)
  (rt : Runtime) :
  sameInputs (watchEntity rt)
    (watchEntity (performThrowOrCatchAction now tapTimestamp rt)).
Proof.
  unfold performThrowOrCatchAction.
  destruct (debounced now rt); [unfold sameInputs; same_fields|].
  cbn [IsThrowPending IsThrown set_LastTapTime ConfigurableLookaheadDelayMs
       set_MouseVelocity set_IsThrown].
  destruct (IsThrowPending (watchEntity rt));
    [unfold sameInputs; same_fields|].
  destruct (IsThrown (watchEntity rt)); [unfold sameInputs; same_fields|].
  destruct (0 <? _)%Z; [unfold sameInputs; same_fields|].
  cbn [watchEntity].
  destruct (executeActualThrowLogic_sameInputs tapTimestamp
              (set_LastTapTime (Some now) (watchEntity rt))) as [H _].
  exact H.
Qed.

Lemma useFrame_sameInputs (delta innerWidth innerHeight : R) (e : Entity) :
  sameInputs e (useFrame delta innerWidth innerHeight e)
  /\ IsThrowPending (useFrame delta innerWidth innerHeight e)
     = IsThrowPending e.
Proof.
  unfold useFrame.
  destruct (IsThrown e); [|unfold sameInputs; same_fields].
  destruct (followPlan _ _ _ _ _) as [[vel1 plan1] planWritten].
  destruct (applyFriction _ _ _) as [vel3 stops].
  destruct (clampAxis innerWidth _) as [x5 vx5].
  destruct (clampAxis innerHeight _) as [y5 vy5].
  unfold sameInputs.
  destruct planWritten, (spins _ _ _ _), stops; cbn; same_fields.
Qed.

(** ** The sample history *)

Lemma armDirectionListener_prunes (dx dy : R) (stamp now : Z) (e : Entity) :
  Forall (retainedAt now)
    (ArmDirectionHistory (armDirectionListener (Some (dx, dy)) stamp now e)).
Proof.
  cbn. apply Forall_forall. intros s Hs.
  apply filter_In in Hs. destruct Hs as [_ Hs].
  unfold fresh in Hs. unfold retainedAt. apply Z.leb_le. exact Hs.
Qed.

Lemma handle_history (ev : Event) (rt : Runtime) :
  match ev with
  | ArmDirectionChanged (Some _) _ now =>
      Forall (retainedAt now) (ArmDirectionHistory (watchEntity (handle ev rt)))
  | _ =>
      ArmDirectionHistory (watchEntity (handle ev rt))
      = ArmDirectionHistory (watchEntity rt)
  end.
Proof.
  destruct ev as [now ts|tap now ts|[[dx dy]|] stamp now|k|dt w h| | | | |];
    cbn [handle]; try reflexivity.
  - apply (performThrowOrCatchAction_sameInputs now ts rt).
  - unfold probabilityListener.
    destruct (flickTapDetected _ _); [|reflexivity].
    etransitivity.
    + apply (performThrowOrCatchAction_sameInputs now ts).
    + reflexivity.
  - apply armDirectionListener_prunes.
  - unfold fireTimeout. destruct (nth_error _ _) as [ts|]; [|reflexivity].
    apply (delayedThrow_sameInputs ts (watchEntity rt)).
  - apply (useFrame_sameInputs dt w h (watchEntity rt)).
Qed.

Lemma run_history (evs : list Event) :
  forall (rt : Runtime) (acc : option Z),
    match acc with
    | Some t => Forall (retainedAt t) (ArmDirectionHistory (watchEntity rt))
    | None => True
    end ->
    match fold_left
            (fun acc ev =>
               match ev with
               | ArmDirectionChanged (Some _) _ now => Some now
               | _ => acc
               end) evs acc with
    | Some t =>
        Forall (retainedAt t) (ArmDirectionHistory (watchEntity (run evs rt)))
    | None => True
    end.
Proof.
  induction evs as [|ev evs IH]; intros rt acc Hacc; cbn [fold_left run].
  - exact Hacc.
  - apply (IH (handle ev rt)).
    pose proof (handle_history ev rt) as Hh.
    destruct ev as [| |[p|]| | | | | | |];
      try (destruct acc; [rewrite Hh; exact Hacc|exact I]).
    exact Hh.
Qed.

(** C8, as amended.  After any sequence of events, every sample that the
    query of the commit routine returns was within the maximal age at
    the clock reading [t] of the last record, and has its time stamp in
    the query window.  Samples are pruned when one is recorded, not when
    the history is queried. *)
Theorem query_returns_retained_samples (rt : Runtime) (evs : list Event)
  (t tapTimestamp : Z) (sample : Sample.t) :
  lastRecord evs = Some t ->
  In sample (samplesInWindow tapTimestamp (watchEntity (run evs rt))) ->
  (t - Sample.timestamp sample <= ARM_DIRECTION_HISTORY_MAX_AGE_MS)%Z
  /\ (tapTimestamp - ConfigurableThrowWindowMs (watchEntity (run evs rt))
      <= Sample.timestamp sample
      <= tapTimestamp
         + ConfigurableLookaheadDelayMs (watchEntity (run evs rt)))%Z.
Proof.
  intros Hlast Hin.
  unfold samplesInWindow in Hin. apply filter_In in Hin.
  destruct Hin as [Hin Hwin].
  split.
  - pose proof (run_history evs rt None I) as H.
    unfold lastRecord in Hlast. rewrite Hlast in H.
    rewrite Forall_forall in H. apply (H sample Hin).
  - unfold inWindow in Hwin. apply andb_true_iff in Hwin.
    destruct Hwin as [H1 H2].
    apply Z.leb_le in H1. apply Z.leb_le in H2. lia.
Qed.

Lemma query_returns_retained_samples_witness :
  (100 - Sample.timestamp (Sample.mk 1 0 100)
   <= ARM_DIRECTION_HISTORY_MAX_AGE_MS)%Z.
Proof.
  refine (proj1 (query_returns_retained_samples (initial 800 600)
            [ArmDirectionChanged (Some (1, 0)) 100 100] 100 110
            (Sample.mk 1 0 100) eq_refl _)).
  cbn. left. reflexivity.
Defined.

(** C8, as stated, fails: with a throw window of 300 ms and no lookahead,
    a tap 250 ms after the only record makes the query of the commit
    return a sample that is older than the maximal age at the time of the
    query, and the object is thrown along it. *)
Lemma query_returns_stale_sample :
  let rt := run [ThrowWindowInput 300; LookaheadDelayInput 0;
                 ArmDirectionChanged (Some (1, 0)) 1000 1000]
                (initial 800 600) in
  let queryTime := 1250%Z in
  (exists sample,
      In sample (samplesInWindow queryTime (watchEntity rt))
      /\ ~ (queryTime - Sample.timestamp sample
            <= ARM_DIRECTION_HISTORY_MAX_AGE_MS)%Z)
  /\ IsThrown (watchEntity (handle (Tap queryTime queryTime) rt)) = true.
Proof.
  cbn zeta. split.
  - exists (Sample.mk 1 0 1000). split.
    + cbn. left. reflexivity.
    + cbn. unfold ARM_DIRECTION_HISTORY_MAX_AGE_MS. lia.
  - reflexivity.
Qed.

(** ** The flick classifier *)

Lemma clamped_range (s : R) :
  0 <= clampedFlickSensitivityInternal s <= 1.
Proof.
  unfold clampedFlickSensitivityInternal.
  split.
  - apply Rmax_l.
  - apply Rmax_lub; [lra|apply Rmin_l].
Qed.

Lemma clamped_monotone (s1 s2 : R) :
  0 <= s1 -> s1 <= s2 -> s2 <= 1 ->
  clampedFlickSensitivityInternal s1 <= clampedFlickSensitivityInternal s2.
Proof.
  intros H0 H12 H1.
  unfold clampedFlickSensitivityInternal, flickSensitivityInternal,
    FLICK_SENSITIVITY_UI_QUADRATIC_A, FLICK_SENSITIVITY_UI_QUADRATIC_B.
  set (q1 := -1.8 * s1 ^ 2 + 2.8 * s1).
  set (q2 := -1.8 * s2 ^ 2 + 2.8 * s2).
  destruct (Rle_dec (s1 + s2) (14 / 9)) as [Hlow|Hhigh].
  - assert (Hq : q1 <= q2) by (unfold q1, q2; nra).
    apply Rle_max_compat_l. apply Rle_min_compat_l. exact Hq.
  - assert (Hq2 : 1 <= q2) by (unfold q2; nra).
    rewrite (Rmin_left 1 q2) by exact Hq2.
    rewrite (Rmax_right 0 1) by lra.
    apply Rmax_lub; [lra|apply Rmin_l].
Qed.





(** ** The commit routine *)

Lemma fold_left_plus_shift (f : Sample.t -> R) (l : list Sample.t) (a : R) :
  fold_left (fun acc sample => acc + f sample) l a
  = a + fold_right Rplus 0 (map f l).
Proof.
  revert a. induction l as [|s l IH]; intros a; cbn.
  - lra.
  - rewrite IH. lra.
Qed.

Lemma sumOf_average (f : Sample.t -> R) (l : list Sample.t) :
  sumOf f l / INR (length l) = average (map f l).
Proof.
  unfold sumOf, average. rewrite fold_left_plus_shift, length_map.
  f_equal. lra.
Qed.

Lemma norm_axis (a : R) : 0 <= a -> norm a 0 = a.
Proof.
  intros Ha. unfold norm.
  replace (a ^ 2 + 0 ^ 2) with (a * a) by ring.
  apply sqrt_square. exact Ha.
Qed.

(** What the commit routine writes when the object is not flying and the
    window holds a sample. *)
Lemma executeActualThrowLogic_with_samples (tapTimestamp : Z) (e : Entity) :
  IsThrown e = false ->
  samplesInWindow tapTimestamp e <> [] ->
  let recent := samplesInWindow tapTimestamp e in
  let strength := ConfigurableThrowStrength e in
  let e' := executeActualThrowLogic tapTimestamp e in
  IsThrown e' = true
  /\ (EnableCurveball e = false
      \/ buildPathSegments (sortByTimestamp recent) = [] ->
      MouseVelocity e'
      = Vector2.mk (average (map Sample.dx recent) * strength)
                   (average (map Sample.dy recent) * strength))
  /\ (forall (seg0 : Segment.t) (rest : list Segment.t),
        EnableCurveball e = true ->
        buildPathSegments (sortByTimestamp recent) = seg0 :: rest ->
        MouseVelocity e'
        = Vector2.mk (Segment.dx seg0 * strength)
                     (Segment.dy seg0 * strength)).
Proof.
  intros Hidle Hsome. cbv zeta.
  unfold executeActualThrowLogic. rewrite Hidle.
  destruct (samplesInWindow tapTimestamp e) as [|s l] eqn:Hr;
    [contradiction|].
  unfold baseDirection. rewrite !sumOf_average.
  unfold planThrow. cbn [length Nat.eqb negb]. rewrite andb_true_r.
  destruct (EnableCurveball e) eqn:Hcurve.
  - destruct (buildPathSegments (sortByTimestamp (s :: l))) as [|seg0 rest]
      eqn:Hsegs.
    + split; [reflexivity|]. split; [reflexivity|].
      intros ? ? _ H. discriminate.
    + split; [reflexivity|]. split.
      * intros [H|H]; discriminate.
      * intros s' r _ [= <- <-]. reflexivity.
  - split; [reflexivity|]. split; [reflexivity|].
    intros ? ? H. discriminate.
Qed.

Lemma scenario_segments (dx : R) :
  0.001 < dx ->
  buildPathSegments (sortByTimestamp [Sample.mk dx 0 0])
  = [Segment.mk 1 0 0.2].
Proof.
  intros Hdx. cbn. rewrite norm_axis by lra.
  destruct (Rgt_dec dx 0.001) as [_|H]; [|lra].
  f_equal. f_equal; field; lra.
Qed.

(** C1, as amended.  A commit while the object is not flying (from Idle,
    or from Pending when the lookahead has elapsed) with at least one
    sample in the window sets the state to Flying.  Its velocity is the
    component-wise average of the samples in the window times the throw
    strength when curveball mode is off or no sample yields a path
    segment; with curveball mode on it is the direction of the first
    path segment times the throw strength.  In the end-to-end scenario
    the committed velocity is (500, 0) in both modes. *)
Theorem commit_velocity (tapTimestamp : Z) (e : Entity) :
  throwState e <> Flying ->
  samplesInWindow tapTimestamp e <> [] ->
  let recent := samplesInWindow tapTimestamp e in
  let strength := ConfigurableThrowStrength e in
  let e' := executeActualThrowLogic tapTimestamp e in
  throwState e' = Flying
  /\ (EnableCurveball e = false
      \/ buildPathSegments (sortByTimestamp recent) = [] ->
      MouseVelocity e'
      = Vector2.mk (average (map Sample.dx recent) * strength)
                   (average (map Sample.dy recent) * strength))
  /\ (forall (seg0 : Segment.t) (rest : list Segment.t),
        EnableCurveball e = true ->
        buildPathSegments (sortByTimestamp recent) = seg0 :: rest ->
        MouseVelocity e'
        = Vector2.mk (Segment.dx seg0 * strength)
                     (Segment.dy seg0 * strength))
  /\ (forall curveball : bool,
        MouseVelocity (executeActualThrowLogic 10 (scenarioEntity 1 curveball))
        = Vector2.mk 500 0
        /\ throwState (executeActualThrowLogic 10 (scenarioEntity 1 curveball))
           = Flying).
Proof.
  intros Hidle Hsome recent strength e'.
  assert (Hnot : IsThrown e = false).
  { unfold throwState in Hidle.
    destruct (IsThrown e); [contradiction|reflexivity]. }
  destruct (executeActualThrowLogic_with_samples tapTimestamp e Hnot Hsome)
    as (Hfly & Havg & Hseg).
  split; [|split; [exact Havg|split; [exact Hseg|]]].
  - unfold throwState. unfold e'. rewrite Hfly. reflexivity.
  - intros curveball.
    assert (Hs : samplesInWindow 10 (scenarioEntity 1 curveball)
                 = [Sample.mk 1 0 0]) by (destruct curveball; reflexivity).
    assert (Hne : samplesInWindow 10 (scenarioEntity 1 curveball) <> [])
      by (rewrite Hs; discriminate).
    destruct (executeActualThrowLogic_with_samples 10
                (scenarioEntity 1 curveball) eq_refl Hne)
      as (Hfly' & Havg' & Hseg').
    split.
    + destruct curveball.
      * rewrite (Hseg' (Segment.mk 1 0 0.2) []); [|reflexivity|].
        -- cbn. f_equal; lra.
        -- rewrite Hs. apply scenario_segments. lra.
      * rewrite Havg' by (left; reflexivity).
        rewrite Hs. unfold average. cbn. f_equal; lra.
    + unfold throwState. rewrite Hfly'. reflexivity.
Qed.

Lemma commit_velocity_witness :
  throwState (executeActualThrowLogic 10 (scenarioEntity 1 false)) = Flying.
Proof.
  refine (proj1 (commit_velocity 10 (scenarioEntity 1 false) _ _)).
  - cbn. discriminate.
  - cbn. discriminate.
Defined.

(** C1, as stated, fails in curveball mode: for the single sample
    [(2, 0)] the average times the strength is (1000, 0), the committed
    velocity is the unit direction times the strength, (500, 0). *)
Lemma commit_curveball_ignores_average :
  let e := scenarioEntity 2 true in
  throwState e = Idle
  /\ samplesInWindow 10 e = [Sample.mk 2 0 0]
  /\ MouseVelocity (executeActualThrowLogic 10 e) = Vector2.mk 500 0
  /\ MouseVelocity (executeActualThrowLogic 10 e)
     <> Vector2.mk
          (average (map Sample.dx (samplesInWindow 10 e))
           * ConfigurableThrowStrength e)
          (average (map Sample.dy (samplesInWindow 10 e))
           * ConfigurableThrowStrength e).
Proof.
  cbn zeta.
  assert (Hs : samplesInWindow 10 (scenarioEntity 2 true)
               = [Sample.mk 2 0 0]) by reflexivity.
  assert (Hne : samplesInWindow 10 (scenarioEntity 2 true) <> [])
    by (rewrite Hs; discriminate).
  destruct (executeActualThrowLogic_with_samples 10
              (scenarioEntity 2 true) eq_refl Hne) as (_ & _ & Hseg).
  assert (Hv : MouseVelocity (executeActualThrowLogic 10 (scenarioEntity 2 true))
               = Vector2.mk 500 0).
  { rewrite (Hseg (Segment.mk 1 0 0.2) []); [|reflexivity|].
    - cbn. f_equal; lra.
    - rewrite Hs. apply scenario_segments. lra. }
  split; [reflexivity|]. split; [exact Hs|]. split; [exact Hv|].
  rewrite Hv, Hs. unfold average. cbn.
  intros H. injection H as H _. lra.
Qed.

(** What the commit routine does with a zero base direction when
    curveball mode is off: it throws, with velocity zero. *)
Lemma executeActualThrowLogic_zero_direction (tapTimestamp : Z) (e : Entity) :
  IsThrown e = false ->
  EnableCurveball e = false ->
  baseDirection (samplesInWindow tapTimestamp e) (ArmDirection e)
  = Some (0, 0) ->
  IsThrown (executeActualThrowLogic tapTimestamp e) = true
  /\ MouseVelocity (executeActualThrowLogic tapTimestamp e) = Vector2.mk 0 0.
Proof.
  intros Hidle Hcurve Hbase.
  unfold executeActualThrowLogic. rewrite Hidle, Hbase.
  unfold planThrow. rewrite Hcurve. cbn.
  split; [reflexivity|]. f_equal; lra.
Qed.

(** The previous revision stops on a zero base direction. *)
Lemma previous_revision_zero_direction (tapTimestamp : Z) (e : Entity) :
  IsThrown e = false ->
  baseDirection (samplesInWindow tapTimestamp e) (ArmDirection e)
  = Some (0, 0) ->
  PreviousRevision.executeActualThrowLogic tapTimestamp e
  = set_MouseVelocity (Vector2.mk 0 0) (set_IsThrown false e).
Proof.
  intros Hidle Hbase.
  unfold PreviousRevision.executeActualThrowLogic.
  rewrite Hidle, Hbase. rewrite !Reqb_true by reflexivity. reflexivity.
Qed.

Lemma scenario_zero_base (curveball : bool) :
  baseDirection (samplesInWindow 10 (scenarioEntity 0 curveball))
                (ArmDirection (scenarioEntity 0 curveball))
  = Some (0, 0).
Proof.
  destruct curveball; cbn; unfold sumOf; cbn; do 2 f_equal; lra.
Qed.

(** C2 fails on the current revision.  In the end-to-end scenario with the
    sample [(0, 0)] in the window the base direction is the zero vector;
    the commit sets the velocity to zero and the state to Flying.  The
    previous revision of the routine leaves the state Idle on the same
    input. *)
Theorem commit_zero_direction_flies :
  let e := scenarioEntity 0 false in
  throwState e = Idle
  /\ baseDirection (samplesInWindow 10 e) (ArmDirection e) = Some (0, 0)
  /\ throwState (executeActualThrowLogic 10 e) = Flying
  /\ MouseVelocity (executeActualThrowLogic 10 e) = Vector2.mk 0 0
  /\ throwState (PreviousRevision.executeActualThrowLogic 10 e) = Idle
  /\ MouseVelocity (PreviousRevision.executeActualThrowLogic 10 e)
     = Vector2.mk 0 0.
Proof.
  cbn zeta.
  pose proof (scenario_zero_base false) as Hbase.
  destruct (executeActualThrowLogic_zero_direction 10 (scenarioEntity 0 false)
              eq_refl eq_refl Hbase) as [Hfly Hvel].
  pose proof (previous_revision_zero_direction 10 (scenarioEntity 0 false)
                eq_refl Hbase) as Hprev.
  split; [reflexivity|]. split; [exact Hbase|].
  split; [unfold throwState; rewrite Hfly; reflexivity|].
  split; [exact Hvel|].
  rewrite Hprev. split; reflexivity.
Qed.

(** ** The exit spin estimate *)

Lemma whileAbovePi_spec (d : R) :
  whileAbovePi d <= PI
  /\ (d <= PI -> whileAbovePi d = d)
  /\ (PI < d -> - PI < whileAbovePi d)
  /\ exists k : Z, whileAbovePi d = d + IZR k * (2 * PI).
Proof.
  funelim (whileAbovePi d).
  - destruct H as (Hle & Hsmall & Hbig & [k Hk]).
    split; [exact Hle|].
    split; [intros; lra|]. split.
    + intros _. destruct (Rle_dec (angleDiff - 2 * PI) PI) as [Hs|Hb].
      * rewrite (Hsmall Hs). lra.
      * assert (PI < angleDiff - 2 * PI) by lra. specialize (Hbig H).
        exact Hbig.
    + exists (k - 1)%Z. rewrite Hk, minus_IZR. lra.
  - split; [lra|]. split; [reflexivity|]. split; [intros; lra|].
    exists 0%Z. lra.
Qed.

Lemma whileBelowMinusPi_spec (d : R) :
  - PI <= whileBelowMinusPi d
  /\ (- PI <= d -> whileBelowMinusPi d = d)
  /\ (d < - PI -> whileBelowMinusPi d < PI)
  /\ exists k : Z, whileBelowMinusPi d = d + IZR k * (2 * PI).
Proof.
  funelim (whileBelowMinusPi d).
  - destruct H as (Hge & Hsmall & Hbig & [k Hk]).
    split; [exact Hge|].
    split; [intros; lra|]. split.
    + intros _. destruct (Rle_dec (- PI) (angleDiff + 2 * PI)) as [Hs|Hb].
      * rewrite (Hsmall Hs). lra.
      * assert (angleDiff + 2 * PI < - PI) by lra. specialize (Hbig H).
        exact Hbig.
    + exists (k + 1)%Z. rewrite Hk, plus_IZR. lra.
  - split; [lra|]. split; [reflexivity|]. split; [intros; lra|].
    exists 0%Z. lra.
Qed.

(** The loops wrap every angle to [-PI, PI]. *)
Lemma wrapAngle_isWrapped (d : R) : isWrapped d (wrapAngle d).
Proof.
  unfold isWrapped, wrapAngle.
  destruct (whileAbovePi_spec d) as (Hle & Hsmall & Hbig & [k Hk]).
  destruct (whileBelowMinusPi_spec (whileAbovePi d))
    as (Hge & Hsmall' & Hbig' & [k' Hk']).
  assert (Hpi := PI_RGT_0).
  split.
  - split; [exact Hge|].
    destruct (Rle_dec (- PI) (whileAbovePi d)) as [H|H].
    + rewrite (Hsmall' H). exact Hle.
    + apply Rlt_le. apply Hbig'. lra.
  - exists (k + k')%Z. rewrite Hk', Hk, plus_IZR. lra.
Qed.

Lemma wrapAngle_in_range (d : R) : - PI <= d <= PI -> wrapAngle d = d.
Proof.
  intros [H1 H2]. unfold wrapAngle.
  destruct (whileAbovePi_spec d) as (_ & Hsmall & _).
  rewrite (Hsmall H2).
  destruct (whileBelowMinusPi_spec d) as (_ & Hsmall' & _).
  apply Hsmall'. exact H1.
Qed.

Lemma angularLoop_sums (segs : list Segment.t) :
  forall (i : nat) (acc : AngularSums),
    let rates :=
      map (fun pair => currentAngularVelocity (fst pair) (snd pair))
          (adjacentPairs segs) in
    angularLoop i segs acc
    = mkSums (weightedSumAngularVelocity acc + weightedSumFrom i rates)
             (sumOfWeights acc + weightsFrom i rates)
             (numAngleDiffsCalculated acc + length rates).
Proof.
  induction segs as [|seg1 rest IH]; intros i acc; cbn zeta.
  - cbn. destruct acc as [ws sw n]. cbn. f_equal; try lra. lia.
  - destruct rest as [|seg2 rest'].
    + cbn. destruct acc as [ws sw n]. cbn. f_equal; try lra. lia.
    + change (angularLoop i (seg1 :: seg2 :: rest') acc)
        with (angularLoop (S i) (seg2 :: rest')
                (mkSums
                   (weightedSumAngularVelocity acc
                    + currentAngularVelocity seg1 seg2 * INR (i + 1))
                   (sumOfWeights acc + INR (i + 1))
                   (S (numAngleDiffsCalculated acc)))).
      rewrite IH. cbn zeta.
      change (adjacentPairs (seg1 :: seg2 :: rest'))
        with ((seg1, seg2) :: adjacentPairs (seg2 :: rest')).
      cbn [map fst snd weightedSumFrom weightsFrom length
           weightedSumAngularVelocity sumOfWeights numAngleDiffsCalculated].
      f_equal; try lra. lia.
Qed.

Lemma weightsFrom_pos (values : list R) (i : nat) :
  values <> [] -> 0 < weightsFrom i values.
Proof.
  assert (Hnonneg : forall (l : list R) (j : nat), 0 <= weightsFrom j l).
  { induction l as [|v l IH]; intros j; cbn [weightsFrom]; [lra|].
    pose proof (pos_INR (j + 1)). pose proof (IH (S j)). lra. }
  destruct values as [|v rest]; [contradiction|]. intros _.
  cbn [weightsFrom].
  assert (0 < INR (i + 1)) by (apply lt_0_INR; lia).
  pose proof (Hnonneg rest (S i)). lra.
Qed.

Lemma adjacentPairs_second (segs : list Segment.t)
  (pair : Segment.t * Segment.t) :
  In pair (adjacentPairs segs) -> In (snd pair) segs.
Proof.
  induction segs as [|seg1 rest IH]; [intros []|].
  destruct rest as [|seg2 rest']; [intros []|].
  change (adjacentPairs (seg1 :: seg2 :: rest'))
    with ((seg1, seg2) :: adjacentPairs (seg2 :: rest')).
  intros [<-|Hin].
  - right. left. reflexivity.
  - right. apply IH. exact Hin.
Qed.

(** Every segment built at commit time lasts at least 0.02 s. *)
Lemma buildPathSegments_duration (sortedSamples : list Sample.t) :
  Forall (fun seg => 0.02 <= Segment.duration seg)
         (buildPathSegments sortedSamples).
Proof.
  induction sortedSamples as [|cur rest IH]; [constructor|].
  cbn [buildPathSegments].
  destruct (Rgt_dec _ 0.001); [|exact IH].
  constructor; [|exact IH].
  cbn [Segment.duration].
  destruct rest as [|next rest']; [lra|apply Rmax_l].
Qed.

Lemma currentAngularVelocity_pair (seg1 seg2 : Segment.t) :
  0.001 < Segment.duration seg2 ->
  currentAngularVelocity seg1 seg2 = pairAngularVelocity (seg1, seg2).
Proof.
  intros Hd. unfold currentAngularVelocity, pairAngularVelocity, wrapAngle,
    direction. cbn [fst snd].
  destruct (Rgt_dec (Segment.duration seg2) 0.001) as [_|H]; [reflexivity|lra].
Qed.

Lemma calculatedEndingAngularVelocity_spec (segs : list Segment.t) :
  Forall (fun seg => 0.001 < Segment.duration seg) segs ->
  calculatedEndingAngularVelocity segs
  = if (2 <=? length segs)%nat
    then weightedAverage (map pairAngularVelocity (adjacentPairs segs))
    else 0.
Proof.
  intros Hdur. unfold calculatedEndingAngularVelocity,
    MIN_SEGMENTS_FOR_ENDING_CURVE.
  destruct (2 <=? length segs)%nat eqn:Hlen; [|lra].
  rewrite angularLoop_sums. cbn zeta.
  cbn [weightedSumAngularVelocity sumOfWeights numAngleDiffsCalculated].
  assert (Hrates :
    map (fun pair => currentAngularVelocity (fst pair) (snd pair))
        (adjacentPairs segs)
    = map pairAngularVelocity (adjacentPairs segs)).
  { apply map_ext_in. intros [s1 s2] Hin. cbn [fst snd].
    apply currentAngularVelocity_pair.
    rewrite Forall_forall in Hdur.
    apply (Hdur s2). apply (adjacentPairs_second segs (s1, s2) Hin). }
  rewrite Hrates.
  assert (Hne : map pairAngularVelocity (adjacentPairs segs) <> []).
  { destruct segs as [|a [|b rest]]; try discriminate Hlen.
    change (adjacentPairs (a :: b :: rest))
      with ((a, b) :: adjacentPairs (b :: rest)).
    cbn [map]. discriminate. }
  pose proof (weightsFrom_pos _ 0 Hne) as Hpos.
  assert (Hnum : (0 <? 0 + length (map pairAngularVelocity (adjacentPairs segs)))%nat
                 = true).
  { apply Nat.ltb_lt. destruct (map pairAngularVelocity _); [contradiction|].
    cbn. lia. }
  rewrite Hnum, Rltb_true by lra. cbn [andb].
  unfold weightedAverage. rewrite !Rplus_0_l. reflexivity.
Qed.

(** The plan that a commit in curveball mode stores. *)
Lemma executeActualThrowLogic_plan (tapTimestamp : Z) (e : Entity) :
  IsThrown e = false ->
  EnableCurveball e = true ->
  samplesInWindow tapTimestamp e <> [] ->
  let segs :=
    buildPathSegments (sortByTimestamp (samplesInWindow tapTimestamp e)) in
  let e' := executeActualThrowLogic tapTimestamp e in
  let w := Plan.endingAngularVelocity (ThrowPathPlan e') in
  Plan.segments (ThrowPathPlan e') = segs
  /\ MouseContinuingAngularVelocity e' = w
  /\ ((length segs < 2)%nat -> w = 0)
  /\ ((2 <= length segs)%nat ->
      w = weightedAverage (map pairAngularVelocity (adjacentPairs segs)))
  /\ (forall pair : Segment.t * Segment.t,
        In pair (adjacentPairs segs) ->
        isWrapped (direction (snd pair) - direction (fst pair))
                  (wrapAngle (direction (snd pair) - direction (fst pair)))).
Proof.
  intros Hidle Hcurve Hsome. cbv zeta.
  pose proof (buildPathSegments_duration
                (sortByTimestamp (samplesInWindow tapTimestamp e))) as Hdur.
  assert (Hdur' : Forall (fun seg => 0.001 < Segment.duration seg)
            (buildPathSegments
               (sortByTimestamp (samplesInWindow tapTimestamp e)))).
  { eapply Forall_impl; [|exact Hdur]. cbn. intros seg H. lra. }
  pose proof (calculatedEndingAngularVelocity_spec _ Hdur') as Hcalc.
  unfold executeActualThrowLogic. rewrite Hidle.
  destruct (samplesInWindow tapTimestamp e) as [|s l] eqn:Hr;
    [contradiction|].
  unfold baseDirection, planThrow. rewrite Hcurve.
  cbn [length Nat.eqb negb andb].
  destruct (buildPathSegments (sortByTimestamp (s :: l))) as [|seg0 rest]
    eqn:Hsegs.
  - cbn. split; [reflexivity|]. split; [reflexivity|].
    split; [reflexivity|]. split; [intros H; lia|intros pair []].
  - cbn [ThrowPathPlan MouseContinuingAngularVelocity set_IsThrown
         set_MouseVelocity set_MouseAngularVelocityCurve
         set_MouseContinuingAngularVelocity set_ThrowPathPlan
         Plan.segments Plan.endingAngularVelocity].
    rewrite Hcalc.
    split; [reflexivity|]. split; [reflexivity|]. split; [|split].
    + intros Hlt. destruct (Nat.leb_spec 2 (length (seg0 :: rest)));
        [lia|reflexivity].
    + intros Hge. destruct (Nat.leb_spec 2 (length (seg0 :: rest)));
        [reflexivity|lia].
    + intros pair _. apply wrapAngle_isWrapped.
Qed.

(** C5, as amended.  A commit in curveball mode with samples in the
    window stores the segments built from them, and an exit spin that is
    0 when there are fewer than two segments, and otherwise the weighted
    average, pair number i with weight i + 1, of the angular difference of
    the pair's directions wrapped to [-PI, PI] and divided by the duration
    of the pair's second segment. *)
Theorem ending_angular_velocity (tapTimestamp : Z) (e : Entity) :
  IsThrown e = false ->
  EnableCurveball e = true ->
  samplesInWindow tapTimestamp e <> [] ->
  let segs :=
    buildPathSegments (sortByTimestamp (samplesInWindow tapTimestamp e)) in
  let e' := executeActualThrowLogic tapTimestamp e in
  let w := Plan.endingAngularVelocity (ThrowPathPlan e') in
  Plan.segments (ThrowPathPlan e') = segs
  /\ MouseContinuingAngularVelocity e' = w
  /\ ((length segs < 2)%nat -> w = 0)
  /\ ((2 <= length segs)%nat ->
      w = weightedAverage (map pairAngularVelocity (adjacentPairs segs)))
  /\ (forall pair : Segment.t * Segment.t,
        In pair (adjacentPairs segs) ->
        isWrapped (direction (snd pair) - direction (fst pair))
                  (wrapAngle (direction (snd pair) - direction (fst pair)))).
Proof. exact (executeActualThrowLogic_plan tapTimestamp e). Qed.

Lemma ending_angular_velocity_witness :
  Plan.segments
    (ThrowPathPlan (executeActualThrowLogic 10 quarterTurnEntity))
  = buildPathSegments
      (sortByTimestamp (samplesInWindow 10 quarterTurnEntity)).
Proof.
  refine (proj1 (ending_angular_velocity 10 quarterTurnEntity
                   eq_refl eq_refl _)).
  cbn. discriminate.
Defined.

Lemma norm_axis_y (a : R) : 0 <= a -> norm 0 a = a.
Proof.
  intros Ha. unfold norm.
  replace (0 ^ 2 + a ^ 2) with (a * a) by ring.
  apply sqrt_square. exact Ha.
Qed.

Lemma quarterTurn_segments :
  buildPathSegments (sortByTimestamp (samplesInWindow 10 quarterTurnEntity))
  = [Segment.mk 1 0 0.02; Segment.mk 0 1 0.2].
Proof.
  cbn. rewrite norm_axis, norm_axis_y by lra.
  destruct (Rgt_dec 1 0.001) as [_|H]; [|lra].
  rewrite Rmax_left by lra.
  f_equal; [|f_equal]; f_equal; lra.
Qed.

Lemma quarterTurn_rate :
  pairAngularVelocity (Segment.mk 1 0 0.02, Segment.mk 0 1 0.2)
  = PI / 2 / 0.2.
Proof.
  unfold pairAngularVelocity, direction, atan2.
  cbn [fst snd Segment.dx Segment.dy Segment.duration].
  destruct (Rlt_dec 0 0) as [H|_]; [lra|].
  destruct (Rlt_dec 0 1) as [_|H]; [|lra].
  replace (0 / 1) with 0 by lra. rewrite atan_0.
  assert (Hpi := PI_RGT_0).
  rewrite wrapAngle_in_range by lra.
  f_equal. lra.
Qed.

(** C5, as stated, fails for two segments: they form a single pair,
    fewer than two, and the stored exit spin is the angular velocity of
    that pair, a quarter turn in 0.2 s, not 0. *)
Lemma single_pair_spin_not_zero :
  let e' := executeActualThrowLogic 10 quarterTurnEntity in
  (length (adjacentPairs (Plan.segments (ThrowPathPlan e'))) < 2)%nat
  /\ Plan.endingAngularVelocity (ThrowPathPlan e') = PI / 2 / 0.2
  /\ Plan.endingAngularVelocity (ThrowPathPlan e') <> 0.
Proof.
  cbn zeta.
  assert (Hne : samplesInWindow 10 quarterTurnEntity <> [])
    by (cbn; discriminate).
  destruct (executeActualThrowLogic_plan 10 quarterTurnEntity
              eq_refl eq_refl Hne) as (Hsegs & _ & _ & Hw & _).
  rewrite quarterTurn_segments in Hsegs, Hw.
  specialize (Hw (le_n 2)).
  assert (Hval : Plan.endingAngularVelocity
                   (ThrowPathPlan (executeActualThrowLogic 10 quarterTurnEntity))
                 = PI / 2 / 0.2).
  { rewrite Hw.
    change (adjacentPairs [Segment.mk 1 0 0.02; Segment.mk 0 1 0.2])
      with [(Segment.mk 1 0 0.02, Segment.mk 0 1 0.2)].
    cbn [map]. rewrite quarterTurn_rate.
    unfold weightedAverage. cbn [weightedSumFrom weightsFrom].
    cbn [Nat.add INR]. lra. }
  split; [rewrite Hsegs; cbn; lia|]. split; [exact Hval|].
  rewrite Hval. assert (Hpi := PI_RGT_0).
  intros H. apply (Rmult_eq_compat_r 0.2) in H.
  unfold Rdiv in H. rewrite Rmult_assoc, Rinv_l in H by lra. lra.
Qed.

(** ** The frame callback *)

Lemma norm_nonneg (a b : R) : 0 <= norm a b.
Proof. unfold norm. apply sqrt_pos. Qed.

Lemma norm_scale (a b k : R) : norm (a * k) (b * k) = Rabs k * norm a b.
Proof.
  unfold norm.
  replace ((a * k) ^ 2 + (b * k) ^ 2) with (Rsqr k * (a ^ 2 + b ^ 2))
    by (unfold Rsqr; ring).
  rewrite sqrt_mult; [|apply Rle_0_sqr|nra].
  rewrite sqrt_Rsqr_abs. reflexivity.
Qed.

Lemma norm_rotate (a b t : R) :
  norm (a * cos t - b * sin t) (a * sin t + b * cos t) = norm a b.
Proof.
  unfold norm. f_equal.
  pose proof (sin2_cos2 t) as H. unfold Rsqr in H.
  replace ((a * cos t - b * sin t) ^ 2 + (a * sin t + b * cos t) ^ 2)
    with ((a ^ 2 + b ^ 2) * (sin t * sin t + cos t * cos t)) by ring.
  rewrite H. ring.
Qed.

Lemma norm_zero : norm 0 0 = 0.
Proof. apply norm_axis. lra. Qed.

Lemma norm_drop_x (a b : R) : norm 0 b <= norm a b.
Proof. unfold norm. apply sqrt_le_1; nra. Qed.

Lemma norm_drop_y (a b : R) : norm a 0 <= norm a b.
Proof. unfold norm. apply sqrt_le_1; nra. Qed.

Lemma clampAxis_range (bound p v : R) :
  2 * BOUNDARY_PADDING <= bound ->
  BOUNDARY_PADDING <= fst (clampAxis bound (p, v))
  <= bound - BOUNDARY_PADDING.
Proof.
  intros Hb. unfold clampAxis. cbn [fst snd].
  destruct (Rlt_dec p BOUNDARY_PADDING) as [Hlow|Hlow];
    [destruct (Rgt_dec BOUNDARY_PADDING (bound - BOUNDARY_PADDING)) as [H|H]
    |destruct (Rgt_dec p (bound - BOUNDARY_PADDING)) as [Hhigh|Hhigh]];
    cbn [fst snd]; lra.
Qed.

Lemma clampAxis_clamped (bound p v : R) :
  clamped bound p -> snd (clampAxis bound (p, v)) = 0.
Proof.
  unfold clampAxis, clamped. cbn [fst snd]. intros Hc.
  destruct (Rlt_dec p BOUNDARY_PADDING) as [Hlow|Hlow];
    [destruct (Rgt_dec BOUNDARY_PADDING (bound - BOUNDARY_PADDING)) as [H|H]
    |destruct (Rgt_dec p (bound - BOUNDARY_PADDING)) as [Hhigh|Hhigh]];
    cbn [fst snd]; try reflexivity.
  destruct Hc; lra.
Qed.

Lemma clampAxis_inside (bound p v : R) :
  ~ clamped bound p -> clampAxis bound (p, v) = (p, v).
Proof.
  unfold clampAxis, clamped. cbn [fst snd]. intros Hc.
  destruct (Rlt_dec p BOUNDARY_PADDING) as [Hlow|Hlow];
    [exfalso; apply Hc; left; exact Hlow|].
  destruct (Rgt_dec p (bound - BOUNDARY_PADDING)) as [Hhigh|Hhigh];
    [exfalso; apply Hc; right; exact Hhigh|reflexivity].
Qed.

Lemma clampAxis_velocity (bound p v : R) :
  snd (clampAxis bound (p, v)) = v \/ snd (clampAxis bound (p, v)) = 0.
Proof.
  unfold clampAxis. cbn [fst snd].
  destruct (Rlt_dec p BOUNDARY_PADDING) as [Hlow|Hlow];
    [destruct (Rgt_dec BOUNDARY_PADDING (bound - BOUNDARY_PADDING)) as [H|H]
    |destruct (Rgt_dec p (bound - BOUNDARY_PADDING)) as [Hhigh|Hhigh]];
    cbn [fst snd]; auto.
Qed.

Lemma followPlan_inactive (delta currentSpeed : R) (enableCurveball : bool)
  (plan : Plan.t) (vel : R * R) :
  isPathPlanActive enableCurveball plan = false ->
  followPlan delta currentSpeed enableCurveball plan vel = (vel, plan, false).
Proof.
  unfold isPathPlanActive, followPlan. intros H. rewrite H. reflexivity.
Qed.

Lemma applyFriction_spec (currentSpeed delta : R) (vel : R * R) :
  norm (fst vel) (snd vel) = currentSpeed ->
  let factor := 1 - dynamicFrictionFactor currentSpeed * delta in
  (Rabs factor * currentSpeed < MIN_THROW_SPEED_THRESHOLD ->
   applyFriction currentSpeed delta vel = ((0, 0), true))
  /\ (MIN_THROW_SPEED_THRESHOLD <= Rabs factor * currentSpeed ->
      snd (applyFriction currentSpeed delta vel) = false
      /\ norm (fst (fst (applyFriction currentSpeed delta vel)))
               (snd (fst (applyFriction currentSpeed delta vel)))
         = Rabs factor * currentSpeed).
Proof.
  intros Hn. cbv zeta. unfold applyFriction. cbn [fst snd].
  rewrite norm_scale, Hn.
  destruct (Rlt_dec _ MIN_THROW_SPEED_THRESHOLD) as [H|H]; split; intros H';
    try lra; try reflexivity.
  cbn [fst snd]. rewrite norm_scale, Hn. split; reflexivity.
Qed.

Lemma applyFriction_stops (currentSpeed delta : R) (vel : R * R) :
  snd (applyFriction currentSpeed delta vel) = true ->
  fst (applyFriction currentSpeed delta vel) = (0, 0).
Proof.
  unfold applyFriction.
  destruct (Rlt_dec _ MIN_THROW_SPEED_THRESHOLD); cbn [fst snd];
    [reflexivity|discriminate].
Qed.

(** The position and the velocity that a frame writes while the object
    flies, in terms of the velocity that friction leaves. *)
Lemma useFrame_flying (delta innerWidth innerHeight : R) (e : Entity) :
  IsThrown e = true ->
  exists (w : R * R) (stops : bool),
    let newKootaX :=
      Vector2.x (MousePosition e) + Vector2.x (MouseVelocity e) * delta in
    let newKootaY :=
      Vector2.y (MousePosition e) + Vector2.y (MouseVelocity e) * delta in
    let e' := useFrame delta innerWidth innerHeight e in
    MousePosition e'
    = Vector2.mk (fst (clampAxis innerWidth (newKootaX, fst w)))
                 (fst (clampAxis innerHeight (newKootaY, snd w)))
    /\ MouseVelocity e'
       = Vector2.mk (snd (clampAxis innerWidth (newKootaX, fst w)))
                    (snd (clampAxis innerHeight (newKootaY, snd w)))
    /\ IsThrown e' = negb stops
    /\ (stops = true -> w = (0, 0))
    /\ (isPathPlanActive (EnableCurveball e) (ThrowPathPlan e) = false ->
        let factor :=
          1 - dynamicFrictionFactor (speed (MouseVelocity e)) * delta in
        (Rabs factor * speed (MouseVelocity e) < MIN_THROW_SPEED_THRESHOLD ->
         stops = true)
        /\ (MIN_THROW_SPEED_THRESHOLD <= Rabs factor * speed (MouseVelocity e) ->
            stops = false
            /\ norm (fst w) (snd w) = Rabs factor * speed (MouseVelocity e))).
Proof.
  intros Hfly. unfold useFrame. rewrite Hfly.
  fold (speed (MouseVelocity e)).
  destruct (followPlan delta (speed (MouseVelocity e)) (EnableCurveball e)
              (ThrowPathPlan e)
              (Vector2.x (MouseVelocity e), Vector2.y (MouseVelocity e)))
    as [[vel1 plan1] planWritten] eqn:Hplan.
  set (spinning := spins (EnableCurveball e) plan1 (speed (MouseVelocity e))
                         (MouseContinuingAngularVelocity e)).
  set (vel2 := if spinning
               then rotate (MouseContinuingAngularVelocity e * delta) vel1
               else vel1).
  destruct (applyFriction (speed (MouseVelocity e)) delta vel2)
    as [vel3 stops] eqn:Hfr.
  exists vel3, stops. cbv zeta.
  destruct (clampAxis innerWidth _) as [x5 vx5].
  destruct (clampAxis innerHeight _) as [y5 vy5].
  cbn [fst snd].
  split; [|split; [|split; [|split]]].
  - reflexivity.
  - reflexivity.
  - destruct stops, planWritten, spinning; cbn; rewrite ?Hfly; reflexivity.
  - intros Hs. pose proof (applyFriction_stops (speed (MouseVelocity e))
                             delta vel2) as H.
    rewrite Hfr in H. cbn [fst snd] in H. apply H. exact Hs.
  - intros Hinactive.
    rewrite (followPlan_inactive _ _ _ _ _ Hinactive) in Hplan.
    injection Hplan as <- <- <-.
    assert (Hnorm2 : norm (fst vel2) (snd vel2) = speed (MouseVelocity e)).
    { unfold vel2. destruct spinning.
      - unfold rotate. cbn [fst snd]. apply norm_rotate.
      - reflexivity. }
    destruct (applyFriction_spec _ delta vel2 Hnorm2) as [Hstop Hgo].
    rewrite Hfr in Hstop, Hgo. cbn [fst snd] in Hgo.
    split.
    + intros H. specialize (Hstop H). injection Hstop as _ Hs. exact Hs.
    + exact Hgo.
Qed.

Lemma useFrame_idle (delta innerWidth innerHeight : R) (e : Entity) :
  IsThrown e = false -> useFrame delta innerWidth innerHeight e = e.
Proof. intros H. unfold useFrame. rewrite H. reflexivity. Qed.

(** A frame keeps or brings the position inside the padded rectangle. *)
Lemma useFrame_inPlayArea (delta innerWidth innerHeight : R) (e : Entity) :
  2 * BOUNDARY_PADDING <= innerWidth ->
  2 * BOUNDARY_PADDING <= innerHeight ->
  IsThrown e = true \/ inPlayArea innerWidth innerHeight (MousePosition e) ->
  inPlayArea innerWidth innerHeight
    (MousePosition (useFrame delta innerWidth innerHeight e)).
Proof.
  intros Hw Hh Hstart.
  destruct (IsThrown e) eqn:Hfly.
  - destruct (useFrame_flying delta innerWidth innerHeight e Hfly)
      as (w & stops & Hpos & _).
    cbv zeta in Hpos. rewrite Hpos.
    split; cbn [Vector2.x Vector2.y]; apply clampAxis_range; assumption.
  - rewrite (useFrame_idle _ _ _ _ Hfly).
    destruct Hstart as [H|H]; [discriminate|exact H].
Qed.

Lemma performThrowOrCatchAction_position (now tapTimestamp : Z)
  (rt : Runtime) :
  MousePosition (watchEntity (performThrowOrCatchAction now tapTimestamp rt))
  = MousePosition (watchEntity rt).
Proof.
  unfold performThrowOrCatchAction.
  destruct (debounced now rt); [reflexivity|].
  cbn [IsThrowPending IsThrown set_LastTapTime ConfigurableLookaheadDelayMs
       set_MouseVelocity set_IsThrown].
  destruct (IsThrowPending (watchEntity rt)); [reflexivity|].
  destruct (IsThrown (watchEntity rt)); [reflexivity|].
  destruct (0 <? _)%Z; [reflexivity|].
  cbn [watchEntity].
  destruct (executeActualThrowLogic_sameInputs tapTimestamp
              (set_LastTapTime (Some now) (watchEntity rt))) as (_ & _ & H).
  exact H.
Qed.

Lemma handle_position (ev : Event) (rt : Runtime) :
  match ev with
  | Frame _ _ _ => True
  | _ => MousePosition (watchEntity (handle ev rt))
         = MousePosition (watchEntity rt)
  end.
Proof.
  destruct ev as [now ts|tap now ts|[[dx dy]|] stamp now|k|dt w h| | | | |];
    cbn [handle]; try reflexivity; try exact I.
  - apply performThrowOrCatchAction_position.
  - unfold probabilityListener.
    destruct (flickTapDetected _ _); [|reflexivity].
    rewrite performThrowOrCatchAction_position. reflexivity.
  - unfold fireTimeout. destruct (nth_error _ _) as [ts|]; [|reflexivity].
    cbn [watchEntity]. unfold delayedThrow.
    destruct (IsThrowPending (watchEntity rt)); [|reflexivity].
    destruct (executeActualThrowLogic_sameInputs ts (watchEntity rt))
      as (_ & _ & H).
    cbn [MousePosition set_IsThrowPending]. exact H.
Qed.

(** Along an execution with a fixed viewport at least two paddings wide
    and high, the position never leaves the padded rectangle. *)
Lemma run_inPlayArea (innerWidth innerHeight : R) (evs : list Event) :
  2 * BOUNDARY_PADDING <= innerWidth ->
  2 * BOUNDARY_PADDING <= innerHeight ->
  fixedViewport innerWidth innerHeight evs ->
  forall rt : Runtime,
    inPlayArea innerWidth innerHeight (MousePosition (watchEntity rt)) ->
    inPlayArea innerWidth innerHeight
      (MousePosition (watchEntity (run evs rt))).
Proof.
  intros Hw Hh Hview.
  induction Hview as [|ev evs Hev _ IH]; intros rt Hin; cbn [run fold_left].
  - exact Hin.
  - apply IH. pose proof (handle_position ev rt) as Hp.
    destruct ev; try (rewrite Hp; exact Hin).
    destruct Hev as [-> ->]. cbn [handle onEntity watchEntity].
    apply useFrame_inPlayArea; [assumption|assumption|right; exact Hin].
Qed.

Lemma initial_inPlayArea (innerWidth innerHeight : R) :
  2 * BOUNDARY_PADDING <= innerWidth ->
  2 * BOUNDARY_PADDING <= innerHeight ->
  inPlayArea innerWidth innerHeight
    (MousePosition (watchEntity (initial innerWidth innerHeight))).
Proof.
  unfold inPlayArea, BOUNDARY_PADDING. cbn. intros Hw Hh. lra.
Qed.

(** C4, as amended.  For a play area at least two paddings wide and
    high: after every frame of every execution from the spawned entity,
    with all frames seeing that play area, the position lies in the padded
    rectangle; from any state whatsoever, a frame in flight puts the
    position in the padded rectangle, and the velocity component of every
    axis that it clamped is zero after the frame; a frame out of flight
    changes nothing. *)
Theorem position_stays_in_play_area (delta innerWidth innerHeight : R)
  (evs : list Event) :
  2 * BOUNDARY_PADDING <= innerWidth ->
  2 * BOUNDARY_PADDING <= innerHeight ->
  fixedViewport innerWidth innerHeight evs ->
  inPlayArea innerWidth innerHeight
    (MousePosition
       (watchEntity
          (run (evs ++ [Frame delta innerWidth innerHeight])
               (initial innerWidth innerHeight))))
  /\ (forall e : Entity,
        IsThrown e = true ->
        let e' := useFrame delta innerWidth innerHeight e in
        let newKootaX :=
          Vector2.x (MousePosition e) + Vector2.x (MouseVelocity e) * delta in
        let newKootaY :=
          Vector2.y (MousePosition e) + Vector2.y (MouseVelocity e) * delta in
        inPlayArea innerWidth innerHeight (MousePosition e')
        /\ (clamped innerWidth newKootaX -> Vector2.x (MouseVelocity e') = 0)
        /\ (clamped innerHeight newKootaY ->
            Vector2.y (MouseVelocity e') = 0))
  /\ (forall e : Entity,
        IsThrown e = false -> useFrame delta innerWidth innerHeight e = e).
Proof.
  intros Hw Hh Hview. split; [|split].
  - apply run_inPlayArea; try assumption.
    + unfold fixedViewport. apply Forall_app. split; [exact Hview|].
      constructor; [split; reflexivity|constructor].
    + apply initial_inPlayArea; assumption.
  - intros e Hfly. cbv zeta.
    split; [apply useFrame_inPlayArea; try assumption; left; exact Hfly|].
    destruct (useFrame_flying delta innerWidth innerHeight e Hfly)
      as (w & stops & _ & Hvel & _).
    cbv zeta in Hvel. rewrite Hvel. cbn [Vector2.x Vector2.y].
    split; intros Hc; apply clampAxis_clamped; exact Hc.
  - intros e Hidle. apply useFrame_idle. exact Hidle.
Qed.

Lemma position_stays_in_play_area_witness :
  inPlayArea 4000 2000
    (MousePosition
       (watchEntity
          (run (throwScript ++ [Frame 0.01 4000 2000]) (initial 4000 2000)))).
Proof.
  refine (proj1 (position_stays_in_play_area 0.01 4000 2000 throwScript
                   _ _ _)).
  - unfold BOUNDARY_PADDING. lra.
  - unfold BOUNDARY_PADDING. lra.
  - unfold fixedViewport, throwScript. repeat constructor.
Defined.

Lemma dynamicFrictionFactor_range (currentSpeed : R) :
  FRICTION_FACTOR_HIGH_SPEED <= dynamicFrictionFactor currentSpeed
  <= FRICTION_FACTOR_LOW_SPEED.
Proof.
  unfold dynamicFrictionFactor, FRICTION_FACTOR_HIGH_SPEED,
    FRICTION_FACTOR_LOW_SPEED, FRICTION_TRANSITION_MAX_SPEED,
    MIN_THROW_SPEED_THRESHOLD.
  destruct (Rle_dec currentSpeed 5) as [H|H]; [lra|].
  destruct (Rge_dec currentSpeed 300) as [H'|H']; [lra|].
  assert (Hr : 0 <= (currentSpeed - 5) / (300 - 5) <= 1).
  { split.
    - apply Rmult_le_pos; [lra|]. apply Rlt_le, Rinv_0_lt_compat. lra.
    - apply Rmult_le_reg_r with (300 - 5); [lra|].
      unfold Rdiv. rewrite Rmult_assoc, Rinv_l by lra. lra. }
  lra.
Qed.

Lemma speed_after_clamp (innerWidth innerHeight px py : R) (w : R * R) :
  norm (snd (clampAxis innerWidth (px, fst w)))
       (snd (clampAxis innerHeight (py, snd w)))
  <= norm (fst w) (snd w).
Proof.
  destruct (clampAxis_velocity innerWidth px (fst w)) as [-> | ->];
    destruct (clampAxis_velocity innerHeight py (snd w)) as [-> | ->].
  - lra.
  - apply norm_drop_y.
  - apply norm_drop_x.
  - rewrite norm_zero. apply norm_nonneg.
Qed.

(** A frame in flight without an active path plan, for a frame time
    [delta > 0] with [dynamicFrictionFactor * delta < 2]. *)
Lemma useFrame_slows (delta innerWidth innerHeight : R) (e : Entity) :
  IsThrown e = true ->
  isPathPlanActive (EnableCurveball e) (ThrowPathPlan e) = false ->
  0 < delta ->
  dynamicFrictionFactor (speed (MouseVelocity e)) * delta < 2 ->
  let e' := useFrame delta innerWidth innerHeight e in
  let speedAfterFriction :=
    Rabs (1 - dynamicFrictionFactor (speed (MouseVelocity e)) * delta)
    * speed (MouseVelocity e) in
  (speedAfterFriction < MIN_THROW_SPEED_THRESHOLD ->
   IsThrown e' = false /\ MouseVelocity e' = Vector2.mk 0 0)
  /\ (MIN_THROW_SPEED_THRESHOLD <= speedAfterFriction ->
      IsThrown e' = true
      /\ speed (MouseVelocity e') < speed (MouseVelocity e))
  /\ (0 < speed (MouseVelocity e) ->
      speed (MouseVelocity e') < speed (MouseVelocity e)).
Proof.
  intros Hfly Hplan Hdt Hstable. cbv zeta.
  destruct (useFrame_flying delta innerWidth innerHeight e Hfly)
    as (w & stops & _ & Hvel & Hthrown & Hzero & Hrest).
  cbv zeta in Hvel, Hthrown, Hrest.
  destruct (Hrest Hplan) as [Hstop Hgo]. clear Hrest.
  set (f := dynamicFrictionFactor (speed (MouseVelocity e))) in *.
  set (s := speed (MouseVelocity e)) in *.
  assert (Hs : 0 <= s) by apply norm_nonneg.
  assert (Hf : 1.4 <= f <= 6).
  { pose proof (dynamicFrictionFactor_range (speed (MouseVelocity e))) as H.
    unfold FRICTION_FACTOR_HIGH_SPEED, FRICTION_FACTOR_LOW_SPEED in H.
    exact H. }
  assert (Hfac : Rabs (1 - f * delta) < 1).
  { apply Rabs_def1; nra. }
  assert (Habs : 0 <= Rabs (1 - f * delta)) by apply Rabs_pos.
  assert (Hcase1 : Rabs (1 - f * delta) * s < MIN_THROW_SPEED_THRESHOLD ->
            IsThrown (useFrame delta innerWidth innerHeight e) = false
            /\ MouseVelocity (useFrame delta innerWidth innerHeight e)
               = Vector2.mk 0 0).
  { intros Hlow. specialize (Hstop Hlow). rewrite Hthrown, Hstop.
    split; [reflexivity|]. rewrite Hvel, (Hzero Hstop). cbn [fst snd].
    destruct (clampAxis_velocity innerWidth
                (Vector2.x (MousePosition e)
                 + Vector2.x (MouseVelocity e) * delta) 0) as [-> | ->];
      destruct (clampAxis_velocity innerHeight
                  (Vector2.y (MousePosition e)
                   + Vector2.y (MouseVelocity e) * delta) 0) as [-> | ->];
      reflexivity. }
  assert (Hcase2 : MIN_THROW_SPEED_THRESHOLD <= Rabs (1 - f * delta) * s ->
            IsThrown (useFrame delta innerWidth innerHeight e) = true
            /\ speed (MouseVelocity (useFrame delta innerWidth innerHeight e))
               < s).
  { intros Hhigh. destruct (Hgo Hhigh) as [Hnostop Hnorm].
    rewrite Hthrown, Hnostop. split; [reflexivity|].
    rewrite Hvel. unfold speed at 1. cbn [Vector2.x Vector2.y].
    eapply Rle_lt_trans; [apply speed_after_clamp|].
    rewrite Hnorm. unfold MIN_THROW_SPEED_THRESHOLD in Hhigh. nra. }
  split; [exact Hcase1|]. split; [exact Hcase2|].
  intros Hpos.
  destruct (Rlt_dec (Rabs (1 - f * delta) * s) MIN_THROW_SPEED_THRESHOLD)
    as [Hlow|Hhigh].
  - destruct (Hcase1 Hlow) as [_ Hv]. rewrite Hv.
    unfold speed at 1. cbn [Vector2.x Vector2.y]. rewrite norm_zero.
    exact Hpos.
  - apply Hcase2. lra.
Qed.

(** A frame in flight that neither stops the object nor meets a wall. *)
Lemma useFrame_free_flight (delta innerWidth innerHeight : R) (e : Entity) :
  IsThrown e = true ->
  isPathPlanActive (EnableCurveball e) (ThrowPathPlan e) = false ->
  let newKootaX :=
    Vector2.x (MousePosition e) + Vector2.x (MouseVelocity e) * delta in
  let newKootaY :=
    Vector2.y (MousePosition e) + Vector2.y (MouseVelocity e) * delta in
  let speedAfterFriction :=
    Rabs (1 - dynamicFrictionFactor (speed (MouseVelocity e)) * delta)
    * speed (MouseVelocity e) in
  ~ clamped innerWidth newKootaX ->
  ~ clamped innerHeight newKootaY ->
  MIN_THROW_SPEED_THRESHOLD <= speedAfterFriction ->
  let e' := useFrame delta innerWidth innerHeight e in
  IsThrown e' = true
  /\ MousePosition e' = Vector2.mk newKootaX newKootaY
  /\ speed (MouseVelocity e') = speedAfterFriction.
Proof.
  intros Hfly Hplan. cbv zeta. intros Hx Hy Hfast.
  destruct (useFrame_flying delta innerWidth innerHeight e Hfly)
    as (w & stops & Hpos & Hvel & Hthrown & _ & Hrest).
  cbv zeta in Hpos, Hvel, Hthrown, Hrest.
  destruct (Hrest Hplan) as [_ Hgo]. destruct (Hgo Hfast) as [Hnostop Hnorm].
  rewrite (clampAxis_inside _ _ _ Hx), (clampAxis_inside _ _ _ Hy)
    in Hpos, Hvel.
  cbn [fst snd] in Hpos, Hvel.
  rewrite Hthrown, Hnostop, Hpos, Hvel.
  split; [reflexivity|]. split; [reflexivity|exact Hnorm].
Qed.

Lemma dynamicFrictionFactor_fast (currentSpeed : R) :
  FRICTION_TRANSITION_MAX_SPEED <= currentSpeed ->
  dynamicFrictionFactor currentSpeed = FRICTION_FACTOR_HIGH_SPEED.
Proof.
  unfold dynamicFrictionFactor, FRICTION_TRANSITION_MAX_SPEED,
    MIN_THROW_SPEED_THRESHOLD. intros H.
  destruct (Rle_dec currentSpeed 5) as [H'|_]; [lra|].
  destruct (Rge_dec currentSpeed 300) as [_|H']; [reflexivity|lra].
Qed.

(** The end-to-end scenario of the integrator: velocity (500, 0) and a
    frame of 0.01 s, away from the walls. *)
Lemma useFrame_scenario (innerWidth innerHeight : R) (e : Entity) :
  IsThrown e = true ->
  isPathPlanActive (EnableCurveball e) (ThrowPathPlan e) = false ->
  MouseVelocity e = Vector2.mk 500 0 ->
  ~ clamped innerWidth (Vector2.x (MousePosition e) + 5) ->
  ~ clamped innerHeight (Vector2.y (MousePosition e)) ->
  let e' := useFrame 0.01 innerWidth innerHeight e in
  IsThrown e' = true
  /\ speed (MouseVelocity e') = 493
  /\ Vector2.x (MousePosition e') = Vector2.x (MousePosition e) + 5.
Proof.
  intros Hfly Hplan Hv Hx Hy. cbv zeta.
  assert (Hspeed : speed (MouseVelocity e) = 500).
  { rewrite Hv. unfold speed. cbn [Vector2.x Vector2.y].
    apply norm_axis. lra. }
  assert (Hf : dynamicFrictionFactor (speed (MouseVelocity e)) = 1.4).
  { rewrite Hspeed. rewrite dynamicFrictionFactor_fast;
      unfold FRICTION_TRANSITION_MAX_SPEED, FRICTION_FACTOR_HIGH_SPEED; lra. }
  assert (Hafter :
    Rabs (1 - dynamicFrictionFactor (speed (MouseVelocity e)) * 0.01)
    * speed (MouseVelocity e) = 493).
  { rewrite Hf, Hspeed. rewrite Rabs_right by lra. lra. }
  destruct (useFrame_free_flight 0.01 innerWidth innerHeight e Hfly Hplan)
    as (Hthrown & Hpos & Hsp).
  - rewrite Hv. cbn [Vector2.x].
    replace (Vector2.x (MousePosition e) + 500 * 0.01)
      with (Vector2.x (MousePosition e) + 5) by lra.
    exact Hx.
  - rewrite Hv. cbn [Vector2.y].
    replace (Vector2.y (MousePosition e) + 0 * 0.01)
      with (Vector2.y (MousePosition e)) by lra.
    exact Hy.
  - rewrite Hafter. unfold MIN_THROW_SPEED_THRESHOLD. lra.
  - split; [exact Hthrown|]. split.
    + rewrite Hsp. exact Hafter.
    + rewrite Hpos, Hv. cbn [Vector2.x]. lra.
Qed.

(** A frame shorter than a third of a second meets the bound on the
    frame time, whatever the speed. *)
Lemma short_frame_is_stable (currentSpeed delta : R) :
  0 < delta < 1 / 3 -> dynamicFrictionFactor currentSpeed * delta < 2.
Proof.
  intros [Hpos Hshort].
  pose proof (dynamicFrictionFactor_range currentSpeed) as H.
  unfold FRICTION_FACTOR_HIGH_SPEED, FRICTION_FACTOR_LOW_SPEED in H. nra.
Qed.

(** C3, as amended.  For a frame in flight without an active path plan
    whose frame time [delta] is positive and satisfies
    [dynamicFrictionFactor * delta < 2]: when the speed that friction
    leaves is below the minimum throw speed the state becomes Idle and
    the velocity exactly (0, 0); otherwise the object keeps flying with a
    speed strictly below the speed before the frame; in both cases a
    positive speed strictly decreases.  From velocity (500, 0) a frame of
    0.01 s that is not stopped by a wall leaves the speed 493 and moves
    the position by exactly 5 along x. *)
Theorem friction_slows_flight (delta innerWidth innerHeight : R)
  (e : Entity) :
  IsThrown e = true ->
  isPathPlanActive (EnableCurveball e) (ThrowPathPlan e) = false ->
  0 < delta ->
  dynamicFrictionFactor (speed (MouseVelocity e)) * delta < 2 ->
  let e' := useFrame delta innerWidth innerHeight e in
  let speedAfterFriction :=
    Rabs (1 - dynamicFrictionFactor (speed (MouseVelocity e)) * delta)
    * speed (MouseVelocity e) in
  (speedAfterFriction < MIN_THROW_SPEED_THRESHOLD ->
   IsThrown e' = false /\ MouseVelocity e' = Vector2.mk 0 0)
  /\ (MIN_THROW_SPEED_THRESHOLD <= speedAfterFriction ->
      IsThrown e' = true
      /\ speed (MouseVelocity e') < speed (MouseVelocity e))
  /\ (0 < speed (MouseVelocity e) ->
      speed (MouseVelocity e') < speed (MouseVelocity e))
  /\ (MouseVelocity e = Vector2.mk 500 0 ->
      ~ clamped innerWidth (Vector2.x (MousePosition e) + 5) ->
      ~ clamped innerHeight (Vector2.y (MousePosition e)) ->
      let e1 := useFrame 0.01 innerWidth innerHeight e in
      IsThrown e1 = true
      /\ speed (MouseVelocity e1) = 493
      /\ Vector2.x (MousePosition e1) = Vector2.x (MousePosition e) + 5).
Proof.
  intros Hfly Hplan Hdt Hstable. cbv zeta.
  destruct (useFrame_slows delta innerWidth innerHeight e
              Hfly Hplan Hdt Hstable) as (H1 & H2 & H3).
  split; [exact H1|]. split; [exact H2|]. split; [exact H3|].
  intros Hv Hx Hy.
  apply (useFrame_scenario innerWidth innerHeight e Hfly Hplan Hv Hx Hy).
Qed.

Lemma flyingEntity_away_from_walls (dx : R) :
  0 <= dx <= 1000 ->
  ~ clamped 4000 (Vector2.x (MousePosition flyingEntity) + dx)
  /\ ~ clamped 2000 (Vector2.y (MousePosition flyingEntity)).
Proof.
  intros Hdx. unfold clamped, BOUNDARY_PADDING. cbn.
  split; intros [H|H]; lra.
Qed.

Lemma friction_slows_flight_witness :
  speed (MouseVelocity (useFrame 0.01 4000 2000 flyingEntity)) = 493
  /\ Vector2.x (MousePosition (useFrame 0.01 4000 2000 flyingEntity))
     = Vector2.x (MousePosition flyingEntity) + 5.
Proof.
  assert (Hstable :
    dynamicFrictionFactor (speed (MouseVelocity flyingEntity)) * 0.01 < 2).
  { pose proof (dynamicFrictionFactor_range
                  (speed (MouseVelocity flyingEntity))) as H.
    unfold FRICTION_FACTOR_HIGH_SPEED, FRICTION_FACTOR_LOW_SPEED in H. lra. }
  assert (Hdt : 0 < 0.01) by lra.
  destruct (friction_slows_flight 0.01 4000 2000 flyingEntity
              eq_refl eq_refl Hdt Hstable) as (_ & _ & _ & Hscenario).
  destruct (flyingEntity_away_from_walls 5) as [Hx Hy]; [lra|].
  destruct (Hscenario eq_refl Hx Hy) as (_ & Hs & Hp).
  split; [exact Hs|exact Hp].
Defined.

(** C3, as stated, fails for a long frame: from velocity (500, 0), away
    from the walls and without a path plan, a frame of 2 s multiplies the
    velocity by [1 - 1.4 * 2 = -1.8]; the object keeps flying and its
    speed rises from 500 to 900. *)
Lemma long_frame_speeds_up :
  let e' := useFrame 2 4000 2000 flyingEntity in
  throwState flyingEntity = Flying
  /\ isPathPlanActive (EnableCurveball flyingEntity)
                      (ThrowPathPlan flyingEntity) = false
  /\ speed (MouseVelocity flyingEntity) = 500
  /\ throwState e' = Flying
  /\ speed (MouseVelocity e') = 900
  /\ ~ speed (MouseVelocity e') < speed (MouseVelocity flyingEntity).
Proof.
  cbv zeta.
  assert (Hspeed : speed (MouseVelocity flyingEntity) = 500).
  { unfold speed. cbn. apply norm_axis. lra. }
  assert (Hf : dynamicFrictionFactor (speed (MouseVelocity flyingEntity))
               = 1.4).
  { rewrite Hspeed. rewrite dynamicFrictionFactor_fast;
      unfold FRICTION_TRANSITION_MAX_SPEED, FRICTION_FACTOR_HIGH_SPEED; lra. }
  assert (Hafter :
    Rabs (1 - dynamicFrictionFactor (speed (MouseVelocity flyingEntity)) * 2)
    * speed (MouseVelocity flyingEntity) = 900).
  { rewrite Hf, Hspeed. rewrite Rabs_left by lra. lra. }
  destruct (flyingEntity_away_from_walls (500 * 2)) as [Hx Hy]; [lra|].
  destruct (useFrame_free_flight 2 4000 2000 flyingEntity eq_refl eq_refl)
    as (Hthrown & _ & Hsp).
  - exact Hx.
  - cbn [MouseVelocity flyingEntity set_IsThrown set_MouseVelocity Vector2.y].
    replace (Vector2.y (MousePosition flyingEntity) + 0 * 2)
      with (Vector2.y (MousePosition flyingEntity)) by lra.
    exact Hy.
  - rewrite Hafter. unfold MIN_THROW_SPEED_THRESHOLD. lra.
  - split; [reflexivity|]. split; [reflexivity|]. split; [exact Hspeed|].
    split; [unfold throwState; rewrite Hthrown; reflexivity|].
    split; [rewrite Hsp; exact Hafter|].
    rewrite Hsp, Hafter, Hspeed. lra.
Qed.

(** ** The lookahead and the catch *)

Lemma pendingInvariant_flags (e e' : Entity) (last last' : Z)
  (queue : list Z) :
  IsThrowPending e' = IsThrowPending e ->
  (IsThrown e = false -> IsThrown e' = false) ->
  pendingInvariant (mkRuntime e last queue) ->
  pendingInvariant (mkRuntime e' last' queue).
Proof.
  unfold pendingInvariant. cbn [watchEntity timeouts].
  intros Hp Ht. rewrite Hp.
  destruct (IsThrowPending e); [|tauto].
  intros [H1 H2]. split; [apply Ht; exact H1|exact H2].
Qed.

Lemma performThrowOrCatchAction_invariant (now tapTimestamp : Z)
  (rt : Runtime) :
  pendingInvariant rt ->
  pendingInvariant (performThrowOrCatchAction now tapTimestamp rt).
Proof.
  intros Hinv. unfold performThrowOrCatchAction.
  destruct (debounced now rt); [exact Hinv|].
  cbn [IsThrowPending IsThrown set_LastTapTime ConfigurableLookaheadDelayMs
       set_MouseVelocity set_IsThrown].
  unfold pendingInvariant in Hinv.
  destruct (IsThrowPending (watchEntity rt)) eqn:Hp.
  - unfold pendingInvariant. cbn. rewrite Hp. exact Hinv.
  - destruct (IsThrown (watchEntity rt)) eqn:Ht.
    + unfold pendingInvariant. cbn. rewrite Hp. exact Hinv.
    + destruct (0 <? _)%Z.
      * unfold pendingInvariant. cbn. rewrite Hinv, Ht. split; reflexivity.
      * unfold pendingInvariant. cbn [watchEntity timeouts].
        destruct (executeActualThrowLogic_sameInputs tapTimestamp
                    (set_LastTapTime (Some now) (watchEntity rt)))
          as (_ & Hpend & _).
        rewrite Hpend. cbn. rewrite Hp. exact Hinv.
Qed.

Lemma handle_invariant (ev : Event) (rt : Runtime) :
  pendingInvariant rt -> pendingInvariant (handle ev rt).
Proof.
  intros Hinv.
  destruct ev as [now ts|tap now ts|eventData stamp now|k|dt w h| | | | |];
    cbn [handle];
    try (destruct rt as [e last queue]; revert Hinv;
         apply pendingInvariant_flags; [reflexivity|cbn; tauto]).
  - apply performThrowOrCatchAction_invariant. exact Hinv.
  - unfold probabilityListener.
    assert (Hinv' : pendingInvariant
              (mkRuntime (set_GestureProb tap (watchEntity rt))
                         (lastTapActionTimestamp rt) (timeouts rt))).
    { destruct rt as [e last queue]. revert Hinv.
      apply pendingInvariant_flags; [reflexivity|cbn; tauto]. }
    destruct (flickTapDetected _ _); [|exact Hinv'].
    apply performThrowOrCatchAction_invariant. exact Hinv'.
  - destruct rt as [e last queue]. revert Hinv.
    apply pendingInvariant_flags;
      destruct eventData as [[dx dy]|]; cbn; tauto.
  - unfold fireTimeout.
    destruct (nth_error (timeouts rt) k) as [ts|] eqn:Hk; [|exact Hinv].
    unfold pendingInvariant in *. cbn [watchEntity timeouts].
    unfold delayedThrow at 1. cbn [IsThrowPending set_IsThrowPending].
    destruct (IsThrowPending (watchEntity rt)).
    + destruct Hinv as [_ Hlen].
      destruct (timeouts rt) as [|t0 [|t1 rest]]; try discriminate Hlen.
      destruct k as [|k]; [reflexivity|].
      destruct k; discriminate Hk.
    + rewrite Hinv in Hk. destruct k; discriminate Hk.
  - destruct rt as [e last queue]. revert Hinv.
    apply pendingInvariant_flags.
    + apply (useFrame_sameInputs dt w h e).
    + intros H. rewrite (useFrame_idle _ _ _ _ H). exact H.
Qed.

Lemma run_invariant (evs : list Event) (rt : Runtime) :
  pendingInvariant rt -> pendingInvariant (run evs rt).
Proof.
  revert rt. induction evs as [|ev evs IH]; intros rt Hinv; cbn.
  - exact Hinv.
  - apply IH. apply handle_invariant. exact Hinv.
Qed.

Lemma initial_invariant (innerWidth innerHeight : R) :
  pendingInvariant (initial innerWidth innerHeight).
Proof. reflexivity. Qed.

(** The deferred action does nothing but clear the flag when the flag is
    already clear, or when the object already flies. *)
Lemma delayedThrow_no_commit (tapTimestamp : Z) (e : Entity) :
  IsThrowPending e = false \/ IsThrown e = true ->
  delayedThrow tapTimestamp e = set_IsThrowPending false e.
Proof.
  unfold delayedThrow, executeActualThrowLogic.
  intros [H|H]; rewrite H; [reflexivity|].
  destruct (IsThrowPending e); reflexivity.
Qed.

Lemma throwState_pending (e : Entity) :
  throwState e = Pending <-> IsThrown e = false /\ IsThrowPending e = true.
Proof.
  unfold throwState.
  destruct (IsThrown e), (IsThrowPending e); split;
    try discriminate; try tauto; intros [H1 H2]; discriminate.
Qed.

(** X24.  In every reachable state in which a throw is pending, the
    object does not fly and exactly one closure is scheduled.  An action
    attempt made then is ignored: it leaves the state Pending, the
    velocity and the scheduled closure as they were.  The deferred action
    then runs the commit with the captured time stamp, which ends Flying
    when the window holds a sample and Idle when no direction is known.
    Whenever the pending flag is clear or the object already flies as the
    deferred action fires, it commits nothing. *)
Theorem pending_throw_survives_tap (evs : list Event)
  (innerWidth innerHeight : R) (now tapTimestamp : Z) :
  let rt := run evs (initial innerWidth innerHeight) in
  throwState (watchEntity rt) = Pending ->
  let rt' := performThrowOrCatchAction now tapTimestamp rt in
  let final := fireTimeout 0 rt' in
  throwState (watchEntity rt') = Pending
  /\ MouseVelocity (watchEntity rt') = MouseVelocity (watchEntity rt)
  /\ timeouts rt' = timeouts rt
  /\ (exists captured : Z,
        timeouts rt = [captured]
        /\ watchEntity final
           = set_IsThrowPending false
               (executeActualThrowLogic captured (watchEntity rt'))
        /\ timeouts final = []
        /\ (samplesInWindow captured (watchEntity rt) <> [] ->
            throwState (watchEntity final) = Flying)
        /\ (samplesInWindow captured (watchEntity rt) = [] ->
            ArmDirection (watchEntity rt) = None ->
            throwState (watchEntity final) = Idle))
  /\ (forall (captured : Z) (e : Entity),
        IsThrowPending e = false \/ IsThrown e = true ->
        delayedThrow captured e = set_IsThrowPending false e).
Proof.
  cbv zeta. intros Hpending.
  apply throwState_pending in Hpending. destruct Hpending as [Hidle Hpend].
  pose proof (run_invariant evs _ (initial_invariant innerWidth innerHeight))
    as Hinv.
  unfold pendingInvariant in Hinv. rewrite Hpend in Hinv.
  destruct Hinv as [_ Hlen].
  set (rt := run evs (initial innerWidth innerHeight)) in *.
  assert (Hrt' : performThrowOrCatchAction now tapTimestamp rt = rt
                 \/ performThrowOrCatchAction now tapTimestamp rt
                    = mkRuntime (set_LastTapTime (Some now) (watchEntity rt))
                                now (timeouts rt)).
  { unfold performThrowOrCatchAction.
    destruct (debounced now rt); [left; reflexivity|right].
    cbn [IsThrowPending set_LastTapTime]. rewrite Hpend. reflexivity. }
  assert (Hsame :
    IsThrown (watchEntity (performThrowOrCatchAction now tapTimestamp rt))
    = false
    /\ IsThrowPending
         (watchEntity (performThrowOrCatchAction now tapTimestamp rt)) = true
    /\ MouseVelocity
         (watchEntity (performThrowOrCatchAction now tapTimestamp rt))
       = MouseVelocity (watchEntity rt)
    /\ timeouts (performThrowOrCatchAction now tapTimestamp rt) = timeouts rt
    /\ samplesInWindow
         (hd 0%Z (timeouts rt))
         (watchEntity (performThrowOrCatchAction now tapTimestamp rt))
       = samplesInWindow (hd 0%Z (timeouts rt)) (watchEntity rt)
    /\ ArmDirection
         (watchEntity (performThrowOrCatchAction now tapTimestamp rt))
       = ArmDirection (watchEntity rt)).
  { destruct Hrt' as [-> | ->]; cbn; rewrite ?Hidle, ?Hpend; repeat split. }
  destruct Hsame as (Hidle' & Hpend' & Hvel' & Hq' & Hwin' & Hdir').
  split; [apply throwState_pending; split; assumption|].
  split; [exact Hvel'|]. split; [exact Hq'|]. split.
  - destruct (timeouts rt) as [|captured [|t1 rest]] eqn:Hq;
      try discriminate Hlen.
    exists captured. split; [reflexivity|].
    unfold fireTimeout. rewrite Hq'. cbn [nth_error watchEntity timeouts].
    unfold delayedThrow. rewrite Hpend'.
    split; [reflexivity|]. split; [reflexivity|].
    cbn [hd] in Hwin'. split.
    + intros Hsome. rewrite <- Hwin' in Hsome.
      destruct (executeActualThrowLogic_with_samples captured _ Hidle' Hsome)
        as (Hfly & _).
      unfold throwState. cbn [IsThrown set_IsThrowPending]. rewrite Hfly.
      reflexivity.
    + intros Hnone Hdir. rewrite <- Hwin' in Hnone. rewrite <- Hdir' in Hdir.
      unfold executeActualThrowLogic. rewrite Hidle', Hnone, Hdir.
      reflexivity.
  - intros captured e. apply delayedThrow_no_commit.
Qed.

Lemma pending_throw_survives_tap_witness :
  throwState
    (watchEntity
       (performThrowOrCatchAction 1020 1020
          (run pendingScript (initial 800 600)))) = Pending.
Proof.
  refine (proj1 (pending_throw_survives_tap pendingScript 800 600 1020 1020
                   _)).
  reflexivity.
Defined.

(** With a lookahead of 100 ms a second tap, 100 ms after the first,
    gets past the debounce test while the throw is pending; it is ignored
    at the pending guard, and when the deferred action fires the object
    is thrown. *)
Lemma tap_while_pending_does_not_catch :
  let rt := run [LookaheadDelayInput 100;
                 ArmDirectionChanged (Some (1, 0)) 1000 1000;
                 Tap 1000 1000]
                (initial 800 600) in
  let catchAttempt := Tap 1100 1100 in
  throwState (watchEntity rt) = Pending
  /\ allowed catchAttempt rt = true
  /\ throwState (watchEntity (handle catchAttempt rt)) = Pending
  /\ throwState
       (watchEntity (run [catchAttempt; TimeoutFires 0] rt)) = Flying
  /\ throwState
       (watchEntity (run [catchAttempt; TimeoutFires 0] rt)) <> Idle.
Proof.
  cbv zeta.
  split; [reflexivity|]. split; [reflexivity|]. split; [reflexivity|].
  assert (Hfly :
    throwState
      (watchEntity
         (run [Tap 1100 1100; TimeoutFires 0]
            (run [LookaheadDelayInput 100;
                  ArmDirectionChanged (Some (1, 0)) 1000 1000;
                  Tap 1000 1000] (initial 800 600)))) = Flying).
  { set (rt0 := run [LookaheadDelayInput 100;
                     ArmDirectionChanged (Some (1, 0)) 1000 1000;
                     Tap 1000 1000] (initial 800 600)).
    change (run [Tap 1100 1100; TimeoutFires 0] rt0)
      with (fireTimeout 0 (handle (Tap 1100 1100) rt0)).
    set (rt := handle (Tap 1100 1100) rt0).
    assert (Hq : timeouts rt = [1000%Z]) by reflexivity.
    assert (Hp : IsThrowPending (watchEntity rt) = true) by reflexivity.
    assert (Hi : IsThrown (watchEntity rt) = false) by reflexivity.
    assert (Hs : samplesInWindow 1000 (watchEntity rt) <> [])
      by (cbn; discriminate).
    unfold fireTimeout. rewrite Hq. cbn [nth_error watchEntity].
    unfold delayedThrow. rewrite Hp.
    destruct (executeActualThrowLogic_with_samples 1000 (watchEntity rt)
                Hi Hs) as (Hthrown & _).
    unfold throwState. cbn [IsThrown set_IsThrowPending].
    rewrite Hthrown. reflexivity. }
  split; [exact Hfly|]. rewrite Hfly. discriminate.
Qed.

(** * Further properties of the handlers *)

(** ** Catching *)

(** X1.  In every reachable state in which the object flies, an action
    attempt that gets past the debounce test catches it: the pending
    guard cannot be in the way, the state becomes Idle with velocity
    (0, 0), and the position, the path plan, the residual spin and the
    queue of closures stay as they were. *)
Theorem flying_object_can_be_caught (evs : list Event)
  (innerWidth innerHeight : R) (now tapTimestamp : Z) :
  let rt := run evs (initial innerWidth innerHeight) in
  IsThrown (watchEntity rt) = true ->
  debounced now rt = false ->
  let rt' := performThrowOrCatchAction now tapTimestamp rt in
  throwState (watchEntity rt') = Idle
  /\ MouseVelocity (watchEntity rt') = Vector2.mk 0 0
  /\ MousePosition (watchEntity rt') = MousePosition (watchEntity rt)
  /\ ThrowPathPlan (watchEntity rt') = ThrowPathPlan (watchEntity rt)
  /\ MouseContinuingAngularVelocity (watchEntity rt')
     = MouseContinuingAngularVelocity (watchEntity rt)
  /\ timeouts rt' = [].
Proof.
  cbv zeta. intros Hfly Hpass.
  pose proof (run_invariant evs _ (initial_invariant innerWidth innerHeight))
    as Hinv.
  set (rt := run evs (initial innerWidth innerHeight)) in *.
  unfold pendingInvariant in Hinv.
  destruct (IsThrowPending (watchEntity rt)) eqn:Hpend.
  - destruct Hinv as [Hidle _]. rewrite Hidle in Hfly. discriminate.
  - unfold performThrowOrCatchAction. rewrite Hpass.
    cbn [IsThrowPending IsThrown set_LastTapTime set_MouseVelocity
         set_IsThrown].
    rewrite Hpend, Hfly. unfold throwState. cbn. rewrite Hpend.
    repeat split; try reflexivity. exact Hinv.
Qed.

Lemma flying_object_can_be_caught_witness :
  throwState
    (watchEntity
       (performThrowOrCatchAction 1200 1200
          (run throwScript (initial 4000 2000)))) = Idle.
Proof.
  refine (proj1 (flying_object_can_be_caught throwScript 4000 2000
                   1200 1200 _ _)).
  - reflexivity.
  - reflexivity.
Defined.

(** ** The instantaneous direction *)

Lemma handle_direction_kept (ev : Event) (rt : Runtime) :
  ArmDirection (watchEntity rt) <> None ->
  ArmDirection (watchEntity (handle ev rt)) <> None.
Proof.
  intros Hdir.
  destruct ev as [now ts|tap now ts|[[dx dy]|] stamp now|k|dt w h| | | | |];
    cbn [handle]; try exact Hdir.
  - destruct (performThrowOrCatchAction_sameInputs now ts rt) as [H _].
    unfold tapListener. rewrite H. exact Hdir.
  - unfold probabilityListener.
    destruct (flickTapDetected _ _); [|exact Hdir].
    destruct (performThrowOrCatchAction_sameInputs now ts
                (mkRuntime (set_GestureProb tap (watchEntity rt))
                           (lastTapActionTimestamp rt) (timeouts rt)))
      as [H _].
    rewrite H. exact Hdir.
  - cbn. discriminate.
  - unfold fireTimeout. destruct (nth_error _ _) as [ts|]; [|exact Hdir].
    destruct (delayedThrow_sameInputs ts (watchEntity rt)) as [H _].
    cbn [watchEntity]. rewrite H. exact Hdir.
  - destruct (useFrame_sameInputs dt w h (watchEntity rt)) as [[H _] _].
    cbn [onEntity watchEntity]. rewrite H. exact Hdir.
Qed.

Lemma run_direction_kept (evs : list Event) (rt : Runtime) :
  ArmDirection (watchEntity rt) <> None ->
  ArmDirection (watchEntity (run evs rt)) <> None.
Proof.
  revert rt. induction evs as [|ev evs IH]; intros rt Hdir; cbn.
  - exact Hdir.
  - apply IH. apply handle_direction_kept. exact Hdir.
Qed.

Lemma executeActualThrowLogic_with_direction (tapTimestamp : Z) (e : Entity) :
  IsThrown e = false ->
  ArmDirection e <> None ->
  IsThrown (executeActualThrowLogic tapTimestamp e) = true.
Proof.
  intros Hidle Hdir. unfold executeActualThrowLogic. rewrite Hidle.
  assert (Hbase : exists d,
             baseDirection (samplesInWindow tapTimestamp e) (ArmDirection e)
             = Some d).
  { unfold baseDirection.
    destruct (samplesInWindow tapTimestamp e); [|eexists; reflexivity].
    destruct (ArmDirection e); [eexists; reflexivity|contradiction]. }
  destruct Hbase as [d ->].
  destruct (planThrow _ d e) as [e' [throwDx throwDy]]. reflexivity.
Qed.

(** X2.  Once a well-formed arm direction event has been handled, the
    instantaneous direction is never lost again, whatever follows; so a
    commit on an object that does not fly can no longer stop for want of
    a direction: it always ends Flying. *)
Theorem direction_is_never_lost (rt : Runtime) (before after : list Event)
  (d : R * R) (stamp now tapTimestamp : Z) :
  let rt' :=
    run (before ++ ArmDirectionChanged (Some d) stamp now :: after) rt in
  ArmDirection (watchEntity rt') <> None
  /\ (IsThrown (watchEntity rt') = false ->
      throwState (executeActualThrowLogic tapTimestamp (watchEntity rt'))
      = Flying).
Proof.
  cbv zeta. rewrite run_app.
  change (run (ArmDirectionChanged (Some d) stamp now :: after)
              (run before rt))
    with (run after (handle (ArmDirectionChanged (Some d) stamp now)
                            (run before rt))).
  assert (Hdir : ArmDirection
                   (watchEntity
                      (run after
                         (handle (ArmDirectionChanged (Some d) stamp now)
                                 (run before rt)))) <> None).
  { apply run_direction_kept. destruct d as [dx dy]. cbn. discriminate. }
  split; [exact Hdir|].
  intros Hidle. unfold throwState.
  rewrite (executeActualThrowLogic_with_direction _ _ Hidle Hdir).
  reflexivity.
Qed.

(** ** The lookahead setting *)

Lemma handle_lookahead_nonneg (ev : Event) (rt : Runtime) :
  (0 <= ConfigurableLookaheadDelayMs (watchEntity rt))%Z ->
  (0 <= ConfigurableLookaheadDelayMs (watchEntity (handle ev rt)))%Z.
Proof.
  intros Hpos.
  destruct ev as [now ts|tap now ts|[[dx dy]|] stamp now|k|dt w h| | | |val|];
    cbn [handle]; try exact Hpos.
  - destruct (performThrowOrCatchAction_sameInputs now ts rt)
      as (_ & _ & _ & _ & H & _).
    unfold tapListener. rewrite H. exact Hpos.
  - unfold probabilityListener.
    destruct (flickTapDetected _ _); [|exact Hpos].
    destruct (performThrowOrCatchAction_sameInputs now ts
                (mkRuntime (set_GestureProb tap (watchEntity rt))
                           (lastTapActionTimestamp rt) (timeouts rt)))
      as (_ & _ & _ & _ & H & _).
    rewrite H. exact Hpos.
  - unfold fireTimeout. destruct (nth_error _ _) as [ts|]; [|exact Hpos].
    destruct (delayedThrow_sameInputs ts (watchEntity rt))
      as (_ & _ & _ & _ & H & _).
    cbn [watchEntity]. rewrite H. exact Hpos.
  - destruct (useFrame_sameInputs dt w h (watchEntity rt))
      as [(_ & _ & _ & _ & H & _) _].
    cbn [onEntity watchEntity]. rewrite H. exact Hpos.
  - cbn. apply Z.le_max_l.
Qed.

Lemma run_lookahead_nonneg (evs : list Event) (rt : Runtime) :
  (0 <= ConfigurableLookaheadDelayMs (watchEntity rt))%Z ->
  (0 <= ConfigurableLookaheadDelayMs (watchEntity (run evs rt)))%Z.
Proof.
  revert rt. induction evs as [|ev evs IH]; intros rt Hpos; cbn.
  - exact Hpos.
  - apply IH. apply handle_lookahead_nonneg. exact Hpos.
Qed.

(** X3.  The lookahead delay is never negative in a reachable state,
    whatever is typed into the settings panel.  So an allowed action
    attempt on an Idle object commits at once exactly when the delay is
    0 (nothing is scheduled), and otherwise leaves the object Pending
    with a single closure scheduled, which holds the tap's clock
    reading. *)
Theorem lookahead_decides_the_commit (evs : list Event)
  (innerWidth innerHeight : R) (now tapTimestamp : Z) :
  let rt := run evs (initial innerWidth innerHeight) in
  throwState (watchEntity rt) = Idle ->
  debounced now rt = false ->
  let lookaheadDelayMs := ConfigurableLookaheadDelayMs (watchEntity rt) in
  let rt' := performThrowOrCatchAction now tapTimestamp rt in
  (0 <= lookaheadDelayMs)%Z
  /\ (lookaheadDelayMs = 0%Z ->
      watchEntity rt'
      = executeActualThrowLogic tapTimestamp
          (set_LastTapTime (Some now) (watchEntity rt))
      /\ timeouts rt' = [])
  /\ (lookaheadDelayMs <> 0%Z ->
      throwState (watchEntity rt') = Pending
      /\ timeouts rt' = [tapTimestamp]).
Proof.
  cbv zeta. intros Hidle Hpass.
  set (rt := run evs (initial innerWidth innerHeight)) in *.
  assert (Hpos : (0 <= ConfigurableLookaheadDelayMs (watchEntity rt))%Z).
  { apply run_lookahead_nonneg. cbn. lia. }
  assert (Hflags : IsThrown (watchEntity rt) = false
                   /\ IsThrowPending (watchEntity rt) = false).
  { unfold throwState in Hidle.
    destruct (IsThrown (watchEntity rt)), (IsThrowPending (watchEntity rt));
      try discriminate; split; reflexivity. }
  destruct Hflags as [Hthrown Hpend].
  pose proof (run_invariant evs _ (initial_invariant innerWidth innerHeight))
    as Hinv.
  fold rt in Hinv. unfold pendingInvariant in Hinv. rewrite Hpend in Hinv.
  split; [exact Hpos|].
  unfold performThrowOrCatchAction. rewrite Hpass.
  cbn [IsThrowPending IsThrown set_LastTapTime ConfigurableLookaheadDelayMs].
  rewrite Hpend, Hthrown. split.
  - intros Hzero. rewrite Hzero. cbn [Z.ltb Z.compare watchEntity timeouts].
    split; [reflexivity|exact Hinv].
  - intros Hnz.
    destruct (Z.ltb_spec 0 (ConfigurableLookaheadDelayMs (watchEntity rt)));
      [|lia].
    cbn [watchEntity timeouts]. rewrite Hinv. unfold throwState. cbn.
    rewrite Hthrown. split; reflexivity.
Qed.

Lemma lookahead_decides_the_commit_witness :
  (0 <= ConfigurableLookaheadDelayMs
          (watchEntity
             (run [LookaheadDelayInput (-40)] (initial 800 600))))%Z.
Proof.
  refine (proj1 (lookahead_decides_the_commit [LookaheadDelayInput (-40)]
                   800 600 1000 1000 _ _)).
  - reflexivity.
  - reflexivity.
Defined.

(** ** More on the frame callback *)

Lemma followPlan_slow (delta currentSpeed : R) (enableCurveball : bool)
  (plan : Plan.t) (vel : R * R) :
  currentSpeed <= 0.01 ->
  fst (fst (followPlan delta currentSpeed enableCurveball plan vel)) = vel.
Proof.
  intros Hslow. unfold followPlan.
  destruct (_ && _); [|reflexivity].
  destruct (nth_error _ _) as [segment|]; [|reflexivity].
  destruct (Rgt_dec currentSpeed 0.01) as [H|_]; [lra|reflexivity].
Qed.

Lemma spins_slow (enableCurveball : bool) (plan : Plan.t)
  (currentSpeed w : R) :
  currentSpeed <= MIN_THROW_SPEED_THRESHOLD ->
  spins enableCurveball plan currentSpeed w = false.
Proof.
  intros Hslow. unfold spins. rewrite (Rltb_false _ _ Hslow).
  destruct enableCurveball, (isPathPlanActive _ _); reflexivity.
Qed.

(** An object that flies with velocity zero. *)
Lemma useFrame_at_rest (delta innerWidth innerHeight : R) (e : Entity) :
  IsThrown e = true ->
  MouseVelocity e = Vector2.mk 0 0 ->
  IsThrown (useFrame delta innerWidth innerHeight e) = false
  /\ MouseVelocity (useFrame delta innerWidth innerHeight e)
     = Vector2.mk 0 0.
Proof.
  intros Hfly Hrest. unfold useFrame. rewrite Hfly, Hrest.
  cbn [Vector2.x Vector2.y]. rewrite norm_zero.
  pose proof (followPlan_slow delta 0 (EnableCurveball e) (ThrowPathPlan e)
                (0, 0)) as Hvel.
  destruct (followPlan delta 0 (EnableCurveball e) (ThrowPathPlan e) (0, 0))
    as [[vel1 plan1] planWritten].
  cbn [fst] in Hvel. rewrite Hvel by lra.
  rewrite spins_slow by (unfold MIN_THROW_SPEED_THRESHOLD; lra).
  assert (Hfr : applyFriction 0 delta (0, 0) = ((0, 0), true)).
  { unfold applyFriction. cbn [fst snd].
    replace (0 * (1 - dynamicFrictionFactor 0 * delta)) with 0 by ring.
    rewrite norm_zero.
    destruct (Rlt_dec 0 MIN_THROW_SPEED_THRESHOLD) as [_|H]; [reflexivity|].
    unfold MIN_THROW_SPEED_THRESHOLD in H. lra. }
  rewrite Hfr. cbn [fst snd].
  destruct (clampAxis_velocity innerWidth
              (Vector2.x (MousePosition e) + 0 * delta) 0) as [Hx|Hx];
    destruct (clampAxis_velocity innerHeight
                (Vector2.y (MousePosition e) + 0 * delta) 0) as [Hy|Hy];
    destruct (clampAxis innerWidth _) as [x5 vx5];
    destruct (clampAxis innerHeight _) as [y5 vy5];
    cbn [fst snd] in Hx, Hy; subst vx5 vy5;
    destruct planWritten; split; reflexivity.
Qed.

(** X4.  An object that flies with velocity (0, 0) is back to Idle after
    the next frame, whatever the frame time, the path plan and the
    curveball setting.  This is what ends a throw that was committed
    with a zero base direction in straight mode: it lasts one frame. *)
Theorem flight_at_rest_ends (delta innerWidth innerHeight : R)
  (e : Entity) :
  IsThrown e = true ->
  MouseVelocity e = Vector2.mk 0 0 ->
  let e' := useFrame delta innerWidth innerHeight e in
  throwState e' <> Flying
  /\ MouseVelocity e' = Vector2.mk 0 0
  /\ (forall (tapTimestamp : Z) (e0 : Entity),
        IsThrown e0 = false ->
        EnableCurveball e0 = false ->
        baseDirection (samplesInWindow tapTimestamp e0) (ArmDirection e0)
        = Some (0, 0) ->
        IsThrown
          (useFrame delta innerWidth innerHeight
             (executeActualThrowLogic tapTimestamp e0)) = false).
Proof.
  intros Hfly Hrest. cbv zeta.
  destruct (useFrame_at_rest delta innerWidth innerHeight e Hfly Hrest)
    as [Hstop Hvel].
  split; [unfold throwState; rewrite Hstop;
          destruct (IsThrowPending _); discriminate|].
  split; [exact Hvel|].
  intros tapTimestamp e0 Hidle Hcurve Hbase.
  destruct (executeActualThrowLogic_zero_direction tapTimestamp e0
              Hidle Hcurve Hbase) as [Hthrown Hzero].
  apply (useFrame_at_rest delta innerWidth innerHeight _ Hthrown Hzero).
Qed.

Lemma flight_at_rest_ends_witness :
  MouseVelocity
    (useFrame 0.01 800 600 (executeActualThrowLogic 10 (scenarioEntity 0 false)))
  = Vector2.mk 0 0.
Proof.
  refine (proj1 (proj2 (flight_at_rest_ends 0.01 800 600
            (executeActualThrowLogic 10 (scenarioEntity 0 false)) _ _))).
  - reflexivity.
  - apply (executeActualThrowLogic_zero_direction 10 (scenarioEntity 0 false)
             eq_refl eq_refl (scenario_zero_base false)).
Defined.

Lemma dynamicFrictionFactor_slow (currentSpeed : R) :
  currentSpeed <= MIN_THROW_SPEED_THRESHOLD ->
  dynamicFrictionFactor currentSpeed = FRICTION_FACTOR_LOW_SPEED.
Proof.
  unfold dynamicFrictionFactor. intros H.
  destruct (Rle_dec currentSpeed MIN_THROW_SPEED_THRESHOLD) as [_|H'];
    [reflexivity|contradiction].
Qed.

(** X5.  The friction factor lies between its high-speed and its
    low-speed value, takes the low-speed value up to the minimum throw
    speed and the high-speed value from the transition speed on, and
    never increases when the speed increases: the linear piece joins the
    two constant pieces without a jump. *)
Theorem friction_factor_decreases_with_speed (s1 s2 : R) :
  s1 <= s2 ->
  dynamicFrictionFactor s2 <= dynamicFrictionFactor s1
  /\ FRICTION_FACTOR_HIGH_SPEED <= dynamicFrictionFactor s1
     <= FRICTION_FACTOR_LOW_SPEED
  /\ (s1 <= MIN_THROW_SPEED_THRESHOLD ->
      dynamicFrictionFactor s1 = FRICTION_FACTOR_LOW_SPEED)
  /\ (FRICTION_TRANSITION_MAX_SPEED <= s1 ->
      dynamicFrictionFactor s1 = FRICTION_FACTOR_HIGH_SPEED).
Proof.
  intros Hle.
  split; [|split; [apply dynamicFrictionFactor_range|
                   split; [apply dynamicFrictionFactor_slow|
                           apply dynamicFrictionFactor_fast]]].
  pose proof (dynamicFrictionFactor_range s1) as R1.
  pose proof (dynamicFrictionFactor_range s2) as R2.
  unfold dynamicFrictionFactor, FRICTION_FACTOR_HIGH_SPEED,
    FRICTION_FACTOR_LOW_SPEED, FRICTION_TRANSITION_MAX_SPEED,
    MIN_THROW_SPEED_THRESHOLD in *.
  destruct (Rle_dec s1 5) as [A1|A1]; destruct (Rle_dec s2 5) as [A2|A2];
    try lra;
    destruct (Rge_dec s1 300) as [B1|B1];
    destruct (Rge_dec s2 300) as [B2|B2]; try lra.
Qed.

Lemma friction_factor_decreases_with_speed_witness :
  dynamicFrictionFactor 200 <= dynamicFrictionFactor 100.
Proof.
  refine (proj1 (friction_factor_decreases_with_speed 100 200 _)). lra.
Defined.

(** ** More on the flick classifier *)

Lemma clamped_saturated (s : R) :
  5 / 9 <= s <= 1 -> clampedFlickSensitivityInternal s = 1.
Proof.
  intros [Hlo Hhi].
  unfold clampedFlickSensitivityInternal, flickSensitivityInternal,
    FLICK_SENSITIVITY_UI_QUADRATIC_A, FLICK_SENSITIVITY_UI_QUADRATIC_B.
  assert (Hq : 1 <= -1.8 * s ^ 2 + 2.8 * s) by nra.
  rewrite Rmin_left by exact Hq. apply Rmax_right. lra.
Qed.

Lemma probabilityThreshold_antitone (s1 s2 : R) :
  0 <= s1 -> s1 <= s2 -> s2 <= 1 ->
  probabilityThreshold s2 <= probabilityThreshold s1.
Proof.
  intros H0 H12 H1. unfold probabilityThreshold.
  pose proof (clamped_monotone s1 s2 H0 H12 H1) as Hmono.
  pose proof (clamped_range s2) as Hr2.
  apply pow_incr. lra.
Qed.

(** X6.  For a slider value from 0.6 to 0.95 the internal sensitivity
    is at least 1.032 before the clamp, so it is clamped to 1 and the
    threshold is 0: every probability event whose tap probability is not
    negative, or is missing, is an action attempt. *)
Theorem classifier_saturates (s : R) :
  0.6 <= s <= 0.95 ->
  1.032 <= flickSensitivityInternal s
  /\ clampedFlickSensitivityInternal s = 1
  /\ probabilityThreshold s = 0
  /\ (forall p : R, 0 <= p -> flickTapDetected s p = true)
  /\ (forall (now tapTimestamp : Z) (rt : Runtime),
        FlickSensitivity (watchEntity rt) = s ->
        attempt (Probability None now tapTimestamp) rt = Some now).
Proof.
  intros Hs.
  assert (Hmargin : 1.032 <= flickSensitivityInternal s).
  { unfold flickSensitivityInternal, FLICK_SENSITIVITY_UI_QUADRATIC_A,
      FLICK_SENSITIVITY_UI_QUADRATIC_B. nra. }
  assert (Hclamp : clampedFlickSensitivityInternal s = 1).
  { apply clamped_saturated. lra. }
  assert (Hthr : probabilityThreshold s = 0).
  { unfold probabilityThreshold. rewrite Hclamp.
    unfold FLICK_SENSITIVITY_EXPONENT. lra. }
  assert (Hfire : forall p : R, 0 <= p -> flickTapDetected s p = true).
  { intros p Hp. unfold flickTapDetected.
    destruct (Rlt_dec 0 s) as [_|H]; [|lra].
    rewrite Hthr. apply Rleb_true. exact Hp. }
  split; [exact Hmargin|]. split; [exact Hclamp|].
  split; [exact Hthr|]. split; [exact Hfire|].
  intros now tapTimestamp rt Hsens. cbn [attempt]. rewrite Hsens.
  rewrite Hfire by lra. reflexivity.
Qed.

Lemma classifier_saturates_witness : probabilityThreshold 0.75 = 0.
Proof.
  refine (proj1 (proj2 (proj2 (classifier_saturates 0.75 _)))). lra.
Defined.

(** ** More on the path plan *)

Lemma norm_sqr (a b : R) : norm a b ^ 2 = a ^ 2 + b ^ 2.
Proof.
  unfold norm. rewrite pow2_sqrt; [reflexivity|nra].
Qed.

Lemma norm_unit_quotient (a b : R) :
  0 < norm a b -> norm (a / norm a b) (b / norm a b) = 1.
Proof.
  intros Hpos. unfold Rdiv. rewrite norm_scale.
  rewrite Rabs_right by (apply Rle_ge, Rlt_le, Rinv_0_lt_compat; exact Hpos).
  apply Rinv_l. lra.
Qed.

Lemma buildPathSegments_unit (sortedSamples : list Sample.t) :
  Forall (fun seg => norm (Segment.dx seg) (Segment.dy seg) = 1)
         (buildPathSegments sortedSamples).
Proof.
  induction sortedSamples as [|cur rest IH]; [constructor|].
  cbn [buildPathSegments].
  destruct (Rgt_dec _ 0.001) as [Hmag|_]; [|exact IH].
  constructor; [|exact IH].
  cbn [Segment.dx Segment.dy]. apply norm_unit_quotient. lra.
Qed.

Lemma buildPathSegments_count (sortedSamples : list Sample.t) :
  length (buildPathSegments sortedSamples)
  = length (filter usable sortedSamples).
Proof.
  induction sortedSamples as [|cur rest IH]; [reflexivity|].
  cbn [buildPathSegments filter]. unfold usable at 1, Rltb.
  destruct (Rgt_dec _ 0.001) as [H|H];
    destruct (Rlt_dec 0.001 _) as [H'|H']; try lra;
    cbn [length]; rewrite IH; reflexivity.
Qed.

(** X7.  The segments that a commit builds from its samples are unit
    vectors that last at least 0.02 s each, one for every sample whose
    magnitude exceeds 0.001 and none for the others. *)
Theorem path_segments_are_unit_vectors (sortedSamples : list Sample.t) :
  let pathSegments := buildPathSegments sortedSamples in
  Forall (fun seg =>
            norm (Segment.dx seg) (Segment.dy seg) = 1
            /\ 0.02 <= Segment.duration seg) pathSegments
  /\ length pathSegments = length (filter usable sortedSamples)
  /\ (length pathSegments <= length sortedSamples)%nat.
Proof.
  cbv zeta. split; [|split].
  - pose proof (buildPathSegments_unit sortedSamples) as Hu.
    pose proof (buildPathSegments_duration sortedSamples) as Hd.
    rewrite Forall_forall in *. intros seg Hin.
    split; [apply Hu|apply Hd]; exact Hin.
  - apply buildPathSegments_count.
  - rewrite buildPathSegments_count. apply filter_length_le.
Qed.

(** ** More on the exit spin *)

Lemma weightedSum_bound (M : R) (values : list R) :
  Forall (fun v => Rabs v <= M) values ->
  forall i : nat,
    Rabs (weightedSumFrom i values) <= M * weightsFrom i values.
Proof.
  induction 1 as [|v rest Hv _ IH]; intros i; cbn [weightedSumFrom weightsFrom].
  - rewrite Rabs_R0. lra.
  - eapply Rle_trans; [apply Rabs_triang|].
    rewrite Rabs_mult.
    rewrite (Rabs_right (INR (i + 1))) by (apply Rle_ge, pos_INR).
    pose proof (pos_INR (i + 1)) as Hw. specialize (IH (S i)). nra.
Qed.

Lemma weightedSum_zero (values : list R) :
  Forall (fun v => v = 0) values ->
  forall i : nat, weightedSumFrom i values = 0.
Proof.
  induction 1 as [|v rest Hv _ IH]; intros i; cbn [weightedSumFrom].
  - reflexivity.
  - rewrite Hv, IH. ring.
Qed.

Lemma pairAngularVelocity_bound (pair : Segment.t * Segment.t) :
  0.02 <= Segment.duration (snd pair) ->
  Rabs (pairAngularVelocity pair) <= PI / 0.02.
Proof.
  intros Hd. unfold pairAngularVelocity.
  destruct (wrapAngle_isWrapped
              (direction (snd pair) - direction (fst pair))) as [Hr _].
  set (w := wrapAngle _) in *.
  assert (Hpi := PI_RGT_0).
  unfold Rdiv. rewrite Rabs_mult.
  rewrite (Rabs_right (/ Segment.duration (snd pair)))
    by (apply Rle_ge, Rlt_le, Rinv_0_lt_compat; lra).
  assert (Hw : Rabs w <= PI) by (apply Rabs_le; lra).
  assert (Hinv : / Segment.duration (snd pair) <= / 0.02).
  { apply Rinv_le_contravar; lra. }
  assert (Hinvpos : 0 < / Segment.duration (snd pair))
    by (apply Rinv_0_lt_compat; lra).
  pose proof (Rabs_pos w). nra.
Qed.

Lemma calculatedEndingAngularVelocity_bound (segs : list Segment.t) :
  Forall (fun seg => 0.02 <= Segment.duration seg) segs ->
  Rabs (calculatedEndingAngularVelocity segs) <= PI / 0.02.
Proof.
  intros Hdur. assert (Hpi := PI_RGT_0).
  assert (Hzero : Rabs 0 <= PI / 0.02).
  { rewrite Rabs_R0. apply Rlt_le, Rdiv_lt_0_compat; lra. }
  rewrite calculatedEndingAngularVelocity_spec.
  2:{ eapply Forall_impl; [|exact Hdur]. cbn. intros seg H. lra. }
  destruct (2 <=? length segs)%nat eqn:Hlen; [|exact Hzero].
  set (rates := map pairAngularVelocity (adjacentPairs segs)).
  assert (Hrates : Forall (fun v => Rabs v <= PI / 0.02) rates).
  { unfold rates. apply Forall_forall. intros v Hin.
    apply in_map_iff in Hin. destruct Hin as (pair & <- & Hpair).
    apply pairAngularVelocity_bound.
    rewrite Forall_forall in Hdur. apply Hdur.
    apply adjacentPairs_second. exact Hpair. }
  assert (Hne : rates <> []).
  { unfold rates. destruct segs as [|a [|b rest]]; try discriminate Hlen.
    change (adjacentPairs (a :: b :: rest))
      with ((a, b) :: adjacentPairs (b :: rest)).
    cbn [map]. discriminate. }
  pose proof (weightsFrom_pos rates 0 Hne) as Hpos.
  pose proof (weightedSum_bound _ rates Hrates 0%nat) as Hsum.
  unfold weightedAverage. fold rates.
  unfold Rdiv at 1. rewrite Rabs_mult.
  rewrite (Rabs_right (/ weightsFrom 0 rates))
    by (apply Rle_ge, Rlt_le, Rinv_0_lt_compat; exact Hpos).
  apply Rmult_le_reg_r with (weightsFrom 0 rates); [exact Hpos|].
  rewrite Rmult_assoc, Rinv_l by lra. lra.
Qed.

(** X8.  The exit spin that a commit stores is at most PI / 0.02 =
    50 PI radians per second in absolute value: every wrapped angle is at
    most half a turn and every segment lasts at least 0.02 s. *)
Theorem exit_spin_is_bounded (tapTimestamp : Z) (e : Entity) :
  IsThrown e = false ->
  ArmDirection e <> None \/ samplesInWindow tapTimestamp e <> [] ->
  let e' := executeActualThrowLogic tapTimestamp e in
  Rabs (Plan.endingAngularVelocity (ThrowPathPlan e')) <= PI / 0.02
  /\ Rabs (MouseContinuingAngularVelocity e') <= PI / 0.02.
Proof.
  intros Hidle Hdata. cbv zeta. assert (Hpi := PI_RGT_0).
  assert (Hzero : Rabs 0 <= PI / 0.02).
  { rewrite Rabs_R0. apply Rlt_le, Rdiv_lt_0_compat; lra. }
  unfold executeActualThrowLogic. rewrite Hidle.
  assert (Hbase : exists d,
             baseDirection (samplesInWindow tapTimestamp e) (ArmDirection e)
             = Some d).
  { unfold baseDirection.
    destruct (samplesInWindow tapTimestamp e); [|eexists; reflexivity].
    destruct (ArmDirection e); [eexists; reflexivity|].
    destruct Hdata as [H|H]; contradiction. }
  destruct Hbase as [d ->]. unfold planThrow.
  destruct (EnableCurveball e && _).
  - pose proof (calculatedEndingAngularVelocity_bound _
                  (buildPathSegments_duration
                     (sortByTimestamp (samplesInWindow tapTimestamp e))))
      as Hb.
    destruct (buildPathSegments _) as [|seg0 rest]; destruct d as [dx dy];
      cbn; split; assumption.
  - destruct d as [dx dy]. cbn. split; assumption.
Qed.

Lemma exit_spin_is_bounded_witness :
  Rabs (MouseContinuingAngularVelocity
          (executeActualThrowLogic 10 quarterTurnEntity)) <= PI / 0.02.
Proof.
  refine (proj2 (exit_spin_is_bounded 10 quarterTurnEntity eq_refl _)).
  right. cbn. discriminate.
Defined.

Lemma insertByTimestamp_Forall (P : Sample.t -> Prop) (s : Sample.t)
  (l : list Sample.t) :
  P s -> Forall P l -> Forall P (insertByTimestamp s l).
Proof.
  intros Hs Hl. induction Hl as [|s' rest Hs' Hrest IH]; cbn.
  - constructor; [exact Hs|constructor].
  - destruct (_ <=? _)%Z.
    + constructor; [exact Hs|]. constructor; assumption.
    + constructor; assumption.
Qed.

Lemma sortByTimestamp_Forall (P : Sample.t -> Prop) (l : list Sample.t) :
  Forall P l -> Forall P (sortByTimestamp l).
Proof.
  induction 1 as [|s rest Hs _ IH]; cbn.
  - constructor.
  - apply insertByTimestamp_Forall; assumption.
Qed.

Lemma buildPathSegments_same_direction (a b : R) (samples : list Sample.t) :
  Forall (fun s => exists k : R,
                     0 < k /\ Sample.dx s = k * a /\ Sample.dy s = k * b)
         samples ->
  Forall (fun seg => Segment.dx seg = a / norm a b
                     /\ Segment.dy seg = b / norm a b)
         (buildPathSegments samples).
Proof.
  induction 1 as [|cur rest Hcur _ IH]; [constructor|].
  cbn [buildPathSegments].
  destruct (Rgt_dec _ 0.001) as [Hmag|_]; [|exact IH].
  constructor; [|exact IH]. cbn [Segment.dx Segment.dy].
  destruct Hcur as (k & Hk & Hx & Hy). rewrite Hx, Hy in *.
  replace (k * a) with (a * k) in * by ring.
  replace (k * b) with (b * k) in * by ring.
  rewrite norm_scale in *. rewrite Rabs_right in * by lra.
  assert (Hn : 0 < norm a b).
  { pose proof (norm_nonneg a b) as H0.
    destruct (Req_dec (norm a b) 0) as [Hz|Hz]; [|lra].
    rewrite Hz in Hmag. lra. }
  split; field; lra.
Qed.

Lemma currentAngularVelocity_same_direction (seg1 seg2 : Segment.t) :
  Segment.dx seg1 = Segment.dx seg2 ->
  Segment.dy seg1 = Segment.dy seg2 ->
  currentAngularVelocity seg1 seg2 = 0.
Proof.
  intros Hx Hy. unfold currentAngularVelocity. rewrite Hx, Hy.
  replace (atan2 (Segment.dy seg2) (Segment.dx seg2)
           - atan2 (Segment.dy seg2) (Segment.dx seg2)) with 0 by ring.
  fold (wrapAngle 0). assert (Hpi := PI_RGT_0).
  rewrite wrapAngle_in_range by lra.
  unfold Rdiv. ring.
Qed.

Lemma calculatedEndingAngularVelocity_same_direction (u v : R)
  (segs : list Segment.t) :
  Forall (fun seg => Segment.dx seg = u /\ Segment.dy seg = v) segs ->
  calculatedEndingAngularVelocity segs = 0.
Proof.
  intros Hsame. unfold calculatedEndingAngularVelocity.
  destruct (_ <=? _)%nat; [|reflexivity].
  rewrite angularLoop_sums. cbn zeta.
  cbn [weightedSumAngularVelocity sumOfWeights numAngleDiffsCalculated].
  destruct (_ && _); [|reflexivity].
  rewrite weightedSum_zero; [unfold Rdiv; ring|].
  apply Forall_forall. intros r Hin. apply in_map_iff in Hin.
  destruct Hin as ([s1 s2] & <- & Hpair). cbn [fst snd].
  rewrite Forall_forall in Hsame.
  assert (H2 : In s2 segs) by apply (adjacentPairs_second segs _ Hpair).
  assert (H1 : In s1 segs).
  { clear - Hpair. induction segs as [|a rest IH]; [destruct Hpair|].
    destruct rest as [|b rest']; [destruct Hpair|].
    change (adjacentPairs (a :: b :: rest'))
      with ((a, b) :: adjacentPairs (b :: rest')) in Hpair.
    destruct Hpair as [[= <- _]|Hin]; [left; reflexivity|].
    right. apply IH. exact Hin. }
  destruct (Hsame s1 H1) as [Hx1 Hy1]. destruct (Hsame s2 H2) as [Hx2 Hy2].
  apply currentAngularVelocity_same_direction; congruence.
Qed.

(** X9.  When all the samples in the window carry one and the same
    direction vector, a commit stores an exit spin of exactly 0: an arm
    that keeps its direction gives no residual spin, however many samples
    there are and however they are spaced. *)
Theorem steady_direction_has_no_spin (tapTimestamp : Z) (e : Entity)
  (a b : R) :
  IsThrown e = false ->
  samplesInWindow tapTimestamp e <> [] ->
  Forall (fun s => Sample.dx s = a /\ Sample.dy s = b)
         (samplesInWindow tapTimestamp e) ->
  let e' := executeActualThrowLogic tapTimestamp e in
  Plan.endingAngularVelocity (ThrowPathPlan e') = 0
  /\ MouseContinuingAngularVelocity e' = 0.
Proof.
  intros Hidle Hsome Hsame. cbv zeta.
  assert (Hline :
            Forall (fun s => exists k : R,
                        0 < k /\ Sample.dx s = k * a /\ Sample.dy s = k * b)
                   (samplesInWindow tapTimestamp e)).
  { eapply Forall_impl; [|exact Hsame]. cbn. intros s [Hx Hy].
    exists 1. split; [lra|]. split; lra. }
  pose proof (calculatedEndingAngularVelocity_same_direction _ _ _
                (buildPathSegments_same_direction a b _
                   (sortByTimestamp_Forall _ _ Hline))) as Hcalc.
  unfold executeActualThrowLogic. rewrite Hidle.
  destruct (samplesInWindow tapTimestamp e) as [|s l] eqn:Hr;
    [contradiction|].
  unfold baseDirection, planThrow.
  destruct (EnableCurveball e && _).
  - destruct (buildPathSegments (sortByTimestamp (s :: l)))
      as [|seg0 rest]; cbn; [split; reflexivity|].
    split; exact Hcalc.
  - cbn. split; reflexivity.
Qed.

Lemma steady_direction_has_no_spin_witness :
  MouseContinuingAngularVelocity
    (executeActualThrowLogic 20 steadyAimEntity) = 0.
Proof.
  refine (proj2 (steady_direction_has_no_spin 20 steadyAimEntity 3 4
                   eq_refl _ _)).
  - cbn. discriminate.
  - cbn. repeat constructor.
Defined.

(** ** Playing the path plan *)

Lemma followPlan_plan (delta currentSpeed : R) (enableCurveball : bool)
  (plan : Plan.t) (vel : R * R) :
  let plan' := snd (fst (followPlan delta currentSpeed enableCurveball
                                    plan vel)) in
  Plan.segments plan' = Plan.segments plan
  /\ Plan.endingAngularVelocity plan' = Plan.endingAngularVelocity plan
  /\ (Plan.currentIndex plan' = Plan.currentIndex plan
      \/ (Plan.currentIndex plan' = S (Plan.currentIndex plan)
          /\ Plan.activeTimeInSegment plan' = 0
          /\ isPathPlanActive enableCurveball plan = true))
  /\ (Plan.currentIndex plan <= length (Plan.segments plan) ->
      Plan.currentIndex plan' <= length (Plan.segments plan))%nat.
Proof.
  cbv zeta. unfold followPlan, isPathPlanActive.
  destruct (enableCurveball && (0 <? length (Plan.segments plan))%nat
            && (Plan.currentIndex plan <? length (Plan.segments plan))%nat)
    eqn:Hactive.
  - assert (Hlt : (Plan.currentIndex plan < length (Plan.segments plan))%nat).
    { apply andb_true_iff in Hactive. destruct Hactive as [_ H].
      apply Nat.ltb_lt. exact H. }
    destruct (nth_error _ _) as [segment|]; cbn [fst snd].
    + destruct (Rge_dec _ _); cbn; repeat split; auto; intros; lia.
    + repeat split; auto.
  - cbn [fst snd]. repeat split; auto.
Qed.

Lemma useFrame_plan (delta innerWidth innerHeight : R) (e : Entity) :
  ThrowPathPlan (useFrame delta innerWidth innerHeight e)
  = (if IsThrown e
     then snd (fst (followPlan delta (speed (MouseVelocity e))
                               (EnableCurveball e) (ThrowPathPlan e)
                               (Vector2.x (MouseVelocity e),
                                Vector2.y (MouseVelocity e))))
     else ThrowPathPlan e).
Proof.
  unfold useFrame. destruct (IsThrown e); [|reflexivity].
  fold (speed (MouseVelocity e)).
  assert (Hsame : forall v p,
            followPlan delta (speed (MouseVelocity e)) (EnableCurveball e)
                       (ThrowPathPlan e)
                       (Vector2.x (MouseVelocity e),
                        Vector2.y (MouseVelocity e)) = (v, p, false) ->
            p = ThrowPathPlan e).
  { unfold followPlan. intros v p.
    destruct (_ && _); [|intros [= _ <-]; reflexivity].
    destruct (nth_error _ _); [discriminate|intros [= _ <-]; reflexivity]. }
  destruct (followPlan _ _ _ _ _) as [[vel1 plan1] planWritten] eqn:Hplan.
  destruct (applyFriction _ _ _) as [vel3 stops].
  destruct (clampAxis innerWidth _) as [x5 vx5].
  destruct (clampAxis innerHeight _) as [y5 vy5].
  cbn [fst snd].
  destruct planWritten.
  - destruct (spins _ _ _ _), stops; reflexivity.
  - rewrite (Hsame vel1 plan1 eq_refl).
    destruct (spins _ _ _ _), stops; reflexivity.
Qed.

(** X10.  A frame consumes the path plan forwards only: it never changes
    the segments or the stored exit spin, it leaves the index where it
    is or moves it on by one, which it does only while the plan is
    active and with the time in the segment reset to 0, and it never
    moves the index beyond the number of segments. *)
Theorem path_plan_is_consumed_forwards (delta innerWidth innerHeight : R)
  (e : Entity) :
  let plan := ThrowPathPlan e in
  let plan' := ThrowPathPlan (useFrame delta innerWidth innerHeight e) in
  Plan.segments plan' = Plan.segments plan
  /\ Plan.endingAngularVelocity plan' = Plan.endingAngularVelocity plan
  /\ (Plan.currentIndex plan' = Plan.currentIndex plan
      \/ (Plan.currentIndex plan' = S (Plan.currentIndex plan)
          /\ Plan.activeTimeInSegment plan' = 0
          /\ IsThrown e = true
          /\ isPathPlanActive (EnableCurveball e) plan = true))
  /\ (Plan.currentIndex plan <= length (Plan.segments plan) ->
      Plan.currentIndex plan' <= length (Plan.segments plan))%nat.
Proof.
  cbv zeta. rewrite useFrame_plan.
  destruct (IsThrown e).
  - destruct (followPlan_plan delta (speed (MouseVelocity e))
                (EnableCurveball e) (ThrowPathPlan e)
                (Vector2.x (MouseVelocity e), Vector2.y (MouseVelocity e)))
      as (H1 & H2 & H3 & H4).
    split; [exact H1|]. split; [exact H2|]. split; [|exact H4].
    destruct H3 as [H3|(H3 & H3' & H3'')]; [left; exact H3|right].
    repeat split; assumption.
  - repeat split; auto.
Qed.

Lemma planInvariant_same (e e' : Entity) :
  ThrowPathPlan e' = ThrowPathPlan e -> planInvariant e -> planInvariant e'.
Proof. unfold planInvariant. intros ->. tauto. Qed.

Lemma planInvariant_fresh (e : Entity) (segs : list Segment.t) (w : R) :
  Forall (fun seg => norm (Segment.dx seg) (Segment.dy seg) = 1) segs ->
  ThrowPathPlan e = Plan.mk segs 0 0 w -> planInvariant e.
Proof.
  unfold planInvariant. intros Hu ->. cbn. split; [exact Hu|lia].
Qed.

Lemma executeActualThrowLogic_planInvariant (tapTimestamp : Z) (e : Entity) :
  planInvariant e -> planInvariant (executeActualThrowLogic tapTimestamp e).
Proof.
  intros Hinv. unfold executeActualThrowLogic.
  destruct (IsThrown e); [exact Hinv|].
  destruct (baseDirection _ _) as [[dx dy]|];
    [|revert Hinv; apply planInvariant_same; reflexivity].
  unfold planThrow.
  destruct (EnableCurveball e && _).
  - pose proof (buildPathSegments_unit
                  (sortByTimestamp (samplesInWindow tapTimestamp e))) as Hu.
    destruct (buildPathSegments _) as [|seg0 rest] eqn:Hsegs.
    + apply (planInvariant_fresh _ [] 0); [constructor|reflexivity].
    + eapply planInvariant_fresh; [exact Hu|reflexivity].
  - apply (planInvariant_fresh _ [] 0); [constructor|reflexivity].
Qed.

Lemma performThrowOrCatchAction_planInvariant (now tapTimestamp : Z)
  (rt : Runtime) :
  planInvariant (watchEntity rt) ->
  planInvariant (watchEntity (performThrowOrCatchAction now tapTimestamp rt)).
Proof.
  intros Hinv. unfold performThrowOrCatchAction.
  destruct (debounced now rt); [exact Hinv|].
  cbn [IsThrowPending IsThrown set_LastTapTime ConfigurableLookaheadDelayMs
       set_MouseVelocity set_IsThrown].
  destruct (IsThrowPending (watchEntity rt));
    [revert Hinv; apply planInvariant_same; reflexivity|].
  destruct (IsThrown (watchEntity rt));
    [revert Hinv; apply planInvariant_same; reflexivity|].
  destruct (0 <? _)%Z;
    [revert Hinv; apply planInvariant_same; reflexivity|].
  cbn [watchEntity]. apply executeActualThrowLogic_planInvariant.
  revert Hinv. apply planInvariant_same. reflexivity.
Qed.

Lemma useFrame_planInvariant (delta innerWidth innerHeight : R) (e : Entity) :
  planInvariant e -> planInvariant (useFrame delta innerWidth innerHeight e).
Proof.
  unfold planInvariant. intros [Hu Hi]. rewrite useFrame_plan.
  destruct (IsThrown e); [|split; assumption].
  destruct (followPlan_plan delta (speed (MouseVelocity e))
              (EnableCurveball e) (ThrowPathPlan e)
              (Vector2.x (MouseVelocity e), Vector2.y (MouseVelocity e)))
    as (H1 & _ & _ & H4).
  rewrite H1. split; [exact Hu|apply H4; exact Hi].
Qed.

Lemma handle_planInvariant (ev : Event) (rt : Runtime) :
  planInvariant (watchEntity rt) -> planInvariant (watchEntity (handle ev rt)).
Proof.
  intros Hinv.
  destruct ev as [now ts|tap now ts|[[dx dy]|] stamp now|k|dt w h| | | | |];
    cbn [handle];
    try (revert Hinv; apply planInvariant_same; reflexivity).
  - apply performThrowOrCatchAction_planInvariant. exact Hinv.
  - unfold probabilityListener.
    destruct (flickTapDetected _ _);
      [|revert Hinv; apply planInvariant_same; reflexivity].
    apply performThrowOrCatchAction_planInvariant.
    revert Hinv. apply planInvariant_same. reflexivity.
  - unfold fireTimeout. destruct (nth_error _ _) as [ts|]; [|exact Hinv].
    cbn [watchEntity]. unfold delayedThrow.
    destruct (IsThrowPending (watchEntity rt)).
    + eapply planInvariant_same;
        [|apply (executeActualThrowLogic_planInvariant ts _ Hinv)].
      reflexivity.
    + revert Hinv. apply planInvariant_same. reflexivity.
  - apply useFrame_planInvariant. exact Hinv.
Qed.

Lemma run_planInvariant (evs : list Event) (rt : Runtime) :
  planInvariant (watchEntity rt) -> planInvariant (watchEntity (run evs rt)).
Proof.
  revert rt. induction evs as [|ev evs IH]; intros rt Hinv; cbn.
  - exact Hinv.
  - apply IH. apply handle_planInvariant. exact Hinv.
Qed.

Lemma initial_planInvariant (innerWidth innerHeight : R) :
  planInvariant (watchEntity (initial innerWidth innerHeight)).
Proof. unfold planInvariant. cbn. split; [constructor|lia]. Qed.

(** Re-aiming along a unit segment keeps the speed. *)
Lemma followPlan_keeps_speed (delta : R) (enableCurveball : bool)
  (plan : Plan.t) (vx vy : R) :
  Forall (fun seg => norm (Segment.dx seg) (Segment.dy seg) = 1)
         (Plan.segments plan) ->
  let vel1 := fst (fst (followPlan delta (norm vx vy) enableCurveball plan
                                   (vx, vy))) in
  norm (fst vel1) (snd vel1) = norm vx vy.
Proof.
  intros Hu. cbv zeta. unfold followPlan.
  destruct (_ && _); [|reflexivity].
  destruct (nth_error _ _) as [segment|] eqn:Hnth; [|reflexivity].
  destruct (Rgt_dec (norm vx vy) 0.01) as [Hfast|_]; [|reflexivity].
  cbn [fst snd]. rewrite norm_scale.
  rewrite Forall_forall in Hu.
  rewrite (Hu segment (nth_error_In _ _ Hnth)).
  rewrite Rabs_right by (apply Rle_ge, norm_nonneg). ring.
Qed.

(** A frame in flight whose path plan, active or not, has unit segments:
    the speed after the frame. *)
Lemma useFrame_unit_plan (delta innerWidth innerHeight : R) (e : Entity) :
  IsThrown e = true ->
  Forall (fun seg => norm (Segment.dx seg) (Segment.dy seg) = 1)
         (Plan.segments (ThrowPathPlan e)) ->
  let e' := useFrame delta innerWidth innerHeight e in
  let speedAfterFriction :=
    Rabs (1 - dynamicFrictionFactor (speed (MouseVelocity e)) * delta)
    * speed (MouseVelocity e) in
  (speedAfterFriction < MIN_THROW_SPEED_THRESHOLD ->
   IsThrown e' = false /\ MouseVelocity e' = Vector2.mk 0 0)
  /\ (MIN_THROW_SPEED_THRESHOLD <= speedAfterFriction ->
      IsThrown e' = true
      /\ speed (MouseVelocity e') <= speedAfterFriction).
Proof.
  intros Hfly Hu. cbv zeta.
  pose proof (followPlan_keeps_speed delta (EnableCurveball e)
                (ThrowPathPlan e) (Vector2.x (MouseVelocity e))
                (Vector2.y (MouseVelocity e)) Hu) as Hkeep.
  cbv zeta in Hkeep.
  unfold useFrame. rewrite Hfly. fold (speed (MouseVelocity e)) in *.
  destruct (followPlan delta (speed (MouseVelocity e)) (EnableCurveball e)
              (ThrowPathPlan e)
              (Vector2.x (MouseVelocity e), Vector2.y (MouseVelocity e)))
    as [[vel1 plan1] planWritten].
  cbn [fst snd] in Hkeep.
  set (spinning := spins (EnableCurveball e) plan1 (speed (MouseVelocity e))
                         (MouseContinuingAngularVelocity e)).
  set (vel2 := if spinning
               then rotate (MouseContinuingAngularVelocity e * delta) vel1
               else vel1).
  assert (Hnorm2 : norm (fst vel2) (snd vel2) = speed (MouseVelocity e)).
  { unfold vel2. destruct spinning; [|exact Hkeep].
    unfold rotate. cbn [fst snd]. rewrite norm_rotate. exact Hkeep. }
  destruct (applyFriction_spec _ delta vel2 Hnorm2) as [Hstop Hgo].
  pose proof (speed_after_clamp innerWidth innerHeight
                (Vector2.x (MousePosition e)
                 + Vector2.x (MouseVelocity e) * delta)
                (Vector2.y (MousePosition e)
                 + Vector2.y (MouseVelocity e) * delta)
                (fst (applyFriction (speed (MouseVelocity e)) delta vel2)))
    as Hclamp.
  destruct (applyFriction (speed (MouseVelocity e)) delta vel2)
    as [vel3 stops].
  cbn [fst snd] in Hgo, Hclamp.
  destruct (clampAxis_velocity innerWidth
              (Vector2.x (MousePosition e)
               + Vector2.x (MouseVelocity e) * delta) 0) as [Hx0|Hx0];
    destruct (clampAxis_velocity innerHeight
                (Vector2.y (MousePosition e)
                 + Vector2.y (MouseVelocity e) * delta) 0) as [Hy0|Hy0].
  all: split;
    [intros Hlow; specialize (Hstop Hlow); injection Hstop as -> ->;
     cbn [fst snd];
     destruct (clampAxis innerWidth _) as [x5 vx5];
     destruct (clampAxis innerHeight _) as [y5 vy5];
     cbn [fst snd] in Hx0, Hy0; subst vx5 vy5;
     destruct planWritten, spinning; split; reflexivity
    |intros Hhigh; destruct (Hgo Hhigh) as [-> Hnorm3];
     destruct (clampAxis innerWidth _) as [x5 vx5];
     destruct (clampAxis innerHeight _) as [y5 vy5];
     cbn [fst snd] in Hclamp;
     split;
     [destruct planWritten, spinning; cbn; rewrite ?Hfly; reflexivity|];
     unfold speed at 1;
     destruct planWritten, spinning; cbn; lra].
Qed.

(** X11.  In every reachable state the segments of the path plan are unit
    vectors and the index is at most their number.  So playing the plan
    only turns the velocity: for a frame in flight with a positive frame
    time [delta] and [dynamicFrictionFactor * delta < 2], whether the
    plan is active or not, a positive speed strictly decreases, and the
    object stops with velocity (0, 0) exactly when the speed that
    friction leaves is below the minimum throw speed. *)
Theorem flight_slows_with_or_without_plan (evs : list Event)
  (innerWidth innerHeight delta : R) :
  let e := watchEntity (run evs (initial innerWidth innerHeight)) in
  IsThrown e = true ->
  0 < delta ->
  dynamicFrictionFactor (speed (MouseVelocity e)) * delta < 2 ->
  let e' := useFrame delta innerWidth innerHeight e in
  let speedAfterFriction :=
    Rabs (1 - dynamicFrictionFactor (speed (MouseVelocity e)) * delta)
    * speed (MouseVelocity e) in
  planInvariant e
  /\ (speedAfterFriction < MIN_THROW_SPEED_THRESHOLD ->
      IsThrown e' = false /\ MouseVelocity e' = Vector2.mk 0 0)
  /\ (MIN_THROW_SPEED_THRESHOLD <= speedAfterFriction -> IsThrown e' = true)
  /\ (0 < speed (MouseVelocity e) ->
      speed (MouseVelocity e') < speed (MouseVelocity e)).
Proof.
  cbv zeta. intros Hfly Hdt Hstable.
  pose proof (run_planInvariant evs _
                (initial_planInvariant innerWidth innerHeight)) as Hinv.
  set (e := watchEntity (run evs (initial innerWidth innerHeight))) in *.
  destruct (useFrame_unit_plan delta innerWidth innerHeight e Hfly
              (proj1 Hinv)) as [Hstop Hgo].
  set (f := dynamicFrictionFactor (speed (MouseVelocity e))) in *.
  set (s := speed (MouseVelocity e)) in *.
  assert (Hs : 0 <= s) by apply norm_nonneg.
  assert (Hf : 1.4 <= f <= 6).
  { pose proof (dynamicFrictionFactor_range (speed (MouseVelocity e))) as H.
    unfold FRICTION_FACTOR_HIGH_SPEED, FRICTION_FACTOR_LOW_SPEED in H.
    exact H. }
  assert (Hfac : Rabs (1 - f * delta) < 1) by (apply Rabs_def1; nra).
  assert (Habs : 0 <= Rabs (1 - f * delta)) by apply Rabs_pos.
  split; [exact Hinv|]. split; [exact Hstop|].
  split; [intros H; apply (Hgo H)|].
  intros Hpos.
  destruct (Rlt_dec (Rabs (1 - f * delta) * s) MIN_THROW_SPEED_THRESHOLD)
    as [Hlow|Hhigh].
  - destruct (Hstop Hlow) as [_ Hv]. rewrite Hv.
    unfold speed at 1. cbn [Vector2.x Vector2.y]. rewrite norm_zero.
    exact Hpos.
  - assert (H5 : MIN_THROW_SPEED_THRESHOLD <= Rabs (1 - f * delta) * s)
      by lra.
    destruct (Hgo H5) as [_ Hle]. nra.
Qed.

Lemma curveScript_flies :
  IsThrown (watchEntity (run curveScript (initial 4000 2000))) = true.
Proof.
  unfold curveScript, run. cbn [fold_left handle tapListener].
  unfold performThrowOrCatchAction.
  cbn -[executeActualThrowLogic].
  apply executeActualThrowLogic_with_direction.
  - reflexivity.
  - cbn. discriminate.
Qed.

Lemma flight_slows_with_or_without_plan_witness :
  planInvariant (watchEntity (run curveScript (initial 4000 2000))).
Proof.
  assert (Hdt : 0 < 0.01) by lra.
  refine (proj1 (flight_slows_with_or_without_plan curveScript 4000 2000
                   0.01 curveScript_flies Hdt _)).
  apply short_frame_is_stable. lra.
Defined.

(** ** The residual spin *)

Lemma decaySpin_spec (w delta : R) :
  0 <= delta <= 2.5 ->
  Rabs (decaySpin w delta) <= Rabs w
  /\ (decaySpin w delta = 0
      \/ MIN_CONTINUING_ANGULAR_VELOCITY <= Rabs (decaySpin w delta)).
Proof.
  intros Hdt. unfold decaySpin, ANGULAR_FRICTION_CONSTANT,
    MIN_CONTINUING_ANGULAR_VELOCITY.
  destruct (Rlt_dec _ 0.02) as [Hsmall|Hbig].
  - split; [rewrite Rabs_R0; apply Rabs_pos|left; reflexivity].
  - split; [|right; lra].
    rewrite Rabs_mult.
    assert (Hfac : Rabs (1 - 0.8 * delta) <= 1) by (apply Rabs_le; lra).
    pose proof (Rabs_pos w). nra.
Qed.

Lemma useFrame_spin (delta innerWidth innerHeight : R) (e : Entity) :
  MouseContinuingAngularVelocity (useFrame delta innerWidth innerHeight e)
  = MouseContinuingAngularVelocity e
  \/ (IsThrown e = true
      /\ EnableCurveball e = true
      /\ MIN_THROW_SPEED_THRESHOLD < speed (MouseVelocity e)
      /\ MouseContinuingAngularVelocity (useFrame delta innerWidth innerHeight e)
         = decaySpin (MouseContinuingAngularVelocity e) delta).
Proof.
  unfold useFrame. destruct (IsThrown e); [|left; reflexivity].
  fold (speed (MouseVelocity e)).
  destruct (followPlan _ _ _ _ _) as [[vel1 plan1] planWritten].
  destruct (applyFriction _ _ _) as [vel3 stops].
  destruct (clampAxis innerWidth _) as [x5 vx5].
  destruct (clampAxis innerHeight _) as [y5 vy5].
  destruct (spins (EnableCurveball e) plan1 (speed (MouseVelocity e))
                  (MouseContinuingAngularVelocity e)) eqn:Hspin.
  - right. unfold spins in Hspin.
    apply andb_true_iff in Hspin. destruct Hspin as [Hspin _].
    apply andb_true_iff in Hspin. destruct Hspin as [Hspin Hfast].
    apply andb_true_iff in Hspin. destruct Hspin as [Hcurve _].
    unfold Rltb in Hfast.
    destruct (Rlt_dec MIN_THROW_SPEED_THRESHOLD (speed (MouseVelocity e)))
      as [Hlt|_]; [|discriminate].
    split; [reflexivity|]. split; [exact Hcurve|]. split; [exact Hlt|].
    destruct planWritten, stops; reflexivity.
  - left. destruct planWritten, stops; reflexivity.
Qed.

(** X12.  A frame changes the residual spin only while the object flies
    in curveball mode faster than the minimum throw speed, and then by
    the decay of lines 471-474.  For a frame time between 0 and 2.5 s the
    spin never grows in absolute value, and a spin that a frame has
    decayed is either 0 or at least 0.02 in absolute value. *)
Theorem residual_spin_decays (delta innerWidth innerHeight : R)
  (e : Entity) :
  0 <= delta <= 2.5 ->
  let w := MouseContinuingAngularVelocity e in
  let w' :=
    MouseContinuingAngularVelocity (useFrame delta innerWidth innerHeight e) in
  Rabs w' <= Rabs w
  /\ (w' = w
      \/ (IsThrown e = true /\ EnableCurveball e = true
          /\ MIN_THROW_SPEED_THRESHOLD < speed (MouseVelocity e)
          /\ (w' = 0 \/ MIN_CONTINUING_ANGULAR_VELOCITY <= Rabs w'))).
Proof.
  intros Hdt. cbv zeta.
  destruct (useFrame_spin delta innerWidth innerHeight e)
    as [Hsame|(Hfly & Hcurve & Hfast & Hdecay)].
  - rewrite Hsame. split; [lra|left; reflexivity].
  - rewrite Hdecay.
    destruct (decaySpin_spec (MouseContinuingAngularVelocity e) delta Hdt)
      as [Hle Hcase].
    split; [exact Hle|right]. repeat split; assumption.
Qed.

Lemma spinningEntity_decays :
  MouseContinuingAngularVelocity (useFrame 0.01 4000 2000 spinningEntity)
  = 0.992.
Proof.
  unfold useFrame.
  change (IsThrown spinningEntity) with true. cbv iota.
  change (EnableCurveball spinningEntity) with true.
  change (ThrowPathPlan spinningEntity) with Plan.empty.
  change (MouseContinuingAngularVelocity spinningEntity) with 1.
  change (MouseVelocity spinningEntity) with (Vector2.mk 500 0).
  cbn [Vector2.x Vector2.y].
  rewrite followPlan_inactive by reflexivity.
  assert (Hspin : spins true Plan.empty (norm 500 0) 1 = true).
  { unfold spins. change (isPathPlanActive true Plan.empty) with false.
    cbn [negb andb]. rewrite norm_axis by lra.
    rewrite Rltb_true by (unfold MIN_THROW_SPEED_THRESHOLD; lra).
    rewrite Reqb_false by lra. reflexivity. }
  rewrite Hspin.
  destruct (applyFriction _ _ _) as [vel3 stops].
  destruct (clampAxis 4000 _) as [x5 vx5].
  destruct (clampAxis 2000 _) as [y5 vy5].
  assert (Hdecay : decaySpin 1 0.01 = 0.992).
  { unfold decaySpin, ANGULAR_FRICTION_CONSTANT,
      MIN_CONTINUING_ANGULAR_VELOCITY.
    destruct (Rlt_dec _ 0.02) as [H|_]; [|lra].
    rewrite Rabs_right in H by lra. lra. }
  destruct stops; cbn; exact Hdecay.
Qed.

Lemma residual_spin_decays_witness :
  let w := MouseContinuingAngularVelocity spinningEntity in
  let w' :=
    MouseContinuingAngularVelocity (useFrame 0.01 4000 2000 spinningEntity) in
  (Rabs w' <= Rabs w
   /\ (w' = w
       \/ (IsThrown spinningEntity = true
           /\ EnableCurveball spinningEntity = true
           /\ MIN_THROW_SPEED_THRESHOLD < speed (MouseVelocity spinningEntity)
           /\ (w' = 0 \/ MIN_CONTINUING_ANGULAR_VELOCITY <= Rabs w'))))
  /\ w' = 0.992 /\ w = 1.
Proof.
  split.
  - refine (residual_spin_decays 0.01 4000 2000 spinningEntity _). lra.
  - split; [exact spinningEntity_decays|reflexivity].
Defined.

(** ** The order of the history *)

Lemma chronological_app (l : list Sample.t) (s : Sample.t) :
  chronological l ->
  Forall (fun s' => (Sample.timestamp s' <= Sample.timestamp s)%Z) l ->
  chronological (l ++ [s]).
Proof.
  induction l as [|a rest IH]; intros Hc Hle; cbn.
  - split; [constructor|exact I].
  - destruct Hc as [Ha Hrest]. inversion Hle as [|? ? Has Hrs]; subst.
    split.
    + apply Forall_app. split; [exact Ha|]. constructor; [exact Has|constructor].
    + apply IH; assumption.
Qed.

Lemma chronological_filter (f : Sample.t -> bool) (l : list Sample.t) :
  chronological l -> chronological (filter f l).
Proof.
  induction l as [|a rest IH]; intros Hc; cbn; [exact I|].
  destruct Hc as [Ha Hrest]. destruct (f a); cbn.
  - split; [|apply IH; exact Hrest].
    rewrite Forall_forall in *. intros s' Hin.
    apply filter_In in Hin. apply Ha. tauto.
  - apply IH. exact Hrest.
Qed.

Lemma sortByTimestamp_chronological (l : list Sample.t) :
  chronological l -> sortByTimestamp l = l.
Proof.
  induction l as [|a rest IH]; intros Hc; [reflexivity|].
  destruct Hc as [Ha Hrest]. cbn [sortByTimestamp fold_right].
  change (fold_right insertByTimestamp [] rest) with (sortByTimestamp rest).
  rewrite (IH Hrest). destruct rest as [|b rest']; [reflexivity|].
  cbn [insertByTimestamp]. inversion Ha as [|? ? Hab _]; subst.
  destruct (Z.leb_spec (Sample.timestamp a) (Sample.timestamp b));
    [reflexivity|lia].
Qed.

Lemma run_historyInOrder (evs : list Event) :
  forall (rt : Runtime) (last : Z),
    historyInOrder last (watchEntity rt) ->
    steadyClock last evs ->
    exists last' : Z, historyInOrder last' (watchEntity (run evs rt)).
Proof.
  induction evs as [|ev evs IH]; intros rt last Hin Hclock.
  - exists last. exact Hin.
  - cbn [run fold_left].
    change (fold_left (fun st ev0 => handle ev0 st) evs (handle ev rt))
      with (run evs (handle ev rt)).
    pose proof (handle_history ev rt) as Hh.
    destruct ev as [now ts|tap now ts|[[dx dy]|] stamp now|k|dt w h| | | | |];
      cbn [steadyClock] in Hclock;
      try (apply (IH _ last); [|exact Hclock];
           unfold historyInOrder in *; rewrite Hh; exact Hin).
    destruct Hclock as [Hle Hclock].
    apply (IH _ stamp); [|exact Hclock].
    destruct Hin as [Hc Hold].
    unfold historyInOrder. cbn [handle onEntity watchEntity].
    cbn [armDirectionListener ArmDirectionHistory set_ArmDirectionHistory
         set_ArmDirection].
    split.
    + apply chronological_filter. apply chronological_app; [exact Hc|].
      eapply Forall_impl; [|exact Hold]. cbn. intros s Hs. lia.
    + apply Forall_forall. intros s Hs. apply filter_In in Hs.
      destruct Hs as [Hs _]. apply in_app_or in Hs.
      destruct Hs as [Hs|[<-|[]]]; [|cbn; lia].
      rewrite Forall_forall in Hold. specialize (Hold s Hs). lia.
Qed.

(** X13.  When the clock read at line 335 never runs backwards, the
    history is in chronological order in every reachable state, so is
    the result of the window query, and the sort of line 131 leaves the
    queried samples in the order in which they were recorded. *)
Theorem history_is_chronological (evs : list Event) (first : Z)
  (innerWidth innerHeight : R) (tapTimestamp : Z) :
  steadyClock first evs ->
  let e := watchEntity (run evs (initial innerWidth innerHeight)) in
  chronological (ArmDirectionHistory e)
  /\ chronological (samplesInWindow tapTimestamp e)
  /\ sortByTimestamp (samplesInWindow tapTimestamp e)
     = samplesInWindow tapTimestamp e.
Proof.
  intros Hclock. cbv zeta.
  destruct (run_historyInOrder evs (initial innerWidth innerHeight) first)
    as [last [Hc _]].
  - split; cbn; [exact I|constructor].
  - exact Hclock.
  - assert (Hq : chronological
                   (samplesInWindow tapTimestamp
                      (watchEntity (run evs (initial innerWidth innerHeight)))))
      by (apply chronological_filter; exact Hc).
    split; [exact Hc|]. split; [exact Hq|].
    apply sortByTimestamp_chronological. exact Hq.
Qed.

Lemma history_is_chronological_witness :
  chronological
    (ArmDirectionHistory (watchEntity (run steadyScript (initial 4000 2000)))).
Proof.
  refine (proj1 (history_is_chronological steadyScript 0 4000 2000 1010 _)).
  cbn. lia.
Defined.

(** ** Samples recorded during the lookahead *)

Lemma performThrowOrCatchAction_schedules (now tapTimestamp : Z)
  (rt : Runtime) :
  debounced now rt = false ->
  IsThrown (watchEntity rt) = false ->
  IsThrowPending (watchEntity rt) = false ->
  (0 < ConfigurableLookaheadDelayMs (watchEntity rt))%Z ->
  performThrowOrCatchAction now tapTimestamp rt
  = mkRuntime
      (set_IsThrowPending true (set_LastTapTime (Some now) (watchEntity rt)))
      now (timeouts rt ++ [tapTimestamp]).
Proof.
  intros Hpass Hthrown Hpend Hpos. unfold performThrowOrCatchAction.
  rewrite Hpass.
  cbn [IsThrowPending IsThrown set_LastTapTime ConfigurableLookaheadDelayMs].
  rewrite Hpend, Hthrown.
  destruct (Z.ltb_spec 0 (ConfigurableLookaheadDelayMs (watchEntity rt)));
    [reflexivity|lia].
Qed.

(** X14.  A sample recorded after the tap, while the throw is Pending,
    takes part in the deferred commit: when its clock reading lies in
    the window [tap - throwWindow, tap + lookahead] (and it survives the
    pruning of its own insert) the window query made when the timer
    fires returns it, and the commit throws. *)
Theorem lookahead_uses_later_samples (evs : list Event)
  (innerWidth innerHeight : R) (now tapTimestamp stamp now' : Z)
  (dx dy : R) :
  let rt := run evs (initial innerWidth innerHeight) in
  let e := watchEntity rt in
  throwState e = Idle ->
  debounced now rt = false ->
  (0 < ConfigurableLookaheadDelayMs e)%Z ->
  (tapTimestamp - ConfigurableThrowWindowMs e <= stamp
   <= tapTimestamp + ConfigurableLookaheadDelayMs e)%Z ->
  (now' - stamp <= ARM_DIRECTION_HISTORY_MAX_AGE_MS)%Z ->
  let rt1 :=
    handle (ArmDirectionChanged (Some (dx, dy)) stamp now')
           (handle (Tap now tapTimestamp) rt) in
  throwState (watchEntity rt1) = Pending
  /\ timeouts rt1 = [tapTimestamp]
  /\ In (Sample.mk dx dy stamp) (samplesInWindow tapTimestamp (watchEntity rt1))
  /\ throwState (watchEntity (handle (TimeoutFires 0) rt1)) = Flying
  /\ timeouts (handle (TimeoutFires 0) rt1) = [].
Proof.
  cbv zeta. intros Hidle Hpass Hpos Hwin Hage.
  set (rt := run evs (initial innerWidth innerHeight)) in *.
  assert (Hflags : IsThrown (watchEntity rt) = false
                   /\ IsThrowPending (watchEntity rt) = false).
  { unfold throwState in Hidle.
    destruct (IsThrown (watchEntity rt)), (IsThrowPending (watchEntity rt));
      try discriminate; split; reflexivity. }
  destruct Hflags as [Hthrown Hpend].
  pose proof (run_invariant evs _ (initial_invariant innerWidth innerHeight))
    as Hinv.
  fold rt in Hinv. unfold pendingInvariant in Hinv. rewrite Hpend in Hinv.
  cbn [handle]. unfold tapListener.
  rewrite (performThrowOrCatchAction_schedules now tapTimestamp rt
             Hpass Hthrown Hpend Hpos).
  rewrite Hinv. unfold onEntity.
  cbn [app watchEntity timeouts lastTapActionTimestamp].
  set (e1 := armDirectionListener (Some (dx, dy)) stamp now' _).
  assert (Hthrown1 : IsThrown e1 = false) by exact Hthrown.
  assert (Hpend1 : IsThrowPending e1 = true) by reflexivity.
  assert (Hin : In (Sample.mk dx dy stamp) (samplesInWindow tapTimestamp e1)).
  { unfold samplesInWindow. apply filter_In. split.
    - unfold e1. cbn [armDirectionListener ArmDirectionHistory
                      set_ArmDirectionHistory].
      apply filter_In. split.
      + apply in_or_app. right. left. reflexivity.
      + unfold fresh. cbn [Sample.timestamp]. apply Z.leb_le. exact Hage.
    - unfold inWindow. cbn [Sample.timestamp].
      change (ConfigurableThrowWindowMs e1)
        with (ConfigurableThrowWindowMs (watchEntity rt)).
      change (ConfigurableLookaheadDelayMs e1)
        with (ConfigurableLookaheadDelayMs (watchEntity rt)).
      apply andb_true_iff. split; apply Z.leb_le; lia. }
  clearbody e1.
  split; [unfold throwState; rewrite Hthrown1, Hpend1; reflexivity|].
  split; [reflexivity|]. split; [exact Hin|].
  unfold fireTimeout. cbn [timeouts nth_error watchEntity firstn skipn app].
  split; [|reflexivity].
  unfold delayedThrow. rewrite Hpend1. unfold throwState.
  cbn [IsThrown set_IsThrowPending].
  destruct (executeActualThrowLogic_with_samples tapTimestamp e1 Hthrown1)
    as [Hfly _].
  - intros Hnil. rewrite Hnil in Hin. exact Hin.
  - rewrite Hfly. reflexivity.
Qed.

Lemma lookahead_uses_later_samples_witness :
  throwState
    (watchEntity
       (handle (ArmDirectionChanged (Some (1, 0)) 1020 1020)
          (handle (Tap 1000 1000) (run [] (initial 4000 2000)))))
  = Pending.
Proof.
  refine (proj1 (lookahead_uses_later_samples [] 4000 2000 1000 1000 1020 1020
                   1 0 _ _ _ _ _)).
  - reflexivity.
  - reflexivity.
  - reflexivity.
  - vm_compute. split; discriminate.
  - vm_compute. discriminate.
Defined.

(** ** Resizing the window *)

Lemma handleResize_idle (newWidth newHeight : R) (e : Entity) :
  IsThrown e = false ->
  handleResize newWidth newHeight e
  = set_MousePosition (Vector2.mk (newWidth / 2) (newHeight / 2)) e.
Proof. intros H. unfold handleResize. rewrite H. reflexivity. Qed.

Lemma handleResize_flying (newWidth newHeight : R) (e : Entity) :
  IsThrown e = true -> handleResize newWidth newHeight e = e.
Proof. intros H. unfold handleResize. rewrite H. reflexivity. Qed.

Lemma centre_inPlayArea (innerWidth innerHeight : R) :
  2 * BOUNDARY_PADDING <= innerWidth ->
  2 * BOUNDARY_PADDING <= innerHeight ->
  inPlayArea innerWidth innerHeight
    (Vector2.mk (innerWidth / 2) (innerHeight / 2)).
Proof.
  unfold inPlayArea, BOUNDARY_PADDING. cbn. intros Hw Hh. lra.
Qed.

(** X15.  A resize moves an object that is not flying to the centre of
    the new window and changes nothing else; it leaves an object in
    flight as it is.  For a window at least two paddings wide and high,
    the position is in the padded rectangle of the new window after the
    resize when the object is not flying, and in either case after the
    first frame that follows the resize. *)
Theorem resize_recentres_object_at_rest (newWidth newHeight delta : R)
  (e : Entity) :
  2 * BOUNDARY_PADDING <= newWidth ->
  2 * BOUNDARY_PADDING <= newHeight ->
  let e' := handleResize newWidth newHeight e in
  (IsThrown e = false ->
   e' = set_MousePosition (Vector2.mk (newWidth / 2) (newHeight / 2)) e
   /\ inPlayArea newWidth newHeight (MousePosition e'))
  /\ (IsThrown e = true -> e' = e)
  /\ inPlayArea newWidth newHeight
       (MousePosition (useFrame delta newWidth newHeight e')).
Proof.
  intros Hw Hh. cbv zeta. split; [|split].
  - intros Hidle. rewrite (handleResize_idle _ _ _ Hidle).
    split; [reflexivity|]. apply centre_inPlayArea; assumption.
  - apply handleResize_flying.
  - apply useFrame_inPlayArea; [assumption|assumption|].
    destruct (IsThrown e) eqn:Hfly.
    + left. rewrite (handleResize_flying _ _ _ Hfly). exact Hfly.
    + right. rewrite (handleResize_idle _ _ _ Hfly).
      apply centre_inPlayArea; assumption.
Qed.

Lemma resize_recentres_object_at_rest_witness :
  inPlayArea 800 600
    (MousePosition (useFrame 0.01 800 600 (handleResize 800 600 flyingEntity))).
Proof.
  refine (proj2 (proj2 (resize_recentres_object_at_rest 800 600 0.01
                          flyingEntity _ _)));
    unfold BOUNDARY_PADDING; lra.
Defined.

Lemma catch_after_resize (rt : Runtime)
  (newWidth newHeight : R) (now tapTimestamp : Z)
  (delta innerWidth innerHeight : R) :
  IsThrown (watchEntity rt) = true ->
  IsThrowPending (watchEntity rt) = false ->
  debounced now rt = false ->
  let rt' :=
    handle (Frame delta innerWidth innerHeight)
      (handle (Tap now tapTimestamp)
         (onEntity (handleResize newWidth newHeight) rt)) in
  throwState (watchEntity rt') = Idle
  /\ MousePosition (watchEntity rt') = MousePosition (watchEntity rt).
Proof.
  intros Hfly Hpend Hpass. cbv zeta.
  assert (Hres : onEntity (handleResize newWidth newHeight) rt
                 = mkRuntime (watchEntity rt) (lastTapActionTimestamp rt)
                             (timeouts rt)).
  { unfold onEntity. rewrite (handleResize_flying _ _ _ Hfly). reflexivity. }
  rewrite Hres. clear Hres.
  assert (Hcatch :
            handle (Tap now tapTimestamp)
              (mkRuntime (watchEntity rt) (lastTapActionTimestamp rt)
                         (timeouts rt))
            = mkRuntime
                (set_MouseVelocity (Vector2.mk 0 0)
                   (set_IsThrown false
                      (set_LastTapTime (Some now) (watchEntity rt))))
                now (timeouts rt)).
  { cbn [handle]. unfold tapListener, performThrowOrCatchAction.
    change (debounced now _) with (debounced now rt). rewrite Hpass.
    cbn [watchEntity timeouts IsThrowPending IsThrown set_LastTapTime
         set_IsThrown set_MouseVelocity].
    rewrite Hpend, Hfly. reflexivity. }
  rewrite Hcatch. clear Hcatch.
  cbn [handle]. unfold onEntity. cbn [watchEntity].
  rewrite useFrame_idle by reflexivity.
  split; [|reflexivity].
  unfold throwState. cbn. rewrite Hpend. reflexivity.
Qed.

(** X16.  A resize does not bring an object in flight back into the
    window: when the object is caught after the resize, before the next
    frame, it rests where it was, and no later frame moves it, whatever
    the size of the window. *)
Theorem catch_after_resize_keeps_position (rt : Runtime)
  (newWidth newHeight : R) (now tapTimestamp : Z)
  (delta innerWidth innerHeight : R) :
  IsThrown (watchEntity rt) = true ->
  IsThrowPending (watchEntity rt) = false ->
  debounced now rt = false ->
  let rt' :=
    handle (Frame delta innerWidth innerHeight)
      (handle (Tap now tapTimestamp)
         (onEntity (handleResize newWidth newHeight) rt)) in
  throwState (watchEntity rt') = Idle
  /\ MousePosition (watchEntity rt') = MousePosition (watchEntity rt).
Proof.
  exact (catch_after_resize rt newWidth newHeight now tapTimestamp
           delta innerWidth innerHeight).
Qed.

Lemma catch_after_resize_keeps_position_witness :
  MousePosition
    (watchEntity
       (handle (Frame 0.01 300 200)
          (handle (Tap 1200 1200)
             (onEntity (handleResize 300 200)
                (mkRuntime flyingEntity 0 [])))))
  = MousePosition flyingEntity.
Proof.
  refine (proj2 (catch_after_resize_keeps_position
                   (mkRuntime flyingEntity 0 []) 300 200 1200 1200
                   0.01 300 200 _ _ _)); reflexivity.
Defined.

(** ** The debug line *)

Lemma insertByTimestamp_length (s : Sample.t) (l : list Sample.t) :
  length (insertByTimestamp s l) = S (length l).
Proof.
  induction l as [|a rest IH]; cbn; [reflexivity|].
  destruct (_ <=? _)%Z; cbn; [reflexivity|]. rewrite IH. reflexivity.
Qed.

Lemma sortByTimestamp_length (l : list Sample.t) :
  length (sortByTimestamp l) = length l.
Proof.
  induction l as [|a rest IH]; cbn; [reflexivity|].
  rewrite insertByTimestamp_length. f_equal. exact IH.
Qed.

Lemma insertByTimestamp_sum (f : Sample.t -> R) (s : Sample.t)
  (l : list Sample.t) :
  fold_right Rplus 0 (map f (insertByTimestamp s l))
  = f s + fold_right Rplus 0 (map f l).
Proof.
  induction l as [|a rest IH]; cbn; [reflexivity|].
  destruct (_ <=? _)%Z; cbn; [reflexivity|]. rewrite IH. lra.
Qed.

Lemma sortByTimestamp_sum (f : Sample.t -> R) (l : list Sample.t) :
  fold_right Rplus 0 (map f (sortByTimestamp l))
  = fold_right Rplus 0 (map f l).
Proof.
  induction l as [|a rest IH]; cbn; [reflexivity|].
  rewrite insertByTimestamp_sum. f_equal. exact IH.
Qed.

Lemma pushSegments_length (strength scale currentX currentY : R)
  (samples : list Sample.t) :
  length (pushSegments strength scale currentX currentY samples)
  = length samples.
Proof.
  revert currentX currentY.
  induction samples as [|s rest IH]; intros cx cy; cbn; [reflexivity|].
  rewrite IH. reflexivity.
Qed.

Lemma pushSegments_last (strength scale : R) (samples : list Sample.t) :
  forall (currentX currentY : R) (d : Vector3.t),
    last (Vector3.mk currentX currentY 0.1
          :: pushSegments strength scale currentX currentY samples) d
    = Vector3.mk
        (currentX
         + fold_right Rplus 0 (map Sample.dx samples) * strength * scale)
        (currentY
         - fold_right Rplus 0 (map Sample.dy samples) * strength * scale)
        0.1.
Proof.
  induction samples as [|s rest IH]; intros cx cy d.
  - cbn. f_equal; lra.
  - cbn [pushSegments].
    change (last (?p :: ?q :: ?l) d) with (last (q :: l) d).
    rewrite IH. cbn [map fold_right]. f_equal; lra.
Qed.

Lemma hideLine_two_points (linePoints : list Vector3.t) :
  (2 <= length linePoints)%nat ->
  exists points : list Vector3.t,
    hideLine linePoints = Some points
    /\ (points = restingLine
        \/ (points = linePoints
            /\ Forall (fun p => Vector3.x p = 0) linePoints
            /\ length linePoints = 2%nat)).
Proof.
  intros Hlen. unfold hideLine.
  destruct (Nat.ltb_spec 2 (length linePoints)) as [Hlong|Hshort].
  - exists restingLine. split; [reflexivity|left; reflexivity].
  - destruct linePoints as [|p0 [|p1 [|p2 rest]]]; cbn in Hlen, Hshort;
      try lia.
    cbn [nth_error]. unfold Reqb.
    destruct (Req_dec_T (Vector3.x p0) 0) as [H0|H0]; cbn [negb];
      [|exists restingLine; split; [reflexivity|left; reflexivity]].
    destruct (Req_dec_T (Vector3.x p1) 0) as [H1|H1]; cbn [negb];
      [|exists restingLine; split; [reflexivity|left; reflexivity]].
    exists [p0; p1]. split; [reflexivity|right].
    split; [reflexivity|]. split; [|reflexivity].
    constructor; [exact H0|]. constructor; [exact H1|constructor].
Qed.

Lemma drawLine_points (configurableThrowWindow : Z)
  (currentThrowStrength : R) (tapTime : Z) (innerWidth innerHeight : R)
  (e : Entity) :
  let samples :=
    filter (inWindow (tapTime - configurableThrowWindow)
                     (tapTime + ConfigurableLookaheadDelayMs e))
           (ArmDirectionHistory e) in
  let points :=
    drawLine configurableThrowWindow currentThrowStrength tapTime
             innerWidth innerHeight e in
  length points = S (Nat.max 1 (length samples))
  /\ hd (Vector3.mk 0 0 0) points
     = Vector3.mk (Vector2.x (MousePosition e) - innerWidth / 2)
                  (- (Vector2.y (MousePosition e) - innerHeight / 2)) 0.1.
Proof.
  cbv zeta. unfold drawLine.
  rewrite sortByTimestamp_length.
  set (samples := filter _ (ArmDirectionHistory e)).
  destruct (Nat.ltb_spec 0 (length samples)) as [Hsome|Hnone].
  - cbn [length]. rewrite pushSegments_length, sortByTimestamp_length.
    destruct (Nat.eqb_spec (S (length samples)) 1) as [Hone|_]; [lia|].
    cbn [length hd]. rewrite pushSegments_length, sortByTimestamp_length.
    split; [f_equal; lia|reflexivity].
  - destruct (ArmDirection e) as [d|]; cbn [length hd];
      (split; [f_equal; lia|reflexivity]).
Qed.

(** X17.  The debug line always has at least two points: from a line of
    at least two points the callback never reads a point that is not
    there, and the line it leaves has at least two points again.  While
    the line is hidden the points are reset to the two resting points (or
    kept, when they already rest at x = 0); while it is shown the line
    starts at the position of the cursor's mesh and has one point more
    than there are samples in the window, two when there are none. *)
Theorem debug_line_has_two_points
  (showDebugLineSetting isCurrentlyThrown : bool)
  (configurableThrowWindow : Z) (currentThrowStrength : R) (tapTime : Z)
  (innerWidth innerHeight : R) (e : Entity) (linePoints : list Vector3.t) :
  (2 <= length linePoints)%nat ->
  exists points : list Vector3.t,
    debugLineFrame showDebugLineSetting isCurrentlyThrown
      configurableThrowWindow currentThrowStrength tapTime
      innerWidth innerHeight e linePoints = Some points
    /\ (2 <= length points)%nat
    /\ (showDebugLineSetting = false \/ isCurrentlyThrown = true ->
        points = restingLine
        \/ (points = linePoints
            /\ Forall (fun p => Vector3.x p = 0) linePoints))
    /\ (showDebugLineSetting = true /\ isCurrentlyThrown = false ->
        length points
        = S (Nat.max 1
               (length
                  (filter (inWindow (tapTime - configurableThrowWindow)
                                    (tapTime + ConfigurableLookaheadDelayMs e))
                          (ArmDirectionHistory e))))
        /\ hd (Vector3.mk 0 0 0) points
           = Vector3.mk (Vector2.x (MousePosition e) - innerWidth / 2)
                        (- (Vector2.y (MousePosition e) - innerHeight / 2))
                        0.1).
Proof.
  intros Hlen. unfold debugLineFrame.
  destruct (negb showDebugLineSetting || isCurrentlyThrown) eqn:Hhide.
  - destruct (hideLine_two_points linePoints Hlen) as (points & Heq & Hcase).
    exists points. split; [exact Heq|]. split; [|split].
    + destruct Hcase as [->|(-> & _ & H2)]; [cbn; lia|exact Hlen].
    + intros _. destruct Hcase as [H|(H & Hx & _)]; [left; exact H|].
      right. split; assumption.
    + intros [-> ->]. discriminate.
  - eexists. split; [reflexivity|].
    destruct (drawLine_points configurableThrowWindow currentThrowStrength
                tapTime innerWidth innerHeight e) as [Hcount Hhead].
    cbv zeta in Hcount, Hhead. split; [|split].
    + rewrite Hcount. lia.
    + intros [->| ->]; [discriminate|].
      destruct showDebugLineSetting; discriminate.
    + intros _. split; assumption.
Qed.

Lemma debug_line_has_two_points_witness :
  exists points : list Vector3.t,
    debugLineFrame true false 50 900 1000 800 600 (spawned 800 600)
                   restingLine = Some points
    /\ (2 <= length points)%nat.
Proof.
  destruct (debug_line_has_two_points true false 50 900 1000 800 600
              (spawned 800 600) restingLine) as (points & Heq & Hlen & _).
  - cbn. lia.
  - exists points. split; assumption.
Defined.

Lemma executeActualThrowLogic_without_samples (tapTimestamp : Z)
  (e : Entity) (d : Vector2.t) :
  IsThrown e = false ->
  EnableCurveball e = false ->
  samplesInWindow tapTimestamp e = [] ->
  ArmDirection e = Some d ->
  MouseVelocity (executeActualThrowLogic tapTimestamp e)
  = Vector2.mk (Vector2.x d * ConfigurableThrowStrength e)
               (Vector2.y d * ConfigurableThrowStrength e).
Proof.
  intros Hidle Hcurve Hnone Hdir. unfold executeActualThrowLogic.
  rewrite Hidle, Hnone, Hdir. cbn [baseDirection].
  unfold planThrow. rewrite Hcurve. reflexivity.
Qed.

(** X18.  With curveball mode off the debug line shows the throw that a
    tap would commit at that moment: the vector from its first to its
    last point is the velocity that the commit routine would write,
    mirrored in y and scaled by 0.1 times the square root of the number
    of samples in the window (by 0.1 when the window is empty and the
    last arm direction is used). *)
Theorem debug_line_shows_the_throw (tapTime : Z)
  (innerWidth innerHeight : R) (e : Entity) :
  IsThrown e = false ->
  EnableCurveball e = false ->
  samplesInWindow tapTime e <> [] \/ ArmDirection e <> None ->
  let points :=
    drawLine (ConfigurableThrowWindowMs e) (ConfigurableThrowStrength e)
             tapTime innerWidth innerHeight e in
  let v := MouseVelocity (executeActualThrowLogic tapTime e) in
  let k :=
    DEBUG_LINE_VISUAL_SCALE
    * sqrt (INR (Nat.max 1 (length (samplesInWindow tapTime e)))) in
  lineSpan points = (k * Vector2.x v, - (k * Vector2.y v)).
Proof.
  intros Hidle Hcurve Hknown. cbv zeta.
  unfold drawLine.
  change (filter _ (ArmDirectionHistory e)) with (samplesInWindow tapTime e).
  rewrite sortByTimestamp_length.
  destruct (samplesInWindow tapTime e) as [|s rest] eqn:Hrecent.
  - destruct Hknown as [H|H]; [contradiction|].
    destruct (ArmDirection e) as [d|] eqn:Hdir; [|contradiction].
    rewrite (executeActualThrowLogic_without_samples tapTime e d
               Hidle Hcurve Hrecent Hdir).
    cbn [length Nat.ltb Nat.leb Nat.max INR]. rewrite sqrt_1.
    unfold lineSpan. cbn. f_equal; lra.
  - destruct (executeActualThrowLogic_with_samples tapTime e Hidle)
      as (_ & Hvel & _); [rewrite Hrecent; discriminate|].
    cbv zeta in Hvel. rewrite (Hvel (or_introl Hcurve)). clear Hvel.
    rewrite Hrecent.
    set (recent := s :: rest) in *.
    set (n := length recent).
    assert (Hn : (1 <= n)%nat) by (unfold n, recent; cbn; lia).
    destruct (Nat.ltb_spec 0 n) as [_|]; [|lia].
    replace (Nat.max 1 n) with n by lia.
    assert (Hpos : 0 < INR n) by (apply lt_0_INR; lia).
    assert (Hroot : 0 < sqrt (INR n)) by (apply sqrt_lt_R0; exact Hpos).
    assert (Hsq : sqrt (INR n) * sqrt (INR n) = INR n)
      by (apply sqrt_sqrt; lra).
    assert (Hscale :
              (if (1 <? n)%nat then sqrt (INR n) else 1) = sqrt (INR n)).
    { destruct (Nat.ltb_spec 1 n) as [_|Hone]; [reflexivity|].
      replace n with 1%nat by lia. cbn [INR]. rewrite sqrt_1. reflexivity. }
    rewrite Hscale.
    cbn [length]. rewrite pushSegments_length, sortByTimestamp_length.
    fold n.
    destruct (Nat.eqb_spec (S n) 1) as [|_]; [lia|].
    unfold lineSpan. rewrite pushSegments_last. cbn [hd Vector3.x Vector3.y].
    rewrite !sortByTimestamp_sum.
    unfold average. rewrite !length_map. fold n.
    cbn [Vector2.x Vector2.y].
    set (sx := fold_right Rplus 0 (map Sample.dx recent)).
    set (sy := fold_right Rplus 0 (map Sample.dy recent)).
    set (r := sqrt (INR n)) in *.
    rewrite <- Hsq. unfold DEBUG_LINE_VISUAL_SCALE.
    f_equal; field; lra.
Qed.

Lemma debug_line_shows_the_throw_witness :
  lineSpan (drawLine 50 500 10 800 600 (scenarioEntity 1 false))
  = (0.1 * sqrt (INR 1)
     * Vector2.x (MouseVelocity
                    (executeActualThrowLogic 10 (scenarioEntity 1 false))),
     - (0.1 * sqrt (INR 1)
        * Vector2.y (MouseVelocity
                       (executeActualThrowLogic 10 (scenarioEntity 1 false))))).
Proof.
  refine (debug_line_shows_the_throw 10 800 600 (scenarioEntity 1 false)
            _ _ _).
  - reflexivity.
  - reflexivity.
  - left. cbn. discriminate.
Defined.

(** ** Curveball mode off: the previous revision *)

(** X19.  With curveball mode off a frame does exactly what the frame
    callback of the revision without curveball does: the path plan and
    the residual spin play no part, whatever they hold. *)
Theorem frame_without_curveball (delta innerWidth innerHeight : R)
  (e : Entity) :
  EnableCurveball e = false ->
  useFrame delta innerWidth innerHeight e
  = BeforeCurveball.useFrame delta innerWidth innerHeight e.
Proof.
  intros Hoff. unfold useFrame, BeforeCurveball.useFrame.
  destruct (IsThrown e); [|reflexivity].
  rewrite Hoff. rewrite followPlan_inactive by reflexivity.
  unfold spins. cbn [andb].
  destruct (applyFriction _ _ _) as [vel stops].
  reflexivity.
Qed.

Lemma frame_without_curveball_witness :
  useFrame 0.01 4000 2000 flyingEntity
  = BeforeCurveball.useFrame 0.01 4000 2000 flyingEntity.
Proof.
  refine (frame_without_curveball 0.01 4000 2000 flyingEntity _).
  reflexivity.
Defined.

(** X20.  With curveball mode off the commit routine differs from the
    one of the revision without curveball in two ways only: it clears
    the path plan and the spin when it throws, and it has no guard on
    the zero vector.  When no direction is known the two do the same;
    when the base direction is not the zero vector, the newer routine
    writes what the older one writes and clears the curve. *)
Theorem commit_without_curveball (tapTimestamp : Z) (e : Entity) :
  IsThrown e = false ->
  EnableCurveball e = false ->
  let base := baseDirection (samplesInWindow tapTimestamp e) (ArmDirection e) in
  (base = None ->
   executeActualThrowLogic tapTimestamp e
   = PreviousRevision.executeActualThrowLogic tapTimestamp e)
  /\ (forall throwDx throwDy : R,
        base = Some (throwDx, throwDy) ->
        throwDx <> 0 \/ throwDy <> 0 ->
        executeActualThrowLogic tapTimestamp e
        = clearCurve (PreviousRevision.executeActualThrowLogic tapTimestamp e)).
Proof.
  intros Hidle Hoff. cbv zeta.
  unfold executeActualThrowLogic, PreviousRevision.executeActualThrowLogic.
  rewrite Hidle. split.
  - intros ->. reflexivity.
  - intros throwDx throwDy -> Hnz.
    unfold planThrow. rewrite Hoff. cbn [andb].
    assert (Hguard : Reqb throwDx 0 && Reqb throwDy 0 = false).
    { destruct Hnz as [H|H].
      - rewrite (Reqb_false _ _ H). reflexivity.
      - rewrite (Reqb_false _ _ H). apply andb_false_r. }
    rewrite Hguard. reflexivity.
Qed.

Lemma commit_without_curveball_witness :
  executeActualThrowLogic 10 (scenarioEntity 1 false)
  = clearCurve
      (PreviousRevision.executeActualThrowLogic 10 (scenarioEntity 1 false)).
Proof.
  refine (proj2 (commit_without_curveball 10 (scenarioEntity 1 false) _ _)
                (sumOf Sample.dx [Sample.mk 1 0 0] / INR 1)
                (sumOf Sample.dy [Sample.mk 1 0 0] / INR 1) _ _).
  - reflexivity.
  - reflexivity.
  - reflexivity.
  - left. unfold sumOf. cbn. lra.
Defined.

(** ** Earlier revisions *)

Lemma clamped_above_raw (s : R) :
  0 <= s <= 1 -> s <= clampedFlickSensitivityInternal s.
Proof.
  intros [Hlo Hhi].
  unfold clampedFlickSensitivityInternal, flickSensitivityInternal,
    FLICK_SENSITIVITY_UI_QUADRATIC_A, FLICK_SENSITIVITY_UI_QUADRATIC_B.
  assert (Hq : s <= -1.8 * s ^ 2 + 2.8 * s) by nra.
  eapply Rle_trans; [|apply Rmax_r].
  apply Rmin_glb; lra.
Qed.

(** X21.  The quadratic remapping of the slider makes the flick
    classifier more sensitive: for every slider position from 0.05 to
    0.95 the remapped sensitivity exceeds the raw one by at least 0.0855
    before the clamp, the threshold is at most the threshold computed
    from the raw sensitivity, and whatever the classifier of the revision
    without the remapping detects, the remapped classifier detects too. *)
Theorem remapping_lowers_the_threshold (sensitivity tapProbability : R) :
  0.05 <= sensitivity <= 0.95 ->
  sensitivity + 0.0855 <= flickSensitivityInternal sensitivity
  /\ probabilityThreshold sensitivity
     <= RawSensitivity.probabilityThreshold sensitivity
  /\ (RawSensitivity.flickTapDetected sensitivity tapProbability = true ->
      flickTapDetected sensitivity tapProbability = true).
Proof.
  intros Hrange.
  assert (Hmargin : sensitivity + 0.0855
                    <= flickSensitivityInternal sensitivity).
  { unfold flickSensitivityInternal, FLICK_SENSITIVITY_UI_QUADRATIC_A,
      FLICK_SENSITIVITY_UI_QUADRATIC_B. nra. }
  assert (Hle : probabilityThreshold sensitivity
                <= RawSensitivity.probabilityThreshold sensitivity).
  { unfold probabilityThreshold, RawSensitivity.probabilityThreshold.
    assert (H01 : 0 <= sensitivity <= 1) by lra.
    pose proof (clamped_above_raw sensitivity H01).
    pose proof (clamped_range sensitivity).
    apply pow_incr. lra. }
  split; [exact Hmargin|]. split; [exact Hle|].
  unfold RawSensitivity.flickTapDetected, flickTapDetected.
  destruct (Rlt_dec 0 sensitivity); [|discriminate].
  unfold Rleb.
  destruct (Rle_dec (RawSensitivity.probabilityThreshold sensitivity)
                    tapProbability) as [Hraw|_]; [|discriminate].
  intros _.
  destruct (Rle_dec (probabilityThreshold sensitivity) tapProbability);
    [reflexivity|lra].
Qed.

Lemma remapping_lowers_the_threshold_witness :
  probabilityThreshold 0.5 <= RawSensitivity.probabilityThreshold 0.5.
Proof.
  refine (proj1 (proj2 (remapping_lowers_the_threshold 0.5 0 _))). lra.
Defined.

(** X22.  In the first revision with a history a tap on an object at
    rest starts a flight exactly when the direction it computes is not
    the zero vector, and then with 500 times that direction as velocity:
    the object never flies with velocity zero.  A tap on a flying object
    catches it. *)
Theorem first_history_revision_tap (now tapTime : Z) (e : Entity) :
  let e' := FirstHistoryRevision.tapListener now tapTime e in
  let d := FirstHistoryRevision.throwDirection tapTime e in
  (IsThrown e = true ->
   IsThrown e' = false /\ MouseVelocity e' = Vector2.mk 0 0)
  /\ (IsThrown e = false ->
      (IsThrown e' = true <-> d <> (0, 0))
      /\ (IsThrown e' = true ->
          MouseVelocity e'
          = Vector2.mk (fst d * FirstHistoryRevision.THROW_SPEED_SCALE)
                       (snd d * FirstHistoryRevision.THROW_SPEED_SCALE)
          /\ 0 < speed (MouseVelocity e'))
      /\ (IsThrown e' = false -> MouseVelocity e' = MouseVelocity e)).
Proof.
  cbv zeta. unfold FirstHistoryRevision.tapListener.
  cbn [IsThrown set_LastTapTime].
  change (FirstHistoryRevision.throwDirection tapTime
            (set_LastTapTime (Some now) e))
    with (FirstHistoryRevision.throwDirection tapTime e).
  split.
  - intros ->. cbn. split; reflexivity.
  - intros Hidle. rewrite Hidle. cbn [negb].
    destruct (FirstHistoryRevision.throwDirection tapTime e)
      as [throwDx throwDy].
    unfold Reqb.
    destruct (Req_dec_T throwDx 0) as [Hx|Hx];
      destruct (Req_dec_T throwDy 0) as [Hy|Hy]; cbn [negb orb].
    + subst. cbn [IsThrown MouseVelocity set_LastTapTime]. rewrite Hidle.
      split; [|split].
      * split; [discriminate|intros H; contradiction H; reflexivity].
      * discriminate.
      * reflexivity.
    + cbn [IsThrown MouseVelocity set_IsThrown set_MouseVelocity fst snd].
      split; [|split].
      * split; [intros _ H; inversion H; contradiction|reflexivity].
      * intros _. split; [reflexivity|].
        unfold speed. cbn [Vector2.x Vector2.y].
        rewrite norm_scale. unfold FirstHistoryRevision.THROW_SPEED_SCALE.
        rewrite (Rabs_right 500) by lra.
        pose proof (norm_drop_x throwDx throwDy) as Hn.
        assert (0 < norm 0 throwDy).
        { unfold norm. apply sqrt_lt_R0. nra. }
        lra.
      * discriminate.
    + cbn [IsThrown MouseVelocity set_IsThrown set_MouseVelocity fst snd].
      split; [|split].
      * split; [intros _ H; inversion H; contradiction|reflexivity].
      * intros _. split; [reflexivity|].
        unfold speed. cbn [Vector2.x Vector2.y].
        rewrite norm_scale. unfold FirstHistoryRevision.THROW_SPEED_SCALE.
        rewrite (Rabs_right 500) by lra.
        assert (0 < norm throwDx throwDy).
        { unfold norm. apply sqrt_lt_R0. nra. }
        lra.
      * discriminate.
    + cbn [IsThrown MouseVelocity set_IsThrown set_MouseVelocity fst snd].
      split; [|split].
      * split; [intros _ H; inversion H; contradiction|reflexivity].
      * intros _. split; [reflexivity|].
        unfold speed. cbn [Vector2.x Vector2.y].
        rewrite norm_scale. unfold FirstHistoryRevision.THROW_SPEED_SCALE.
        rewrite (Rabs_right 500) by lra.
        assert (0 < norm throwDx throwDy).
        { unfold norm. apply sqrt_lt_R0. nra. }
        lra.
      * discriminate.
Qed.

(** ** The speed of a throw *)

Lemma insertByTimestamp_filter_length (f : Sample.t -> bool) (s : Sample.t)
  (l : list Sample.t) :
  length (filter f (insertByTimestamp s l)) = length (filter f (s :: l)).
Proof.
  induction l as [|a rest IH]; [reflexivity|].
  cbn [insertByTimestamp]. destruct (_ <=? _)%Z; [reflexivity|].
  cbn [filter] in *. destruct (f a), (f s); cbn [length] in *; lia.
Qed.

Lemma sortByTimestamp_filter_length (f : Sample.t -> bool)
  (l : list Sample.t) :
  length (filter f (sortByTimestamp l)) = length (filter f l).
Proof.
  induction l as [|a rest IH]; [reflexivity|].
  cbn [sortByTimestamp fold_right].
  change (fold_right insertByTimestamp [] rest) with (sortByTimestamp rest).
  rewrite insertByTimestamp_filter_length. cbn [filter].
  destruct (f a); cbn [length]; rewrite IH; reflexivity.
Qed.

(** X23.  The speed of a throw.  With curveball mode off the object
    leaves with the length of the averaged direction times the throw
    strength.  In curveball mode, as soon as one sample of the window is
    longer than 0.001, the length of the gesture plays no part: the
    object leaves with the throw strength as its speed, along a fresh
    plan that has one segment for each such sample. *)
Theorem throw_speed (tapTimestamp : Z) (e : Entity) :
  IsThrown e = false ->
  samplesInWindow tapTimestamp e <> [] ->
  let recent := samplesInWindow tapTimestamp e in
  let strength := ConfigurableThrowStrength e in
  let e' := executeActualThrowLogic tapTimestamp e in
  (EnableCurveball e = false ->
   speed (MouseVelocity e')
   = Rabs strength
     * norm (average (map Sample.dx recent)) (average (map Sample.dy recent)))
  /\ (EnableCurveball e = true ->
      filter usable recent <> [] ->
      speed (MouseVelocity e') = Rabs strength
      /\ length (Plan.segments (ThrowPathPlan e'))
         = length (filter usable recent)
      /\ Plan.currentIndex (ThrowPathPlan e') = 0%nat
      /\ Plan.activeTimeInSegment (ThrowPathPlan e') = 0).
Proof.
  intros Hidle Hsome. cbv zeta.
  destruct (executeActualThrowLogic_with_samples tapTimestamp e Hidle Hsome)
    as (_ & Hplain & Hcurved).
  cbv zeta in Hplain, Hcurved. split.
  - intros Hoff. rewrite (Hplain (or_introl Hoff)).
    unfold speed. cbn [Vector2.x Vector2.y]. apply norm_scale.
  - intros Hon Husable.
    pose proof (buildPathSegments_count
                  (sortByTimestamp (samplesInWindow tapTimestamp e))) as Hcount.
    rewrite sortByTimestamp_filter_length in Hcount.
    pose proof (buildPathSegments_unit
                  (sortByTimestamp (samplesInWindow tapTimestamp e))) as Hunit.
    destruct (buildPathSegments
                (sortByTimestamp (samplesInWindow tapTimestamp e)))
      as [|seg0 rest] eqn:Hsegs.
    { destruct (filter usable (samplesInWindow tapTimestamp e));
        [contradiction|discriminate]. }
    split.
    + rewrite (Hcurved seg0 rest Hon eq_refl).
      unfold speed. cbn [Vector2.x Vector2.y]. rewrite norm_scale.
      inversion Hunit as [|? ? H1 _]; subst. rewrite H1. lra.
    + rewrite <- Hcount.
      unfold executeActualThrowLogic. rewrite Hidle.
      unfold baseDirection.
      destruct (samplesInWindow tapTimestamp e) as [|s l] eqn:Hrecent;
        [contradiction|].
      unfold planThrow. rewrite Hon. cbn [length Nat.eqb negb andb].
      rewrite Hsegs. cbn. repeat split; reflexivity.
Qed.

Lemma throw_speed_witness :
  speed (MouseVelocity (executeActualThrowLogic 20 straightMoveEntity))
  = Rabs (ConfigurableThrowStrength straightMoveEntity).
Proof.
  refine (proj1 (proj2 (throw_speed 20 straightMoveEntity _ _) _ _)).
  - reflexivity.
  - cbn. discriminate.
  - reflexivity.
  - cbn [straightMoveEntity samplesInWindow ArmDirectionHistory
         set_EnableCurveball set_ArmDirectionHistory filter].
    cbn. unfold usable at 1. cbn [Sample.dx Sample.dy].
    rewrite Rltb_true; [discriminate|].
    unfold norm. apply Rlt_le_trans with (sqrt (3 * 3)).
    + rewrite sqrt_square by lra. lra.
    + apply sqrt_le_1_alt. lra.
Defined.

(** ** The play area and the window *)

Lemma clampAxis_small (bound : R) (pv : R * R) :
  bound < 2 * BOUNDARY_PADDING ->
  fst (clampAxis bound pv) = bound - BOUNDARY_PADDING.
Proof.
  intros Hsmall. unfold clampAxis, BOUNDARY_PADDING in *.
  destruct pv as [p v]. cbn [fst].
  destruct (Rlt_dec p 50) as [Hlow|Hlow].
  - destruct (Rgt_dec 50 (bound - 50)) as [_|H]; [reflexivity|lra].
  - destruct (Rgt_dec p (bound - 50)) as [_|H]; [reflexivity|lra].
Qed.

(** C4, as stated, fails in two ways.  In a window 60 wide and high,
    narrower than two paddings, every frame in flight leaves the object
    at (10, 10), left of and above the padding of 50.  And in a window
    that is resized from 4000 by 2000 to 300 by 200 while the object
    flies, an object that is caught before the next frame rests at
    (2000, 1000), outside of the new window, after the frame. *)
Lemma position_leaves_play_area :
  (let rt := run (throwScript ++ [Frame 0.01 60 60]) (initial 60 60) in
   MousePosition (watchEntity rt) = Vector2.mk 10 10
   /\ ~ inPlayArea 60 60 (MousePosition (watchEntity rt)))
  /\ (let rt :=
        handle (Frame 0.01 300 200)
          (handle (Tap 1200 1200)
             (onEntity (handleResize 300 200)
                (run throwScript (initial 4000 2000)))) in
      throwState (watchEntity rt) = Idle
      /\ MousePosition (watchEntity rt) = Vector2.mk (4000 / 2) (2000 / 2)
      /\ ~ inPlayArea 300 200 (MousePosition (watchEntity rt))).
Proof.
  split.
  - cbv zeta. rewrite run_app.
    set (rt0 := run throwScript (initial 60 60)).
    assert (Hfly : IsThrown (watchEntity rt0) = true) by reflexivity.
    change (run [Frame 0.01 60 60] rt0)
      with (onEntity (useFrame 0.01 60 60) rt0).
    unfold onEntity. cbn [watchEntity].
    destruct (useFrame_flying 0.01 60 60 (watchEntity rt0) Hfly)
      as (w & stops & Hpos & _).
    cbv zeta in Hpos. rewrite Hpos.
    rewrite !clampAxis_small by (unfold BOUNDARY_PADDING; lra).
    unfold BOUNDARY_PADDING.
    replace (60 - 50) with 10 by lra.
    split; [reflexivity|].
    unfold inPlayArea, BOUNDARY_PADDING. cbn [Vector2.x Vector2.y]. lra.
  - cbv zeta.
    set (rt0 := run throwScript (initial 4000 2000)).
    destruct (catch_after_resize rt0 300 200 1200 1200 0.01 300 200)
      as [Hidle Hpos]; [reflexivity|reflexivity|reflexivity|].
    cbv zeta in Hidle, Hpos.
    split; [exact Hidle|]. rewrite Hpos.
    change (MousePosition (watchEntity rt0))
      with (Vector2.mk (4000 / 2) (2000 / 2)).
    split; [reflexivity|].
    unfold inPlayArea, BOUNDARY_PADDING. cbn [Vector2.x Vector2.y]. lra.
Qed.

(** ** The catch and the deferred commit *)









